(** * merge_code.py / mergecode.py: the tree-walking merge engine

    A shallow embedding of the two scripts of the repository and of the
    parts of the Python library they call ([str] methods, [posixpath],
    [os.walk]), followed by the properties of the merged document.

    Conventions.
    - A Python [str] is a [string]; Python integers that can be [-1]
      ([str.rfind]) are [Z], counts are [nat].
    - The platform is POSIX: [os.path] is [posixpath], [os.sep] is [/].
      The library functions follow the Python sources of CPython 3.13
      ([posixpath.py], [genericpath.py], [os.py]).
    - The file system below the working directory is a finite tree; a
      directory lists its sub-directories and its files in the order in
      which [os.scandir] returns them.  The tree does not change during
      a run, but for the output file.
    - What [open(path, "r", encoding="utf-8", errors="ignore")] followed
      by [read()] does to one file is recorded in the tree: either the
      decoded text or the message of the raised exception.
    - [outfile.write] appends to the document, [print] appends a line to
      the standard output; both are threaded through a [world].
    - A run is followed as far as the output stream takes what it is
      given.  The stream is opened for UTF-8 text: [open] raises where
      a sub-directory of the working directory has the name of the
      output file, and [outfile.write] raises for a name that is not
      valid UTF-8, outside any [try].  What a run writes is therefore
      stated for working directories without such a sub-directory and
      with names that are valid UTF-8 ([utf8], [utf8_tree]).
    - Symbolic links, directories that cannot be listed, the encoding of
      the standard output and a device that fails are outside the
      model. *)

From Stdlib Require Import Ascii String ZArith Lia.
From stdpp Require Import base gmap strings list.

Set Warnings "-register-all".
Set Default Proof Using "Type".

(** ** Python strings *)

Module str.

(** [s[n:]] and [s[:n]] for a natural number [n]. *)
Fixpoint drop (n : nat) (s : string) : string :=
  match n, s with
  | O, _ => s
  | S _, EmptyString => EmptyString
  | S n', String _ s' => drop n' s'
  end.

Fixpoint take (n : nat) (s : string) : string :=
  match n, s with
  | O, _ => EmptyString
  | S _, EmptyString => EmptyString
  | S n', String c s' => String c (take n' s')
  end.

(** A slice bound as Python clamps it: negative bounds count from the
    end, everything is cut to [0 .. len s]. *)
Definition clamp (s : string) (i : Z) : nat :=
  let len := Z.of_nat (String.length s) in
  Z.to_nat (if (i <? 0)%Z then Z.max 0 (len + i) else Z.min i len).

(** [s[i:j]], [s[i:]], [s[:j]]. *)
Definition slice (s : string) (i j : Z) : string :=
  take (clamp s j - clamp s i) (drop (clamp s i) s).
Definition slice_from (s : string) (i : Z) : string := drop (clamp s i) s.
Definition slice_to (s : string) (j : Z) : string := take (clamp s j) s.

(** [s.startswith(p)], [s.endswith(p)]. *)
Definition startswith (s p : string) : bool := String.prefix p s.

Fixpoint endswith (s p : string) : bool :=
  String.eqb s p ||
  match s with
  | EmptyString => false
  | String _ s' => endswith s' p
  end.

(** [s.rfind(c)] for a one-character [c]: the index of the last
    occurrence, [-1] when there is none. *)
Fixpoint rfind (s : string) (c : ascii) : Z :=
  match s with
  | EmptyString => (-1)%Z
  | String a s' =>
      let r := rfind s' c in
      if (0 <=? r)%Z then (r + 1)%Z
      else if Ascii.eqb a c then 0%Z else (-1)%Z
  end.

(** [s.split(c)] for a one-character separator: never empty. *)
Fixpoint split (s : string) (c : ascii) : list string :=
  match s with
  | EmptyString => [EmptyString]
  | String a s' =>
      match split s' c with
      | [] => [EmptyString]
      | h :: t => if Ascii.eqb a c then EmptyString :: h :: t
                  else String a h :: t
      end
  end.

(** [sep.join(l)]. *)
Fixpoint join (sep : string) (l : list string) : string :=
  match l with
  | [] => EmptyString
  | x :: l' =>
      match l' with
      | [] => x
      | _ :: _ => x +:+ sep +:+ join sep l'
      end
  end.

(** [s.lstrip(c)] for a one-character [c]. *)
Fixpoint lstrip (s : string) (c : ascii) : string :=
  match s with
  | EmptyString => EmptyString
  | String a s' => if Ascii.eqb a c then lstrip s' c else s
  end.

(** [s * n]. *)
Fixpoint mul (s : string) (n : nat) : string :=
  match n with
  | O => EmptyString
  | S n' => s +:+ mul s n'
  end.

(** [s.replace(old, new)]: occurrences of [old] are found from the
    left and do not overlap.  [skip] counts the characters of the
    occurrence just replaced that are still to be passed over.  For an
    empty [old] Python puts [new] before every character and at the
    end. *)
Fixpoint replace_go (old new : string) (skip : nat) (s : string) : string :=
  match s with
  | EmptyString => EmptyString
  | String c s' =>
      match skip with
      | S k => replace_go old new k s'
      | O =>
          if String.prefix old s
          then new +:+ replace_go old new (String.length old - 1) s'
          else String c (replace_go old new 0 s')
      end
  end.

Fixpoint intersperse (new s : string) : string :=
  match s with
  | EmptyString => new
  | String c s' => new +:+ String c (intersperse new s')
  end.

Definition replace (s old new : string) : string :=
  match old with
  | EmptyString => intersperse new s
  | String _ _ => replace_go old new 0 s
  end.

(** [s.count(sub)]: the number of occurrences of [sub] that do not
    overlap; [len s + 1] for an empty [sub]. *)
Fixpoint count_go (sub : string) (skip : nat) (s : string) : nat :=
  match s with
  | EmptyString => 0
  | String _ s' =>
      match skip with
      | S k => count_go sub k s'
      | O =>
          if String.prefix sub s
          then S (count_go sub (String.length sub - 1) s')
          else count_go sub 0 s'
      end
  end.

Definition count (s sub : string) : nat :=
  match sub with
  | EmptyString => S (String.length s)
  | String _ _ => count_go sub 0 s
  end.

(** [sub in s]. *)
Fixpoint contains (s sub : string) : bool :=
  String.prefix sub s ||
  match s with
  | EmptyString => false
  | String _ s' => contains s' sub
  end.

End str.

(** ** posixpath *)

Module posixpath.

Definition sep : string := "/".
Definition sep_char : ascii := "/"%char.
Definition extsep : string := ".".
Definition extsep_char : ascii := "."%char.
Definition curdir : string := ".".
Definition pardir : string := "..".

(** [genericpath._splitext]: the loop that passes over the dots a file
    name starts with.  [n] bounds the iterations that are left, which
    is [dotIndex - filenameIndex]. *)
Fixpoint splitext_loop (n : nat) (p : string) (filenameIndex dotIndex : Z)
  : option (string * string) :=
  match n with
  | O => None
  | S n' =>
      if negb (String.eqb (str.slice p filenameIndex (filenameIndex + 1)) extsep)
      then Some (str.slice_to p dotIndex, str.slice_from p dotIndex)
      else splitext_loop n' p (filenameIndex + 1) dotIndex
  end.

(** [os.path.splitext(p)] ([altsep] is [None] on POSIX). *)
Definition splitext (p : string) : string * string :=
  let sepIndex := str.rfind p sep_char in
  let dotIndex := str.rfind p extsep_char in
  if (sepIndex <? dotIndex)%Z then
    let filenameIndex := (sepIndex + 1)%Z in
    match splitext_loop (Z.to_nat (dotIndex - filenameIndex)) p
                        filenameIndex dotIndex with
    | Some r => r
    | None => (p, str.slice_to p 0)
    end
  else (p, str.slice_to p 0).

(** [os.path.basename(p)]. *)
Definition basename (p : string) : string :=
  let i := (str.rfind p sep_char + 1)%Z in
  str.slice_from p i.

(** [os.path.join(a, b)]. *)
Definition join (a b : string) : string :=
  if str.startswith b sep then b
  else if String.eqb a "" || str.endswith a sep then a +:+ b
  else a +:+ sep +:+ b.

Definition isabs (s : string) : bool := str.startswith s sep.

(** [os.path.normpath(path)]: the loop over the components keeps the
    list [new_comps] of the components retained so far. *)
Definition normpath_step (initial_slashes : nat) (new_comps : list string)
                         (comp : string) : list string :=
  if String.eqb comp "" || String.eqb comp curdir then new_comps
  else if negb (String.eqb comp pardir)
          || (Nat.eqb initial_slashes 0 && bool_decide (new_comps = []))
          || match last new_comps with
             | Some c => String.eqb c pardir
             | None => false
             end
       then new_comps ++ [comp]
       else removelast new_comps.

Definition normpath (path : string) : string :=
  if String.eqb path "" then curdir
  else
    let initial_slashes :=
      if str.startswith path sep then
        if str.startswith path (str.mul sep 2)
           && negb (str.startswith path (str.mul sep 3))
        then 2 else 1
      else 0 in
    let comps := str.split path sep_char in
    let new_comps := foldl (normpath_step initial_slashes) [] comps in
    let path := str.join sep new_comps in
    let path := str.mul sep initial_slashes +:+ path in
    if String.eqb path "" then curdir else path.

(** [os.path.abspath(path)] in a process whose working directory is
    [cwd]. *)
Definition abspath (cwd path : string) : string :=
  normpath (if isabs path then path else join cwd path).

(** [genericpath.commonprefix] of two lists: their longest common
    prefix. *)
Fixpoint commonprefix (l1 l2 : list string) : list string :=
  match l1, l2 with
  | x :: l1', y :: l2' =>
      if String.eqb x y then x :: commonprefix l1' l2' else []
  | _, _ => []
  end.

(** [os.path.relpath(path, start)] for a non-empty [path], in a
    process whose working directory is [cwd]. *)
Definition relpath (cwd path start : string) : string :=
  let start_tail := str.lstrip (abspath cwd start) sep_char in
  let path_tail := str.lstrip (abspath cwd path) sep_char in
  let start_list :=
    if String.eqb start_tail "" then [] else str.split start_tail sep_char in
  let path_list :=
    if String.eqb path_tail "" then [] else str.split path_tail sep_char in
  let i := length (commonprefix start_list path_list) in
  let rel_list :=
    replicate (length start_list - i) pardir ++ list.drop i path_list in
  match rel_list with
  | [] => curdir
  | _ :: _ => str.join sep rel_list
  end.

End posixpath.

(** ** The file system and the process *)

(** What opening and reading one file gives: the decoded text, or the
    exception that [open] or [read] raises, as [str(e)]. *)
Inductive file : Type :=
  | Text (text : string)
  | Failure (error : string).

(** A directory: its sub-directories and its files, both by name, in
    listing order. *)
Inductive tree : Type :=
  | Dir (dirs : list (string * tree)) (files : list (string * file)).

Definition subdirs (t : tree) : list (string * tree) :=
  match t with Dir dirs _ => dirs end.
Definition entries (t : tree) : list (string * file) :=
  match t with Dir _ files => files end.

(** The entry that a name resolves to: the first one listed. *)
Fixpoint resolve {A : Type} (name : string) (l : list (string * A)) : option A :=
  match l with
  | [] => None
  | (n, a) :: l' => if String.eqb n name then Some a else resolve name l'
  end.

(** The document being written and the lines printed so far. *)
Record world : Type := World { document : string; stdout : list string }.

(** [outfile.write(s)], where the stream takes [s], and [print(s)].
    The stream takes [s] when [s] encodes to UTF-8; the strings written
    are made of file and directory names, which encode when they are
    valid UTF-8 ([utf8] below), and of the text read from a file, which
    [errors="ignore"] leaves without anything that does not encode. *)
Definition write (s : string) (w : world) : world :=
  World (document w +:+ s) (stdout w).
Definition print (s : string) (w : world) : world :=
  World (document w) (stdout w ++ [s]).

Definition LF : string := String (ascii_of_nat 10) EmptyString.

(** Whether the bytes of [s] are valid UTF-8.  [os.walk] gives a name
    whose bytes are valid UTF-8 as the text they encode, and any other
    name with a lone surrogate in the place of each byte that does not
    decode; the first kind encodes back when written, for the second
    [outfile.write] raises [UnicodeEncodeError].  The automaton reads
    one byte at a time: [Start] is between two characters, the other
    states say what the bytes of the current character must still
    be. *)
Inductive utf8_state : Type :=
  | Start | Tail1 | Tail2 | Tail3
  | AfterE0 | AfterED | AfterF0 | AfterF4
  | Invalid.

Definition between (lo hi : nat) (c : ascii) : bool :=
  Nat.leb lo (nat_of_ascii c) && Nat.leb (nat_of_ascii c) hi.

Definition utf8_step (st : utf8_state) (c : ascii) : utf8_state :=
  match st with
  | Start =>
      if between 0 127 c then Start
      else if between 194 223 c then Tail1
      else if between 224 224 c then AfterE0
      else if between 225 236 c then Tail2
      else if between 237 237 c then AfterED
      else if between 238 239 c then Tail2
      else if between 240 240 c then AfterF0
      else if between 241 243 c then Tail3
      else if between 244 244 c then AfterF4
      else Invalid
  | Tail1 => if between 128 191 c then Start else Invalid
  | Tail2 => if between 128 191 c then Tail1 else Invalid
  | Tail3 => if between 128 191 c then Tail2 else Invalid
  | AfterE0 => if between 160 191 c then Tail1 else Invalid
  | AfterED => if between 128 159 c then Tail1 else Invalid
  | AfterF0 => if between 144 191 c then Tail2 else Invalid
  | AfterF4 => if between 128 143 c then Tail2 else Invalid
  | Invalid => Invalid
  end.

Fixpoint utf8_scan (st : utf8_state) (s : string) : utf8_state :=
  match s with
  | EmptyString => st
  | String c s' => utf8_scan (utf8_step st c) s'
  end.

Definition utf8 (s : string) : bool :=
  match utf8_scan Start s with
  | Start => true
  | _ => false
  end.

Module os.

Definition sep : string := posixpath.sep.

(** [os.walk(top)], top-down.  Each visited directory yields
    [(dirpath, dirnames, filenames)]; the consumer may edit [dirnames]
    in place before the generator resumes, and the walk then descends
    into the names that are left, each resolved below [top].  [prune]
    is that edit.  A name that resolves to nothing is passed over, as
    a failing [scandir] is.  The file names are yielded with what
    reading them gives.  [pjoin] builds the path of a child. *)
Section walk.
Context {P : Type} (pjoin : P → string → P).
Context (prune : list string → list string).

Fixpoint walk_with (top : P) (t : tree)
  : list (P * list string * list (string * file)) :=
  match t with
  | Dir dirs files =>
      (top, dirs.*1, files) ::
      flat_map
        (λ dirname,
           (fix descend (l : list (string * tree)) :=
              match l with
              | [] => []
              | (n, sub) :: l' =>
                  if String.eqb n dirname
                  then walk_with (pjoin top dirname) sub
                  else descend l'
              end) dirs)
        (prune dirs.*1)
  end.
End walk.

Definition walk := @walk_with string posixpath.join.

End os.

(** [open(name, "w")] in a directory listing, where it returns: an
    existing file is truncated where it stands, a new one is listed
    last.  It returns where no sub-directory has that name; where one
    has, it raises [IsADirectoryError] and nothing is written.  Closing
    the stream leaves the document in the file ([store]). *)
Definition store (name text : string) (files : list (string * file))
  : list (string * file) :=
  map (λ e, if String.eqb e.1 name then (e.1, Text text) else e) files.

Definition truncate (name : string) (files : list (string * file))
  : list (string * file) :=
  if bool_decide (name ∈ files.*1)
  then store name "" files
  else files ++ [(name, Text "")].

Definition open_w (name : string) (fs : tree) : tree :=
  Dir (subdirs fs) (truncate name (entries fs)).
Definition close_w (name text : string) (fs : tree) : tree :=
  Dir (subdirs fs) (store name text (entries fs)).

(** ** merge_code.py: the content-only script *)

Module merge_code.

Definition ALLOWED_EXTENSIONS : gset string :=
  {[ ".swift"; ".h"; ".m"; ".c"; ".cpp" ]}.

Definition IGNORE_DIRS : gset string :=
  {[ "Pods"; ".git"; "DerivedData"; "Assets.xcassets"; "Preview Content";
     "fastlane"; "build" ]}.

Definition OUTPUT_FILE : string := "FullProjectSource.txt".

(** The body of [for filename in filenames]. *)
Definition each_file (root_dir dirpath : string) (w : world)
                     (entry : string * file) : world :=
  let filename := entry.1 in
  let ext := (posixpath.splitext filename).2 in
  if bool_decide (ext ∈ ALLOWED_EXTENSIONS) then
    let file_path := posixpath.join dirpath filename in
    let relative_path := posixpath.relpath root_dir file_path root_dir in
    let separator := str.mul "=" 50 in
    let w := write (LF +:+ separator +:+ LF) w in
    let w := write ("FILE: " +:+ relative_path +:+ LF) w in
    let w := write (separator +:+ LF +:+ LF) w in
    match entry.2 with
    | Text text => write LF (write text w)
    | Failure e => print ("Could not read " +:+ relative_path +:+ ": " +:+ e) w
    end
  else w.

(** [dirnames[:] = [d for d in dirnames if d not in IGNORE_DIRS]]. *)
Definition keep (dirnames : list string) : list string :=
  filter (λ d, d ∉ IGNORE_DIRS) dirnames.

(** The body of [with open(OUTPUT_FILE, "w") as outfile]: the loop over
    [os.walk(root_dir)], whose first statement is the edit [keep]. *)
Definition merge_loop (root_dir : string) (fs : tree) (w : world) : world :=
  foldl (λ w node,
           let '(dirpath, dirnames, filenames) := node in
           foldl (each_file root_dir dirpath) w filenames)
        w (os.walk keep root_dir fs).

(** [merge_files()], run in the directory [root_dir] whose content is
    [fs]: the file system it leaves and what it wrote and printed. *)
Definition merge_files (root_dir : string) (fs : tree) : tree * world :=
  let fs := open_w OUTPUT_FILE fs in
  let w := merge_loop root_dir fs (World "" []) in
  let fs := close_w OUTPUT_FILE (document w) fs in
  (fs, print ("✅ Success! Source code combined into: " +:+ OUTPUT_FILE) w).

End merge_code.

(** ** mergecode.py: the structure and content script *)

Module mergecode.

Definition ALLOWED_EXTENSIONS : gset string :=
  {[ ".swift"; ".cpp"; ".xcprivacy"; ".plist" ]}.

Definition IGNORE_DIRS : gset string :=
  {[ "Pods"; ".git"; "DerivedData"; "Assets.xcassets"; "Preview Content";
     "fastlane"; "build" ]}.

Definition OUTPUT_FILE : string := "FullProjectSource.txt".

Definition keep (dirs : list string) : list string :=
  filter (λ d, d ∉ IGNORE_DIRS) dirs.

(** The body of [for f in files]. *)
Definition each_name (subindent : string) (w : world)
                     (entry : string * file) : world :=
  let f := entry.1 in
  let ext := (posixpath.splitext f).2 in
  if bool_decide (ext ∈ ALLOWED_EXTENSIONS)
  then write (subindent +:+ f +:+ LF) w
  else w.

(** The body of [for root, dirs, files in os.walk(startpath)], after
    the edit [keep] of [dirs]. *)
Definition each_dir (startpath : string) (w : world)
                    (node : string * list string * list (string * file))
  : world :=
  let '(root, dirs, files) := node in
  let level := str.count (str.replace root startpath "") os.sep in
  let indent := str.mul (str.mul " " 4) level in
  let w := write (indent +:+ posixpath.basename root +:+ "/" +:+ LF) w in
  let subindent := str.mul (str.mul " " 4) (level + 1) in
  foldl (each_name subindent) w files.

Definition write_tree_structure (startpath : string) (fs : tree) (w : world)
  : world :=
  let w := write ("PROJECT STRUCTURE:" +:+ LF) w in
  let w := write ("==================" +:+ LF) w in
  let w := foldl (each_dir startpath) w (os.walk keep startpath fs) in
  write (LF +:+ LF) w.

(** The body of [for filename in filenames]. *)
Definition each_file (root_dir dirpath : string) (w : world)
                     (entry : string * file) : world :=
  let filename := entry.1 in
  let ext := (posixpath.splitext filename).2 in
  if bool_decide (ext ∈ ALLOWED_EXTENSIONS) then
    let file_path := posixpath.join dirpath filename in
    let relative_path := posixpath.relpath root_dir file_path root_dir in
    let separator := str.mul "=" 50 in
    let w := write (separator +:+ LF) w in
    let w := write ("FILE: " +:+ relative_path +:+ LF) w in
    let w := write (separator +:+ LF +:+ LF) w in
    match entry.2 with
    | Text text => write (LF +:+ LF) (write text w)
    | Failure e => print ("Could not read " +:+ relative_path +:+ ": " +:+ e) w
    end
  else w.

Definition merge_loop (root_dir : string) (fs : tree) (w : world) : world :=
  foldl (λ w node,
           let '(dirpath, dirnames, filenames) := node in
           foldl (each_file root_dir dirpath) w filenames)
        w (os.walk keep root_dir fs).

Definition merge_files (root_dir : string) (fs : tree) : tree * world :=
  let fs := open_w OUTPUT_FILE fs in
  let w := print "Generating folder structure..." (World "" []) in
  let w := write_tree_structure root_dir fs w in
  let w := print "Merging file contents..." w in
  let w := merge_loop root_dir fs w in
  let fs := close_w OUTPUT_FILE (document w) fs in
  (fs, print ("✅ Success! Structure and code combined into: " +:+ OUTPUT_FILE) w).

End mergecode.

(** ** The two scripts on a stream that raises *)

(** The two modules above follow a run as far as its statements are
    carried out.  Two calls of the scripts can raise an exception that
    no [try] catches: [open(OUTPUT_FILE, "w")], where a sub-directory
    has that name, and [outfile.write] outside the [try], where the
    string holds a name that does not encode.  An uncaught exception
    ends the run: the [with] statement closes the stream, which leaves
    in the output file what has been written, and no later statement is
    carried out. *)
Inductive exn : Type :=
  | IsADirectoryError (name : string)
  | UnicodeEncodeError (s : string).

(** How far a run has got: the world it has made and the exception
    that has ended it, if one has. *)
Record run : Type := Run { made : world; raised : option exn }.

Definition returned (w : world) : run := Run w None.

(** [outfile.write(s)] for a string made of names. *)
Definition write_names (s : string) (r : run) : run :=
  match raised r with
  | Some _ => r
  | None =>
      if utf8 s then Run (write s (made r)) None
      else Run (made r) (Some (UnicodeEncodeError s))
  end.

(** [outfile.write(infile.read())]: what has been read with
    [errors="ignore"] encodes. *)
Definition write_text (text : string) (r : run) : run :=
  match raised r with
  | Some _ => r
  | None => Run (write text (made r)) None
  end.

Definition print_line (s : string) (r : run) : run :=
  match raised r with
  | Some _ => r
  | None => Run (print s (made r)) None
  end.

(** [merge_code.py]. *)
Module merge_code_raising.

Definition each_file (root_dir dirpath : string) (r : run)
                     (entry : string * file) : run :=
  let filename := entry.1 in
  let ext := (posixpath.splitext filename).2 in
  if bool_decide (ext ∈ merge_code.ALLOWED_EXTENSIONS) then
    let file_path := posixpath.join dirpath filename in
    let relative_path := posixpath.relpath root_dir file_path root_dir in
    let separator := str.mul "=" 50 in
    let r := write_names (LF +:+ separator +:+ LF) r in
    let r := write_names ("FILE: " +:+ relative_path +:+ LF) r in
    let r := write_names (separator +:+ LF +:+ LF) r in
    match entry.2 with
    | Text text => write_names LF (write_text text r)
    | Failure e =>
        print_line ("Could not read " +:+ relative_path +:+ ": " +:+ e) r
    end
  else r.

Definition merge_loop (root_dir : string) (fs : tree) (r : run) : run :=
  foldl (λ r node,
           let '(dirpath, dirnames, filenames) := node in
           foldl (each_file root_dir dirpath) r filenames)
        r (os.walk merge_code.keep root_dir fs).

Definition merge_files (root_dir : string) (fs : tree) : tree * run :=
  if bool_decide (merge_code.OUTPUT_FILE ∈ (subdirs fs).*1)
  then (fs, Run (World "" [])
              (Some (IsADirectoryError merge_code.OUTPUT_FILE)))
  else
    let fs := open_w merge_code.OUTPUT_FILE fs in
    let r := merge_loop root_dir fs (returned (World "" [])) in
    let fs := close_w merge_code.OUTPUT_FILE (document (made r)) fs in
    (fs,
     print_line
       ("✅ Success! Source code combined into: " +:+ merge_code.OUTPUT_FILE)
       r).

End merge_code_raising.

(** [mergecode.py]. *)
Module mergecode_raising.

Definition each_name (subindent : string) (r : run)
                     (entry : string * file) : run :=
  let f := entry.1 in
  let ext := (posixpath.splitext f).2 in
  if bool_decide (ext ∈ mergecode.ALLOWED_EXTENSIONS)
  then write_names (subindent +:+ f +:+ LF) r
  else r.

Definition each_dir (startpath : string) (r : run)
                    (node : string * list string * list (string * file))
  : run :=
  let '(root, dirs, files) := node in
  let level := str.count (str.replace root startpath "") os.sep in
  let indent := str.mul (str.mul " " 4) level in
  let r := write_names (indent +:+ posixpath.basename root +:+ "/" +:+ LF) r in
  let subindent := str.mul (str.mul " " 4) (level + 1) in
  foldl (each_name subindent) r files.

Definition write_tree_structure (startpath : string) (fs : tree) (r : run)
  : run :=
  let r := write_names ("PROJECT STRUCTURE:" +:+ LF) r in
  let r := write_names ("==================" +:+ LF) r in
  let r := foldl (each_dir startpath) r
             (os.walk mergecode.keep startpath fs) in
  write_names (LF +:+ LF) r.

Definition each_file (root_dir dirpath : string) (r : run)
                     (entry : string * file) : run :=
  let filename := entry.1 in
  let ext := (posixpath.splitext filename).2 in
  if bool_decide (ext ∈ mergecode.ALLOWED_EXTENSIONS) then
    let file_path := posixpath.join dirpath filename in
    let relative_path := posixpath.relpath root_dir file_path root_dir in
    let separator := str.mul "=" 50 in
    let r := write_names (separator +:+ LF) r in
    let r := write_names ("FILE: " +:+ relative_path +:+ LF) r in
    let r := write_names (separator +:+ LF +:+ LF) r in
    match entry.2 with
    | Text text => write_names (LF +:+ LF) (write_text text r)
    | Failure e =>
        print_line ("Could not read " +:+ relative_path +:+ ": " +:+ e) r
    end
  else r.

Definition merge_loop (root_dir : string) (fs : tree) (r : run) : run :=
  foldl (λ r node,
           let '(dirpath, dirnames, filenames) := node in
           foldl (each_file root_dir dirpath) r filenames)
        r (os.walk mergecode.keep root_dir fs).

Definition merge_files (root_dir : string) (fs : tree) : tree * run :=
  if bool_decide (mergecode.OUTPUT_FILE ∈ (subdirs fs).*1)
  then (fs, Run (World "" [])
              (Some (IsADirectoryError mergecode.OUTPUT_FILE)))
  else
    let fs := open_w mergecode.OUTPUT_FILE fs in
    let r := print_line "Generating folder structure..."
               (returned (World "" [])) in
    let r := write_tree_structure root_dir fs r in
    let r := print_line "Merging file contents..." r in
    let r := merge_loop root_dir fs r in
    let fs := close_w mergecode.OUTPUT_FILE (document (made r)) fs in
    (fs,
     print_line
       ("✅ Success! Structure and code combined into: "
        +:+ mergecode.OUTPUT_FILE)
       r).

End mergecode_raising.

(** ** The vocabulary of the statements *)

Fixpoint has_char (c : ascii) (s : string) : bool :=
  match s with
  | EmptyString => false
  | String a s' => Ascii.eqb a c || has_char c s'
  end.

(** The string consists of dots only. *)
Fixpoint all_dots (s : string) : bool :=
  match s with
  | EmptyString => true
  | String a s' => Ascii.eqb a "." && all_dots s'
  end.

(** A name that a directory can list: not empty, without a separator,
    and neither of the two reserved names. *)
Definition valid_name (n : string) : bool :=
  negb (String.eqb n "") && negb (has_char "/" n)
  && negb (String.eqb n ".") && negb (String.eqb n "..").

(** The absolute, normalised path with the given components, as
    [os.getcwd()] returns it. *)
Definition abs_path (comps : list string) : string :=
  "/" +:+ str.join "/" comps.

(** The path [os.walk] builds for the directory reached from [top]
    through the names [ds]. *)
Definition path_of (top : string) (ds : list string) : string :=
  foldl posixpath.join top ds.

Fixpoint distinct (l : list string) : bool :=
  match l with
  | [] => true
  | x :: l' => negb (bool_decide (x ∈ l')) && distinct l'
  end.

(** A tree as a file system holds it: valid names, no name listed twice
    in a directory. *)
Fixpoint wf_tree (t : tree) : bool :=
  match t with
  | Dir dirs files =>
      forallb valid_name dirs.*1 && forallb valid_name files.*1
      && distinct dirs.*1 && distinct files.*1
      && forallb (λ e, let '(_, sub) := e in wf_tree sub) dirs
  end.

(** A tree whose names are all valid UTF-8. *)
Fixpoint utf8_tree (t : tree) : bool :=
  match t with
  | Dir dirs files =>
      forallb utf8 dirs.*1 && forallb utf8 files.*1
      && forallb (λ e, let '(_, sub) := e in utf8_tree sub) dirs
  end.

(** The directory reached from [t] through the names [ds]. *)
Fixpoint dir_at (t : tree) (ds : list string) : option tree :=
  match ds with
  | [] => Some t
  | d :: ds' =>
      match resolve d (subdirs t) with
      | Some sub => dir_at sub ds'
      | None => None
      end
  end.

(** The file [f] of content [c] is listed in the directory at [ds]. *)
Definition file_in (t : tree) (ds : list string) (f : string) (c : file) : Prop :=
  ∃ d, dir_at t ds = Some d ∧ (f, c) ∈ entries d.

Definition separator : string := str.mul "=" 50.

(** The path a script computes for the file [f] of the directory at
    [ds], and the path it is expected to be. *)
Definition emitted_path (root_dir : string) (ds : list string) (f : string)
  : string :=
  posixpath.relpath root_dir
    (posixpath.join (path_of root_dir ds) f) root_dir.

Definition relative (ds : list string) (f : string) : string :=
  str.join "/" (ds ++ [f]).

Definition snoc (ds : list string) (d : string) : list string := ds ++ [d].

Fixpoint concat_str (l : list string) : string :=
  match l with
  | [] => ""
  | s :: l' => s +:+ concat_str l'
  end.

(** What the two scripts have in common, over the two sets and the two
    strings in which they differ: [lead] is written before the first
    separator line of a file, [trail] after its text. *)
Section engine.
Context (ALLOWED_EXTENSIONS IGNORE_DIRS : gset string).
Context (lead trail : string).

(** [os.path.splitext(filename)[1] in ALLOWED_EXTENSIONS]. *)
Definition included (filename : string) : bool :=
  bool_decide ((posixpath.splitext filename).2 ∈ ALLOWED_EXTENSIONS).

Definition keep (dirnames : list string) : list string :=
  filter (λ d, d ∉ IGNORE_DIRS) dirnames.

(** The loop over the files of one directory and the loop over the
    walk, as both scripts have them. *)
Definition each_file (root_dir dirpath : string) (w : world)
                     (entry : string * file) : world :=
  let filename := entry.1 in
  let ext := (posixpath.splitext filename).2 in
  if bool_decide (ext ∈ ALLOWED_EXTENSIONS) then
    let file_path := posixpath.join dirpath filename in
    let relative_path := posixpath.relpath root_dir file_path root_dir in
    let w := write (lead +:+ separator +:+ LF) w in
    let w := write ("FILE: " +:+ relative_path +:+ LF) w in
    let w := write (separator +:+ LF +:+ LF) w in
    match entry.2 with
    | Text text => write trail (write text w)
    | Failure e => print ("Could not read " +:+ relative_path +:+ ": " +:+ e) w
    end
  else w.

Definition merge_loop (root_dir : string) (fs : tree) (w : world) : world :=
  foldl (λ w node,
           let '(dirpath, dirnames, filenames) := node in
           foldl (each_file root_dir dirpath) w filenames)
        w (os.walk keep root_dir fs).

(** The directories visited, by the names that lead to them. *)
Definition visited (t : tree)
  : list (list string * list string * list (string * file)) :=
  os.walk_with snoc keep [] t.

(** The files written, in the order of the walk: the names that lead
    to the directory, the file name, and what reading it gives. *)
Definition selected (t : tree) : list (list string * string * file) :=
  visited t ≫= λ node,
    (λ e : string * file, (node.1.1, e.1, e.2))
      <$> filter (λ e : string * file, included e.1 = true) node.2.

Definition header (relative_path : string) : string :=
  lead +:+ separator +:+ LF +:+ "FILE: " +:+ relative_path +:+ LF
  +:+ separator +:+ LF +:+ LF.

Definition block (relative_path : string) (c : file) : string :=
  header relative_path +:+
  match c with
  | Text text => text +:+ trail
  | Failure _ => ""
  end.

Definition diagnostic (relative_path : string) (c : file) : list string :=
  match c with
  | Text _ => []
  | Failure e => ["Could not read " +:+ relative_path +:+ ": " +:+ e]
  end.

(** The content section and the diagnostics of a run, for a given
    rendering [rel] of the path of a file. *)
Definition content_with (rel : list string → string → string) (t : tree)
  : string :=
  concat_str ((λ item, block (rel item.1.1 item.1.2) item.2) <$> selected t).

Definition diagnostics_with (rel : list string → string → string) (t : tree)
  : list string :=
  selected t ≫= λ item, diagnostic (rel item.1.1 item.1.2) item.2.

(** The lines of the structure section for one directory, with the
    level as [write_tree_structure] computes it. *)
Definition level_of (startpath : string) (ds : list string) : nat :=
  str.count (str.replace (path_of startpath ds) startpath "") os.sep.

Definition dir_lines (startpath : string)
           (node : list string * list string * list (string * file))
  : string :=
  let level := level_of startpath node.1.1 in
  str.mul (str.mul " " 4) level
    +:+ posixpath.basename (path_of startpath node.1.1) +:+ "/" +:+ LF
  +:+ concat_str
        ((λ e : string * file,
            str.mul (str.mul " " 4) (level + 1) +:+ e.1 +:+ LF)
           <$> filter (λ e : string * file, included e.1 = true) node.2).

Definition structure (startpath : string) (t : tree) : string :=
  "PROJECT STRUCTURE:" +:+ LF +:+ "==================" +:+ LF
  +:+ concat_str (dir_lines startpath <$> visited t) +:+ LF +:+ LF.

(** The part of a tree that a run looks at: the files with an allowed
    extension, in the directories that no ignored name leads to. *)
Fixpoint visible (t : tree) : tree :=
  match t with
  | Dir dirs files =>
      Dir ((fix go (l : list (string * tree)) : list (string * tree) :=
              match l with
              | [] => []
              | (n, sub) :: l' =>
                  if bool_decide (n ∈ IGNORE_DIRS) then go l'
                  else (n, visible sub) :: go l'
              end) dirs)
          (filter (λ e : string * file, included e.1 = true) files)
  end.

End engine.

(** The loop over the files on the stream that raises, as both scripts
    have it, over what they differ in. *)
Module raising.
Section engine.
Context (ALLOWED_EXTENSIONS IGNORE_DIRS : gset string).
Context (lead trail : string).

Definition each_file (root_dir dirpath : string) (r : run)
                     (entry : string * file) : run :=
  let filename := entry.1 in
  let ext := (posixpath.splitext filename).2 in
  if bool_decide (ext ∈ ALLOWED_EXTENSIONS) then
    let file_path := posixpath.join dirpath filename in
    let relative_path := posixpath.relpath root_dir file_path root_dir in
    let r := write_names (lead +:+ separator +:+ LF) r in
    let r := write_names ("FILE: " +:+ relative_path +:+ LF) r in
    let r := write_names (separator +:+ LF +:+ LF) r in
    match entry.2 with
    | Text text => write_names trail (write_text text r)
    | Failure e =>
        print_line ("Could not read " +:+ relative_path +:+ ": " +:+ e) r
    end
  else r.

Definition merge_loop (root_dir : string) (fs : tree) (r : run) : run :=
  foldl (λ r node,
           let '(dirpath, dirnames, filenames) := node in
           foldl (each_file root_dir dirpath) r filenames)
        r (os.walk (keep IGNORE_DIRS) root_dir fs).

(** One turn of the loop, for a file given as [selected] lists it. *)
Definition each_selected (root_dir : string) (r : run)
                         (item : list string * string * file) : run :=
  each_file root_dir (path_of root_dir item.1.1) r (item.1.2, item.2).

End engine.
End raising.

(** The part of a document that is written when the FILE line of the
    file after [before] does not encode: the blocks of [before] and the
    first separator line of the next block. *)
Definition cut_short (lead trail : string)
           (rel : list string → string → string)
           (before : list (list string * string * file)) : string :=
  concat_str ((λ item, block lead trail (rel item.1.1 item.1.2) item.2)
                <$> before)
  +:+ lead +:+ separator +:+ LF.

(** ** Example trees *)

(** The tree of the scenario: [src/main.swift], [Pods/Lib.swift],
    [build/out.h]. *)
Definition scenario : tree :=
  Dir [("src", Dir [] [("main.swift", Text "A")]);
       ("Pods", Dir [] [("Lib.swift", Text "B")]);
       ("build", Dir [] [("out.h", Text "C")])] [].

Definition scenario_root : list string := ["home"; "u"; "proj"].

(** The documents of the scenario, as the two scripts write them. *)
Definition scenario_content_only : string :=
  "
==================================================
FILE: src/main.swift
==================================================

A
".

Definition scenario_structure_content : string :=
  "PROJECT STRUCTURE:
==================
proj/
    src/
        main.swift


==================================================
FILE: src/main.swift
==================================================

A

".

(** The same tree with other files in the ignored directories and a
    file without an allowed extension. *)
Definition scenario_changed : tree :=
  Dir [("src", Dir [] [("main.swift", Text "A"); ("notes.txt", Text "N")]);
       ("Pods", Dir [("Sub", Dir [] [("X.swift", Text "X")])] []);
       ("build", Dir [] [])] [("README", Text "R")].

(** A vendored copy of an included file below an ignored directory. *)
Definition vendored : tree :=
  Dir [("src", Dir [] [("main.swift", Text "A")]);
       ("Pods", Dir [] [("main.swift", Text "A")])] [].

(** A file that cannot be read, followed by one that can, in the
    working directory [/home/u/proj]: the message is the one of the
    [PermissionError] that [open] raises for the path it is given. *)
Definition permission_denied : string :=
  "[Errno 13] Permission denied: '/home/u/proj/secret.swift'".

Definition unreadable : tree :=
  Dir [] [("secret.swift", Failure permission_denied);
          ("main.swift", Text "A")].

Definition unreadable_content_only : string :=
  "
==================================================
FILE: secret.swift
==================================================


==================================================
FILE: main.swift
==================================================

A
".

(** A project in [/app] with a package directory [app]. *)
Definition nested_app : tree :=
  Dir [("app", Dir [] [("m.swift", Text "x")])] [].

Definition nested_app_structure : string :=
  "PROJECT STRUCTURE:
==================
app/
app/
    m.swift


".

(** A tree with a nested directory of an ignored name and a directory
    whose name only starts like one. *)
Definition nested_build : tree :=
  Dir [("a", Dir [("build", Dir [("deep", Dir [] [("x.swift", Text "1")])]
                               [("y.swift", Text "2")]);
                  ("builds", Dir [] [("z.swift", Text "3")])] [])] [].

(** A project whose own directory has an ignored name. *)
Definition build_root : string := "/work/build".

Definition one_file : tree := Dir [] [("main.swift", Text "A")].

Definition build_root_content_only : string :=
  "
==================================================
FILE: main.swift
==================================================

A
".

Definition build_root_structure_content : string :=
  "PROJECT STRUCTURE:
==================
build/
    main.swift


==================================================
FILE: main.swift
==================================================

A

".

(** A file whose name is an allowed extension and nothing else, in a
    sub-directory and in the working directory itself. *)
Definition dot_swift : tree :=
  Dir [("src", Dir [] [(".swift", Text "A")])] [].

Definition dot_swift_root : tree := Dir [] [(".swift", Text "A")].

(** A file name in Latin-1, [caf\xe9.swift]: its bytes are not valid
    UTF-8. *)
Definition latin1_name : string :=
  "caf" +:+ String (ascii_of_nat 233) ".swift".

(** A working directory with a file of that name before [main.swift]. *)
Definition latin1_first : tree :=
  Dir [] [(latin1_name, Text "x"); ("main.swift", Text "A")].

(** A file that cannot be read, followed by one of that name. *)
Definition unreadable_then_latin1 : tree :=
  Dir [] [("secret.swift", Failure permission_denied);
          (latin1_name, Text "x")].

(** A working directory with a sub-directory of the name of the output
    file. *)
Definition output_is_directory : tree :=
  Dir [("FullProjectSource.txt", Dir [] [])] [("main.swift", Text "A")].

(** A directory in which nothing is selected: a file without an allowed
    extension and a Swift file below an ignored directory. *)
Definition nothing_selected : tree :=
  Dir [("Pods", Dir [] [("Lib.swift", Text "B")])] [("README", Text "R")].

(** What [os.path.splitext] can return as an extension: nothing, or a
    dot followed by characters that are neither a dot nor a separator. *)
Definition extension_like (e : string) : bool :=
  match e with
  | EmptyString => true
  | String a suf =>
      Ascii.eqb a "." && negb (has_char "." suf) && negb (has_char "/" suf)
  end.

(** The extensions that only one of the two scripts allows. *)
Definition one_script_only : list string :=
  [".h"; ".m"; ".c"; ".xcprivacy"; ".plist"].

(** The paths of the files written. *)
Definition written_paths (ALLOWED_EXTENSIONS IGNORE_DIRS : gset string)
           (t : tree) : list string :=
  (λ item, relative item.1.1 item.1.2)
    <$> selected ALLOWED_EXTENSIONS IGNORE_DIRS t.

(** * Properties *)

Example splitext_plain : posixpath.splitext "main.swift" = ("main", ".swift").
Proof. reflexivity. Qed.
Example splitext_two_dots : posixpath.splitext "a.tar.gz" = ("a.tar", ".gz").
Proof. reflexivity. Qed.
Example splitext_no_dot : posixpath.splitext "Makefile" = ("Makefile", "").
Proof. reflexivity. Qed.
Example splitext_leading_dot : posixpath.splitext ".swift" = (".swift", "").
Proof. reflexivity. Qed.
Example splitext_leading_dots : posixpath.splitext "..swift" = ("..swift", "").
Proof. reflexivity. Qed.
Example splitext_hidden : posixpath.splitext ".a.swift" = (".a", ".swift").
Proof. reflexivity. Qed.
Example splitext_trailing_dot : posixpath.splitext "a." = ("a", ".").
Proof. reflexivity. Qed.
Example join_plain : posixpath.join "/app" "src" = "/app/src".
Proof. reflexivity. Qed.
Example join_root : posixpath.join "/" "src" = "/src".
Proof. reflexivity. Qed.
Example basename_plain : posixpath.basename "/app/src" = "src".
Proof. reflexivity. Qed.
Example basename_root : posixpath.basename "/" = "".
Proof. reflexivity. Qed.
Example normpath_dots : posixpath.normpath "/a/./b/../c//d" = "/a/c/d".
Proof. reflexivity. Qed.
Example relpath_nested :
  posixpath.relpath "/app" "/app/a/b/c.swift" "/app" = "a/b/c.swift".
Proof. reflexivity. Qed.
Example relpath_up : posixpath.relpath "/app" "/x/y" "/app" = "../x/y".
Proof. reflexivity. Qed.
Example replace_all : str.replace "/app/app" "/app" "" = "".
Proof. reflexivity. Qed.
Example replace_overlap : str.replace "aaa" "aa" "b" = "ba".
Proof. reflexivity. Qed.
Example count_sep : str.count "/a/b" "/" = 2.
Proof. reflexivity. Qed.


(** ** Strings *)

Lemma str_app_cons (c : ascii) (s1 s2 : string) :
  String c s1 +:+ s2 = String c (s1 +:+ s2).
Proof. reflexivity. Qed.

Lemma str_app_nil_l (s : string) : "" +:+ s = s.
Proof. reflexivity. Qed.

Lemma str_app_assoc (s1 s2 s3 : string) :
  (s1 +:+ s2) +:+ s3 = s1 +:+ s2 +:+ s3.
Proof.
  induction s1 as [|c s1 IH]; [done |].
  rewrite !str_app_cons. by f_equal.
Qed.

Lemma str_app_nil_r (s : string) : s +:+ "" = s.
Proof.
  induction s as [|c s IH]; [done |]. rewrite str_app_cons. by f_equal.
Qed.

Lemma str_app_length (s1 s2 : string) :
  String.length (s1 +:+ s2) = String.length s1 + String.length s2.
Proof.
  induction s1 as [|c s1 IH]; [done |].
  rewrite str_app_cons. simpl. by f_equal.
Qed.

Lemma has_char_app (c : ascii) (s1 s2 : string) :
  has_char c (s1 +:+ s2) = has_char c s1 || has_char c s2.
Proof.
  induction s1 as [|a s1 IH]; [done |].
  rewrite str_app_cons. simpl. by rewrite IH, orb_assoc.
Qed.

Lemma split_not_nil (s : string) (c : ascii) : str.split s c ≠ [].
Proof.
  destruct s as [|a s]; simpl; [done |].
  destruct (str.split s c); [done |]. by destruct (Ascii.eqb a c).
Qed.

Lemma split_without (s : string) (c : ascii) :
  has_char c s = false → str.split s c = [s].
Proof.
  induction s as [|a s IH]; simpl; [done |].
  intros [Ha Hs]%orb_false_iff. by rewrite (IH Hs), Ha.
Qed.

Lemma split_app (s r : string) (c : ascii) :
  has_char c s = false →
  str.split (s +:+ String c r) c = s :: str.split r c.
Proof.
  induction s as [|a s IH].
  - intros _. rewrite str_app_nil_l. simpl. rewrite Ascii.eqb_refl.
    destruct (str.split r c) eqn:E; [by apply split_not_nil in E | done].
  - rewrite str_app_cons. simpl.
    intros [Ha Hs]%orb_false_iff. by rewrite (IH Hs), Ha.
Qed.

Lemma join_cons (sep x : string) (l : list string) :
  l ≠ [] → str.join sep (x :: l) = x +:+ sep +:+ str.join sep l.
Proof. by destruct l. Qed.

Lemma join_snoc (sep x : string) (l : list string) :
  l ≠ [] → str.join sep (l ++ [x]) = str.join sep l +:+ sep +:+ x.
Proof.
  induction l as [|y l IH]; [done |]. intros _.
  destruct l as [|z l]; [done |].
  change ((y :: z :: l) ++ [x]) with (y :: ((z :: l) ++ [x])).
  rewrite join_cons by done. rewrite IH by done.
  rewrite (join_cons sep y (z :: l)) by done. by rewrite !str_app_assoc.
Qed.

Lemma split_join (comps : list string) :
  Forall (λ n, has_char "/" n = false) comps → comps ≠ [] →
  str.split (str.join "/" comps) "/" = comps.
Proof.
  induction 1 as [|x l Hx Hl IH]; [done |]. intros _.
  destruct l as [|y l]; [by apply split_without |].
  rewrite join_cons by done.
  change ("/" +:+ ?s) with (String "/" s).
  rewrite split_app by done. by rewrite IH.
Qed.

(** Two lists of names with the same joined path are the same list. *)
Lemma join_inj (l1 l2 : list string) :
  Forall (λ n, has_char "/" n = false) l1 →
  Forall (λ n, has_char "/" n = false) l2 →
  l1 ≠ [] → l2 ≠ [] →
  str.join "/" l1 = str.join "/" l2 → l1 = l2.
Proof.
  intros H1 H2 N1 N2 E.
  rewrite <- (split_join l1), <- (split_join l2) by done. by rewrite E.
Qed.

Lemma valid_name_spec (n : string) :
  valid_name n = true ↔
  n ≠ "" ∧ has_char "/" n = false ∧ n ≠ "." ∧ n ≠ "..".
Proof.
  unfold valid_name. rewrite !andb_true_iff, !negb_true_iff.
  rewrite !eqb_neq. tauto.
Qed.

Lemma valid_names_nosep (l : list string) :
  forallb valid_name l = true → Forall (λ n, has_char "/" n = false) l.
Proof.
  rewrite forallb_forall, Forall_forall. intros H n Hn.
  apply list_elem_of_In in Hn. by apply H, valid_name_spec in Hn as (_ & ? & _).
Qed.

(** ** Paths *)

Lemma prefix_cons (a b : ascii) (s1 s2 : string) :
  String.prefix (String a s1) (String b s2)
  = Ascii.eqb a b && String.prefix s1 s2.
Proof.
  change (String.prefix (String a s1) (String b s2))
    with (if ascii_dec a b then String.prefix s1 s2 else false).
  by destruct (ascii_dec a b), (Ascii.eqb_spec a b).
Qed.

Lemma prefix_nil (s : string) : String.prefix "" s = true.
Proof. by destruct s. Qed.

Lemma prefix_sep_without (s : string) :
  has_char "/" s = false → String.prefix "/" s = false.
Proof.
  destruct s as [|a s]; [done |]. intros H. simpl in H.
  apply orb_false_iff in H as [Ha _].
  by rewrite prefix_cons, Ascii.eqb_sym, Ha.
Qed.

Lemma endswith_sep_without (s : string) :
  has_char "/" s = false → str.endswith s "/" = false.
Proof.
  induction s as [|a s IH]; [done |]. simpl.
  intros [Ha Hs]%orb_false_iff. rewrite (IH Hs), orb_false_r.
  by rewrite Ha.
Qed.

Lemma endswith_sep_app (x y : string) :
  y ≠ "" → str.endswith (x +:+ y) "/" = str.endswith y "/".
Proof.
  intros Hy. induction x as [|a x IH]; [done |].
  rewrite str_app_cons. simpl. rewrite IH.
  assert ((x +:+ y =? "")%string = false) as ->.
  { apply eqb_neq. by destruct x. }
  by destruct (Ascii.eqb a "/").
Qed.

Lemma join_valid_ne (comps : list string) :
  forallb valid_name comps = true → comps ≠ [] → str.join "/" comps ≠ "".
Proof.
  destruct comps as [|x l]; [done |]. simpl.
  intros [Hx _]%andb_true_iff _. apply valid_name_spec in Hx as (Hx & _).
  destruct l; [done |]. by destruct x.
Qed.

Lemma prefix_sep_join (comps : list string) :
  forallb valid_name comps = true →
  String.prefix "/" (str.join "/" comps) = false.
Proof.
  destruct comps as [|x l]; [done |]. simpl.
  intros [Hx _]%andb_true_iff.
  apply valid_name_spec in Hx as (Hx & Hs & _).
  destruct l; [by apply prefix_sep_without |].
  destruct x as [|a x]; [done |]. rewrite str_app_cons.
  simpl in Hs. apply orb_false_iff in Hs as [Ha _].
  rewrite prefix_cons. by rewrite Ascii.eqb_sym, Ha.
Qed.

Lemma endswith_sep_join (comps : list string) :
  forallb valid_name comps = true → comps ≠ [] →
  str.endswith ("/" +:+ str.join "/" comps) "/" = false.
Proof.
  intros Hv Hne.
  destruct (exists_last Hne) as (l & x & ->).
  rewrite forallb_app in Hv. apply andb_true_iff in Hv as [_ Hx].
  simpl in Hx. rewrite andb_true_r in Hx.
  apply valid_name_spec in Hx as (Hx & Hs & _).
  destruct l as [|y l].
  - change (str.join "/" ([] ++ [x])) with x.
    rewrite endswith_sep_app by done. by apply endswith_sep_without.
  - rewrite join_snoc by done.
    rewrite <- !str_app_assoc. rewrite endswith_sep_app by done.
    by apply endswith_sep_without.
Qed.

(** [os.path.join] of a normalised absolute path and a name. *)
Lemma join_abs_path (comps : list string) (d : string) :
  forallb valid_name comps = true → valid_name d = true →
  posixpath.join (abs_path comps) d = abs_path (comps ++ [d]).
Proof.
  intros Hv Hd. pose proof Hd as (Hne & Hs & _)%valid_name_spec.
  unfold posixpath.join, str.startswith, posixpath.sep.
  rewrite prefix_sep_without by done.
  destruct comps as [|x l].
  - reflexivity.
  - replace (abs_path (x :: l) =? "")%string with false by done.
    unfold abs_path. rewrite endswith_sep_join by done. simpl orb. cbv iota.
    rewrite (join_snoc "/" d (x :: l)) by done.
    by rewrite !str_app_assoc.
Qed.

Lemma path_of_abs_path (rcomps ds : list string) :
  forallb valid_name rcomps = true → forallb valid_name ds = true →
  path_of (abs_path rcomps) ds = abs_path (rcomps ++ ds).
Proof.
  revert rcomps. induction ds as [|d ds IH]; intros rcomps Hr Hd.
  - by rewrite app_nil_r.
  - simpl in Hd. apply andb_true_iff in Hd as [Hd Hds].
    unfold path_of. simpl. rewrite join_abs_path by done.
    fold (path_of (abs_path (rcomps ++ [d])) ds).
    rewrite IH; [by rewrite <- app_assoc | | done].
    rewrite forallb_app, Hr. simpl. by rewrite Hd.
Qed.

Lemma abs_path_cons (comps : list string) :
  abs_path comps = String "/" (str.join "/" comps).
Proof. reflexivity. Qed.

Lemma abs_path_isabs (comps : list string) :
  str.startswith (abs_path comps) "/" = true.
Proof.
  unfold str.startswith. by rewrite abs_path_cons, prefix_cons, prefix_nil.
Qed.

Lemma normpath_loop_valid (k : nat) (acc comps : list string) :
  forallb valid_name comps = true →
  foldl (posixpath.normpath_step k) acc comps = acc ++ comps.
Proof.
  revert acc. induction comps as [|c comps IH]; intros acc Hv.
  - by rewrite app_nil_r.
  - simpl in Hv. apply andb_true_iff in Hv as [Hc Hv].
    apply valid_name_spec in Hc as (H1 & _ & H2 & H3).
    simpl. rewrite IH by done.
    assert (posixpath.normpath_step k acc c = acc ++ [c]) as ->.
    { unfold posixpath.normpath_step, posixpath.curdir, posixpath.pardir.
      apply eqb_neq in H1, H2, H3. by rewrite H1, H2, H3. }
    by rewrite <- app_assoc.
Qed.

(** A normalised absolute path is a fixed point of [os.path.normpath]. *)
Lemma normpath_abs_path (comps : list string) :
  forallb valid_name comps = true →
  posixpath.normpath (abs_path comps) = abs_path comps.
Proof.
  intros Hv.
  assert ((abs_path comps =? "")%string = false) as E1 by done.
  pose proof (abs_path_isabs comps) as E2.
  assert (str.startswith (abs_path comps) (str.mul "/" 2) = false) as E3.
  { unfold str.startswith. rewrite abs_path_cons.
    change (str.mul "/" 2) with (String "/" "/"). rewrite prefix_cons.
    by rewrite prefix_sep_join. }
  assert (foldl (posixpath.normpath_step 1) []
            (str.split (abs_path comps) "/") = comps) as E4.
  { unfold abs_path. change ("/" +:+ ?s) with ("" +:+ String "/" s).
    rewrite split_app by done.
    destruct comps as [|x l]; [done |].
    rewrite split_join; [| by apply valid_names_nosep | done].
    change (foldl ?f [] ("" :: ?l)) with (foldl f [] l).
    by rewrite normpath_loop_valid. }
  unfold posixpath.normpath, posixpath.sep, posixpath.sep_char.
  rewrite E1, E2, E3. cbn [andb]. rewrite E4.
  change (str.mul "/" 1 +:+ str.join "/" comps) with (abs_path comps).
  by rewrite E1.
Qed.

Lemma lstrip_join (comps : list string) :
  forallb valid_name comps = true →
  str.lstrip (abs_path comps) "/" = str.join "/" comps.
Proof.
  intros Hv. unfold abs_path. change ("/" +:+ ?s) with (String "/" s).
  simpl. pose proof (prefix_sep_join comps Hv) as H.
  destruct (str.join "/" comps) as [|a s]; [done |].
  rewrite prefix_cons, prefix_nil, andb_true_r in H.
  simpl. by rewrite Ascii.eqb_sym, H.
Qed.

Lemma commonprefix_app (l r : list string) :
  posixpath.commonprefix l (l ++ r) = l.
Proof.
  induction l as [|x l IH]; [by destruct r |].
  simpl. by rewrite String.eqb_refl, IH.
Qed.

Lemma path_list_abs (comps : list string) :
  forallb valid_name comps = true →
  (if (str.join "/" comps =? "")%string then []
   else str.split (str.join "/" comps) "/") = comps.
Proof.
  intros Hv. destruct comps as [|x l]; [done |].
  pose proof (join_valid_ne (x :: l) Hv) as Hne.
  apply eqb_neq in Hne; [| done]. rewrite Hne.
  apply split_join; [by apply valid_names_nosep | done].
Qed.

(** [os.path.relpath] of a path below its start directory: the names
    that lead from the one to the other, joined. *)
Lemma relpath_below (cwd : string) (rcomps rest : list string) :
  forallb valid_name rcomps = true → forallb valid_name rest = true →
  rest ≠ [] →
  posixpath.relpath cwd (abs_path (rcomps ++ rest)) (abs_path rcomps)
  = str.join "/" rest.
Proof.
  intros Hr Hs Hne.
  assert (forallb valid_name (rcomps ++ rest) = true) as Hrs
    by (by rewrite forallb_app, Hr, Hs).
  unfold posixpath.relpath, posixpath.abspath.
  unfold posixpath.isabs, posixpath.sep.
  rewrite !abs_path_isabs, !normpath_abs_path by done.
  unfold posixpath.sep_char. rewrite !lstrip_join by done.
  rewrite !path_list_abs by done.
  rewrite commonprefix_app, Nat.sub_diag. simpl replicate.
  rewrite app_nil_l, drop_app_length.
  by destruct rest.
Qed.

(** ** The extension of a file name *)

Lemma drop_app_len (x y : string) : str.drop (String.length x) (x +:+ y) = y.
Proof. induction x as [|a x IH]; [by destruct y | done]. Qed.

Lemma take_app_len (x y : string) : str.take (String.length x) (x +:+ y) = x.
Proof.
  induction x as [|a x IH]; [by destruct y |].
  rewrite str_app_cons. simpl. by rewrite IH.
Qed.

Lemma clamp_inside (s : string) (k : nat) :
  k ≤ String.length s → str.clamp s (Z.of_nat k) = k.
Proof.
  intros H. unfold str.clamp.
  destruct (Z.ltb_spec (Z.of_nat k) 0); lia.
Qed.

Lemma slice_to_app (x y : string) :
  str.slice_to (x +:+ y) (Z.of_nat (String.length x)) = x.
Proof.
  unfold str.slice_to. rewrite clamp_inside, take_app_len; [done |].
  rewrite str_app_length. lia.
Qed.

Lemma slice_from_app (x y : string) :
  str.slice_from (x +:+ y) (Z.of_nat (String.length x)) = y.
Proof.
  unfold str.slice_from. rewrite clamp_inside, drop_app_len; [done |].
  rewrite str_app_length. lia.
Qed.

Lemma slice_char (x : string) (a : ascii) (y : string) :
  let i := Z.of_nat (String.length x) in
  str.slice (x +:+ String a y) i (i + 1) = String a "".
Proof.
  intros i. unfold str.slice, i.
  replace (Z.of_nat (String.length x) + 1)%Z
    with (Z.of_nat (S (String.length x))) by lia.
  rewrite !clamp_inside by (rewrite str_app_length; simpl; lia).
  rewrite drop_app_len.
  replace (S (String.length x) - String.length x) with 1 by lia.
  by destruct y.
Qed.

Lemma slice_to_zero (s : string) : str.slice_to s 0 = "".
Proof.
  unfold str.slice_to. change 0%Z with (Z.of_nat 0).
  rewrite clamp_inside by lia. by destruct s.
Qed.

Lemma rfind_without (s : string) (c : ascii) :
  has_char c s = false → str.rfind s c = (-1)%Z.
Proof.
  induction s as [|a s IH]; [done |]. simpl.
  intros [Ha Hs]%orb_false_iff. by rewrite (IH Hs), Ha.
Qed.

Lemma rfind_last (pre suf : string) (c : ascii) :
  has_char c suf = false →
  str.rfind (pre +:+ String c suf) c = Z.of_nat (String.length pre).
Proof.
  intros Hs. induction pre as [|a pre IH].
  - rewrite str_app_nil_l. simpl.
    by rewrite (rfind_without suf c Hs), Ascii.eqb_refl.
  - rewrite str_app_cons. simpl str.rfind. rewrite IH.
    destruct (Z.leb_spec 0 (Z.of_nat (String.length pre))); simpl; lia.
Qed.

(** The loop of [splitext] over the characters [todo] that stand before
    the last dot: it stops at the first one that is not a dot. *)
Lemma splitext_loop_spec (before todo rest : string) (dotIndex : Z) :
  let p := before +:+ todo +:+ rest in
  posixpath.splitext_loop (String.length todo) p
    (Z.of_nat (String.length before)) dotIndex
  = if all_dots todo then None
    else Some (str.slice_to p dotIndex, str.slice_from p dotIndex).
Proof.
  revert before. induction todo as [|a todo IH]; intros before p; [done |].
  simpl posixpath.splitext_loop. unfold p at 1.
  rewrite str_app_cons, slice_char. simpl all_dots.
  unfold posixpath.extsep.
  replace (String a "" =? ".")%string with (Ascii.eqb a ".")
    by (simpl; by destruct (Ascii.eqb a ".")).
  destruct (Ascii.eqb a ".") eqn:Ha; [| done]. simpl negb. cbv iota.
  specialize (IH (before +:+ String a "")).
  rewrite str_app_length in IH. simpl String.length in IH.
  replace (Z.of_nat (String.length before + 1))
    with (Z.of_nat (String.length before) + 1)%Z in IH by lia.
  assert ((before +:+ String a "") +:+ todo +:+ rest = p) as E.
  { unfold p. by rewrite str_app_assoc. }
  simpl in IH. rewrite E in IH. exact IH.
Qed.

(** [os.path.splitext] on a name without a dot. *)
Lemma splitext_no_dot_spec (name : string) :
  has_char "." name = false → posixpath.splitext name = (name, "").
Proof.
  intros H. unfold posixpath.splitext, posixpath.extsep_char.
  rewrite (rfind_without name "." H), slice_to_zero.
  destruct (Z.ltb_spec (str.rfind name posixpath.sep_char) (-1)); [| done].
  assert (-1 ≤ str.rfind name posixpath.sep_char)%Z; [| lia].
  clear. induction name as [|a s IH]; simpl; [lia |].
  destruct (Z.leb_spec 0 (str.rfind s posixpath.sep_char)); [lia |].
  destruct (Ascii.eqb a posixpath.sep_char); lia.
Qed.

(** [os.path.splitext] on a name [pre.suf] whose last dot is the one
    shown: the extension is [.suf] unless [pre] is empty or dots only. *)
Lemma splitext_last_dot_spec (pre suf : string) :
  has_char "/" (pre +:+ "." +:+ suf) = false → has_char "." suf = false →
  posixpath.splitext (pre +:+ "." +:+ suf)
  = if all_dots pre then (pre +:+ "." +:+ suf, "")
    else (pre, "." +:+ suf).
Proof.
  intros Hsep Hsuf. unfold posixpath.splitext.
  unfold posixpath.sep_char, posixpath.extsep_char.
  rewrite (rfind_without _ "/" Hsep).
  change ("." +:+ suf) with (String "." suf).
  rewrite (rfind_last pre suf "." Hsuf), slice_to_zero.
  destruct (Z.ltb_spec (-1) (Z.of_nat (String.length pre))); [| lia].
  replace (Z.to_nat (Z.of_nat (String.length pre) - (-1 + 1)))
    with (String.length pre) by lia.
  pose proof (splitext_loop_spec "" pre (String "." suf)
                (Z.of_nat (String.length pre))) as L.
  cbv zeta in L. rewrite str_app_nil_l in L.
  change (Z.of_nat (String.length "")) with 0%Z in L.
  change (-1 + 1)%Z with 0%Z. rewrite L.
  destruct (all_dots pre); [done |].
  by rewrite slice_to_app, slice_from_app.
Qed.

(** ** Trees and the walk *)

Lemma tree_ind_nested (P : tree → Prop) :
  (∀ dirs files, Forall (λ e, P e.2) dirs → P (Dir dirs files)) →
  ∀ t, P t.
Proof.
  intros H. fix IH 1. intros [dirs files]. apply H.
  induction dirs as [|[n sub] dirs IHd]; constructor; [apply IH | exact IHd].
Qed.

Lemma resolve_Some {A : Type} (d : string) (l : list (string * A)) (a : A) :
  resolve d l = Some a → (d, a) ∈ l.
Proof.
  induction l as [|[n b] l IH]; [done |]. simpl.
  destruct (String.eqb_spec n d) as [->|_].
  - intros [= ->]. by left.
  - intros H. right. by apply IH.
Qed.

Lemma resolve_None {A : Type} (d : string) (l : list (string * A)) :
  resolve d l = None ↔ d ∉ l.*1.
Proof.
  induction l as [|[n b] l IH]; simpl.
  - split; [intros _ H; by apply elem_of_nil in H | done].
  - rewrite not_elem_of_cons. destruct (String.eqb_spec n d) as [->|Hn].
    + split; [done | by intros [? _]].
    + rewrite IH. split; [by intros ?; split | by intros [_ ?]].
Qed.

Lemma resolve_distinct {A : Type} (d : string) (l : list (string * A)) (a : A) :
  NoDup l.*1 → (d, a) ∈ l → resolve d l = Some a.
Proof.
  induction l as [|[n b] l IH]; simpl.
  - intros _ H. by apply elem_of_nil in H.
  - intros [Hn Hl]%NoDup_cons [[= -> ->]|H]%elem_of_cons.
    + by rewrite String.eqb_refl.
    + destruct (String.eqb_spec n d) as [->|_]; [| by apply IH].
      destruct Hn. apply list_elem_of_fmap. by exists (d, a).
Qed.

Lemma walk_with_unfold {P : Type} (pjoin : P → string → P)
      (prune : list string → list string) (top : P)
      (dirs : list (string * tree)) (files : list (string * file)) :
  os.walk_with pjoin prune top (Dir dirs files)
  = (top, dirs.*1, files) ::
    (prune dirs.*1 ≫= λ d,
       match resolve d dirs with
       | Some sub => os.walk_with pjoin prune (pjoin top d) sub
       | None => []
       end).
Proof.
  simpl. f_equal. generalize (prune dirs.*1) as names.
  induction names as [|d names IH]; [done |].
  simpl. rewrite IH. f_equal.
  clear. induction dirs as [|[n sub] dirs IHd]; [done |]. simpl.
  by destruct (String.eqb n d).
Qed.

Lemma fmap_bind_list {A B C : Type} (f : B → C) (g : A → list B) (l : list A) :
  f <$> (l ≫= g) = l ≫= λ x, f <$> g x.
Proof.
  induction l as [|x l IH]; [done |].
  by rewrite !bind_cons, fmap_app, IH.
Qed.

(** The walk does not look at the paths it builds: two ways of building
    them give the same walk. *)
Lemma walk_with_fmap {P Q : Type} (h : P → Q)
      (pjoin : P → string → P) (pjoin' : Q → string → Q)
      (prune : list string → list string) :
  (∀ p d, h (pjoin p d) = pjoin' (h p) d) →
  ∀ t top,
    os.walk_with pjoin' prune (h top) t
    = (λ node, (h node.1.1, node.1.2, node.2))
        <$> os.walk_with pjoin prune top t.
Proof.
  intros Hh. induction t as [dirs files IH] using tree_ind_nested.
  intros top. rewrite !walk_with_unfold. rewrite fmap_cons. f_equal.
  rewrite fmap_bind_list. apply list_bind_ext; [| done].
  intros d. destruct (resolve d dirs) as [sub|] eqn:E; [| done].
  apply resolve_Some in E. rewrite Forall_forall in IH.
  rewrite <- Hh. apply (IH _ E).
Qed.

Lemma path_of_snoc (top : string) (ds : list string) (d : string) :
  path_of top (ds ++ [d]) = posixpath.join (path_of top ds) d.
Proof. apply foldl_snoc. Qed.

(** [os.walk] yields the directories of [visited], under their paths. *)
Lemma walk_visited (IGNORE_DIRS : gset string) (root_dir : string) (t : tree) :
  os.walk (keep IGNORE_DIRS) root_dir t
  = (λ node, (path_of root_dir node.1.1, node.1.2, node.2))
      <$> visited IGNORE_DIRS t.
Proof.
  unfold os.walk, visited.
  change root_dir with (path_of root_dir []) at 1.
  apply (walk_with_fmap (path_of root_dir) snoc posixpath.join).
  intros. apply path_of_snoc.
Qed.

Section walk_facts.
Context (IGNORE_DIRS : gset string).

Lemma elem_of_keep (d : string) (l : list string) :
  d ∈ keep IGNORE_DIRS l ↔ (d ∉ IGNORE_DIRS) ∧ d ∈ l.
Proof. unfold keep. by rewrite list_elem_of_filter. Qed.

(** The directories that the walk yields are the directories of the
    tree that no ignored name leads to. *)
Lemma elem_of_walk_from (t : tree) :
  ∀ top node,
    node ∈ os.walk_with snoc (keep IGNORE_DIRS) top t ↔
    ∃ ds sub, node = (top ++ ds, (subdirs sub).*1, entries sub)
              ∧ Forall (λ d, d ∉ IGNORE_DIRS) ds
              ∧ dir_at t ds = Some sub.
Proof.
  induction t as [dirs files IH] using tree_ind_nested.
  intros top node. rewrite walk_with_unfold, elem_of_cons.
  rewrite list_elem_of_bind. rewrite Forall_forall in IH. split.
  - intros [->|(d & Hn & [Hd Hin]%elem_of_keep)].
    + exists [], (Dir dirs files). by rewrite app_nil_r.
    + destruct (resolve d dirs) as [sub|] eqn:E;
        [| by apply elem_of_nil in Hn].
      apply (IH _ (resolve_Some _ _ _ E)) in Hn
        as (ds & sub' & -> & Hds & Hat).
      exists (d :: ds), sub'. unfold snoc. split_and!.
      * by rewrite <- app_assoc.
      * by constructor.
      * simpl. by rewrite E.
  - intros (ds & sub & -> & Hds & Hat).
    destruct ds as [|d ds]; simpl in Hat.
    + injection Hat as <-. left. by rewrite app_nil_r.
    + right. destruct (resolve d dirs) as [sub'|] eqn:E; [| done].
      apply Forall_cons in Hds as [Hd Hds].
      exists d. rewrite E. split.
      * apply (IH _ (resolve_Some _ _ _ E)). unfold snoc.
        exists ds, sub. by rewrite <- app_assoc.
      * apply elem_of_keep. split; [done |].
        apply list_elem_of_fmap. exists (d, sub').
        split; [done | by apply resolve_Some].
Qed.

Lemma elem_of_visited (t : tree) node :
  node ∈ visited IGNORE_DIRS t ↔
  ∃ ds sub, node = (ds, (subdirs sub).*1, entries sub)
            ∧ Forall (λ d, d ∉ IGNORE_DIRS) ds
            ∧ dir_at t ds = Some sub.
Proof. apply (elem_of_walk_from t []). Qed.

End walk_facts.

(** ** Well-formed trees *)

Lemma distinct_NoDup (l : list string) : distinct l = true → NoDup l.
Proof.
  induction l as [|x l IH]; [constructor |]. simpl.
  intros [Hx Hl]%andb_true_iff. constructor; [| by apply IH].
  by apply negb_true_iff, bool_decide_eq_false in Hx.
Qed.

Lemma wf_tree_Dir (dirs : list (string * tree)) (files : list (string * file)) :
  wf_tree (Dir dirs files) = true →
  forallb valid_name dirs.*1 = true ∧ forallb valid_name files.*1 = true
  ∧ NoDup dirs.*1 ∧ NoDup files.*1
  ∧ Forall (λ e, wf_tree e.2 = true) dirs.
Proof.
  simpl. rewrite !andb_true_iff. intros ((((H1 & H2) & H3) & H4) & H5).
  split_and!; [done | done | by apply distinct_NoDup | by apply distinct_NoDup |].
  rewrite forallb_forall in H5. apply Forall_forall. intros [n sub] Hin.
  apply list_elem_of_In in Hin. by apply H5 in Hin.
Qed.

Lemma wf_dir_at (ds : list string) :
  ∀ t sub, wf_tree t = true → dir_at t ds = Some sub →
           forallb valid_name ds = true ∧ wf_tree sub = true.
Proof.
  induction ds as [|d ds IH]; intros [dirs files] sub Hwf Hat.
  - by injection Hat as <-.
  - simpl in Hat. destruct (resolve d dirs) as [sub'|] eqn:E; [| done].
    apply resolve_Some in E.
    apply wf_tree_Dir in Hwf as (Hv & _ & _ & _ & Hsub).
    rewrite Forall_forall in Hsub.
    destruct (IH sub' sub (Hsub _ E) Hat) as [Hds Hs]. split; [| done].
    simpl. rewrite Hds, andb_true_r.
    rewrite forallb_forall in Hv. apply Hv, list_elem_of_In.
    apply list_elem_of_fmap. by exists (d, sub').
Qed.

Lemma file_in_valid (t : tree) (ds : list string) (f : string) (c : file) :
  wf_tree t = true → file_in t ds f c →
  forallb valid_name (ds ++ [f]) = true.
Proof.
  intros Hwf (sub & Hat & Hin).
  destruct (wf_dir_at ds t sub Hwf Hat) as [Hds Hsub].
  rewrite forallb_app, Hds. simpl. rewrite andb_true_r.
  destruct sub as [dirs files].
  apply wf_tree_Dir in Hsub as (_ & Hv & _).
  rewrite forallb_forall in Hv. apply Hv, list_elem_of_In.
  apply list_elem_of_fmap. by exists (f, c).
Qed.

Section selection.
Context (ALLOWED_EXTENSIONS IGNORE_DIRS : gset string).

Lemma NoDup_walk_paths (t : tree) :
  ∀ top, wf_tree t = true →
         NoDup ((λ node, node.1.1)
                  <$> os.walk_with snoc (keep IGNORE_DIRS) top t).
Proof.
  induction t as [dirs files IH] using tree_ind_nested.
  intros top Hwf. apply wf_tree_Dir in Hwf as (_ & _ & Hnd & _ & Hsub).
  rewrite Forall_forall in IH, Hsub.
  rewrite walk_with_unfold, fmap_cons, fmap_bind_list. simpl.
  assert (∀ d p,
    p ∈ (λ node, node.1.1) <$>
          match resolve d dirs with
          | Some sub => os.walk_with snoc (keep IGNORE_DIRS) (snoc top d) sub
          | None => []
          end → ∃ ds, p = top ++ d :: ds) as Hpre.
  { intros d p. destruct (resolve d dirs) as [sub|];
      [| by intros ?%elem_of_nil].
    intros (node & -> & Hn)%list_elem_of_fmap.
    apply elem_of_walk_from in Hn as (ds & ? & -> & _).
    exists ds. unfold snoc. by rewrite <- app_assoc. }
  apply NoDup_cons. split.
  - intros (d & Hp & _)%list_elem_of_bind.
    apply Hpre in Hp as (ds & E).
    apply (f_equal length) in E. rewrite length_app in E. simpl in E. lia.
  - apply NoDup_bind.
    + intros d1 d2 p _ _ (ds1 & ->)%Hpre (ds2 & E)%Hpre.
      by apply app_inv_head in E as [= -> _].
    + intros d _. destruct (resolve d dirs) as [sub|] eqn:E;
        [| constructor].
      apply resolve_Some in E. by apply (IH _ E), (Hsub _ E).
    + by apply NoDup_filter.
Qed.

(** A visited directory is determined by the names that lead to it. *)
Lemma visited_same_path (t : tree) node1 node2 :
  node1 ∈ visited IGNORE_DIRS t → node2 ∈ visited IGNORE_DIRS t →
  node1.1.1 = node2.1.1 → node1 = node2.
Proof.
  intros (ds1 & s1 & -> & _ & H1)%elem_of_visited
         (ds2 & s2 & -> & _ & H2)%elem_of_visited. simpl.
  intros ->. rewrite H1 in H2. by injection H2 as ->.
Qed.

Lemma NoDup_visited (t : tree) : wf_tree t = true → NoDup (visited IGNORE_DIRS t).
Proof.
  intros Hwf. eapply NoDup_fmap_1. by apply (NoDup_walk_paths t []).
Qed.

(** The files written are the files with an allowed extension in the
    directories that no ignored name leads to. *)
Lemma elem_of_selected (t : tree) (ds : list string) (f : string) (c : file) :
  (ds, f, c) ∈ selected ALLOWED_EXTENSIONS IGNORE_DIRS t ↔
  Forall (λ d, d ∉ IGNORE_DIRS) ds ∧ file_in t ds f c ∧ included ALLOWED_EXTENSIONS f = true.
Proof.
  unfold selected, file_in. rewrite list_elem_of_bind. split.
  - intros (node & Hin & Hn).
    apply list_elem_of_fmap in Hin as ([f' c'] & [= -> -> ->] & Hin).
    apply list_elem_of_filter in Hin as [Hinc Hin].
    apply elem_of_visited in Hn as (ds & sub & -> & Hds & Hat).
    split_and!; [done | by exists sub | done].
  - intros (Hds & (sub & Hat & Hin) & Hinc).
    exists (ds, (subdirs sub).*1, entries sub). split.
    + apply list_elem_of_fmap. exists (f, c). split; [done |].
      by apply list_elem_of_filter.
    + apply elem_of_visited. by exists ds, sub.
Qed.

Lemma selected_valid (t : tree) (ds : list string) (f : string) (c : file) :
  wf_tree t = true → (ds, f, c) ∈ selected ALLOWED_EXTENSIONS IGNORE_DIRS t →
  forallb valid_name (ds ++ [f]) = true.
Proof.
  intros Hwf (_ & Hin & _)%elem_of_selected. by eapply file_in_valid.
Qed.

(** No directory and file name is written twice. *)
Lemma NoDup_selected (t : tree) :
  wf_tree t = true → NoDup ((λ item, item.1) <$> selected ALLOWED_EXTENSIONS IGNORE_DIRS t).
Proof.
  intros Hwf. unfold selected. rewrite fmap_bind_list.
  apply NoDup_bind.
  - intros n1 n2 [ds f] H1 H2 Hy1 Hy2.
    apply (visited_same_path t); [done | done |].
    rewrite <- list_fmap_compose in Hy1, Hy2.
    apply list_elem_of_fmap in Hy1 as (? & [= E1 _] & _).
    apply list_elem_of_fmap in Hy2 as (? & [= E2 _] & _).
    congruence.
  - intros node (ds & sub & -> & _ & Hat)%elem_of_visited.
    destruct (wf_dir_at ds t sub Hwf Hat) as [_ Hsub].
    destruct sub as [dirs files].
    apply wf_tree_Dir in Hsub as (_ & _ & _ & Hnd & _). simpl.
    rewrite <- list_fmap_compose.
    apply NoDup_fmap_2_strong.
    + intros [f1 c1] [f2 c2] [_ H1]%list_elem_of_filter
             [_ H2]%list_elem_of_filter [= ->].
      f_equal.
      pose proof (resolve_distinct f2 files c1 Hnd H1).
      pose proof (resolve_distinct f2 files c2 Hnd H2). congruence.
    + apply NoDup_filter. by eapply NoDup_fmap_1.
  - by apply NoDup_visited.
Qed.

(** No relative path is written twice. *)
Lemma NoDup_relative (t : tree) :
  wf_tree t = true →
  NoDup ((λ item, relative item.1.1 item.1.2)
           <$> selected ALLOWED_EXTENSIONS IGNORE_DIRS t).
Proof.
  intros Hwf.
  pose proof (list_fmap_compose
                (λ item : list string * string * file, item.1)
                (λ p : list string * string, relative p.1 p.2)
                (selected ALLOWED_EXTENSIONS IGNORE_DIRS t)) as E.
  unfold compose in E. rewrite E. clear E.
  apply NoDup_fmap_2_strong; [| by apply NoDup_selected].
  intros [ds1 f1] [ds2 f2] ([[? ?] c1] & [= <- <-] & H1)%list_elem_of_fmap
         ([[? ?] c2] & [= <- <-] & H2)%list_elem_of_fmap.
  apply selected_valid, valid_names_nosep in H1, H2; [| done | done].
  unfold relative. simpl. intros E%join_inj; [| done | done | | ].
  - by apply app_inj_tail in E as [-> ->].
  - by destruct ds1.
  - by destruct ds2.
Qed.

End selection.

(** ** What a run writes *)

Lemma concat_str_app (l1 l2 : list string) :
  concat_str (l1 ++ l2) = concat_str l1 +:+ concat_str l2.
Proof.
  induction l1 as [|x l1 IH]; [done |].
  simpl. by rewrite IH, str_app_assoc.
Qed.

Lemma world_eta (w : world) : World (document w) (stdout w) = w.
Proof. by destruct w. Qed.

(** The path of a file below a normalised root is written as the names
    that lead to it, joined by the separator. *)
Lemma emitted_path_relative (rcomps ds : list string) (f : string) :
  forallb valid_name rcomps = true → forallb valid_name (ds ++ [f]) = true →
  emitted_path (abs_path rcomps) ds f = relative ds f.
Proof.
  intros Hr Hv. pose proof Hv as Hv'.
  rewrite forallb_app in Hv'. apply andb_true_iff in Hv' as [Hds Hf].
  simpl in Hf. rewrite andb_true_r in Hf.
  unfold emitted_path, relative.
  rewrite path_of_abs_path by done.
  rewrite join_abs_path; [| by rewrite forallb_app, Hr, Hds | done].
  rewrite <- app_assoc. apply relpath_below; [done | done |].
  by destruct ds.
Qed.

Section rendering.
Context (ALLOWED_EXTENSIONS IGNORE_DIRS : gset string).
Context (lead trail : string).

(** One turn of the loop over the files: a file with an allowed
    extension adds its block, and its diagnostic if it has one. *)
Lemma each_file_spec (root_dir dirpath : string) (w : world)
      (e : string * file) :
  each_file ALLOWED_EXTENSIONS lead trail root_dir dirpath w e
  = if included ALLOWED_EXTENSIONS e.1 then
      let rel := posixpath.relpath root_dir
                   (posixpath.join dirpath e.1) root_dir in
      World (document w +:+ block lead trail rel e.2)
            (stdout w ++ diagnostic rel e.2)
    else w.
Proof.
  unfold each_file, included.
  destruct (bool_decide _); [| done].
  unfold block, header, write, print. cbv zeta.
  destruct e.2 as [text|err]; simpl document; simpl stdout; f_equal.
  - by rewrite !str_app_assoc.
  - by rewrite app_nil_r.
  - by rewrite !str_app_assoc, str_app_nil_r.
Qed.

Lemma files_loop_spec (root_dir : string) (ds : list string)
      (files : list (string * file)) :
  ∀ w,
    foldl (each_file ALLOWED_EXTENSIONS lead trail root_dir
             (path_of root_dir ds)) w files
    = let chosen :=
        filter (λ e : string * file, included ALLOWED_EXTENSIONS e.1 = true)
               files in
      World (document w +:+ concat_str
               ((λ e : string * file,
                   block lead trail (emitted_path root_dir ds e.1) e.2)
                  <$> chosen))
            (stdout w ++
               (chosen ≫= λ e : string * file,
                  diagnostic (emitted_path root_dir ds e.1) e.2)).
Proof.
  induction files as [|e files IH]; intros w.
  - simpl. by rewrite str_app_nil_r, app_nil_r, world_eta.
  - simpl foldl. rewrite IH, each_file_spec. cbv zeta.
    rewrite filter_cons.
    destruct (decide (included ALLOWED_EXTENSIONS e.1 = true)) as [E|E].
    + rewrite E. simpl document. simpl stdout.
      rewrite fmap_cons, bind_cons. simpl concat_str.
      by rewrite str_app_assoc, <- app_assoc.
    + apply not_true_is_false in E. by rewrite E.
Qed.

(** The loop over the walk writes the blocks of the selected files in
    order and prints their diagnostics. *)
Lemma merge_loop_spec (root_dir : string) (t : tree) (w : world) :
  merge_loop ALLOWED_EXTENSIONS IGNORE_DIRS lead trail root_dir t w
  = World
      (document w +:+
         content_with ALLOWED_EXTENSIONS IGNORE_DIRS lead trail
           (emitted_path root_dir) t)
      (stdout w ++
         diagnostics_with ALLOWED_EXTENSIONS IGNORE_DIRS
           (emitted_path root_dir) t).
Proof.
  unfold merge_loop, content_with, diagnostics_with, selected.
  rewrite walk_visited. generalize (visited IGNORE_DIRS t) as nodes.
  intros nodes. revert w.
  induction nodes as [|[[ds dn] fl] nodes IH]; intros w.
  - simpl. by rewrite str_app_nil_r, app_nil_r, world_eta.
  - rewrite fmap_cons. simpl foldl. rewrite IH, files_loop_spec. cbv zeta.
    simpl document. simpl stdout. rewrite !bind_cons.
    rewrite fmap_app, concat_str_app, bind_app. simpl.
    rewrite <- !list_fmap_compose, list_fmap_bind.
    by rewrite str_app_assoc, <- app_assoc.
Qed.

(** Below a normalised root and in a well-formed tree the paths written
    are the relative ones. *)
Lemma content_relative (rcomps : list string) (t : tree) :
  forallb valid_name rcomps = true → wf_tree t = true →
  content_with ALLOWED_EXTENSIONS IGNORE_DIRS lead trail
    (emitted_path (abs_path rcomps)) t
  = content_with ALLOWED_EXTENSIONS IGNORE_DIRS lead trail relative t.
Proof.
  intros Hr Hwf. unfold content_with. f_equal.
  apply Forall_fmap_ext, Forall_forall. intros [[ds f] c] Hin. simpl.
  by rewrite (emitted_path_relative rcomps ds f Hr (selected_valid _ _ _ _ _ _ Hwf Hin)).
Qed.

Lemma diagnostics_relative (rcomps : list string) (t : tree) :
  forallb valid_name rcomps = true → wf_tree t = true →
  diagnostics_with ALLOWED_EXTENSIONS IGNORE_DIRS
    (emitted_path (abs_path rcomps)) t
  = diagnostics_with ALLOWED_EXTENSIONS IGNORE_DIRS relative t.
Proof.
  intros Hr Hwf. unfold diagnostics_with.
  apply Forall_bind_ext, Forall_forall. intros [[ds f] c] Hin. simpl.
  by rewrite (emitted_path_relative rcomps ds f Hr (selected_valid _ _ _ _ _ _ Hwf Hin)).
Qed.

End rendering.

(** ** The visible part of a tree *)

(** Rewriting with a lemma whose instance has to be beta-reduced
    first. *)
Ltac rewrite_beta lem :=
  let H := fresh in
  pose proof lem as H; cbv beta in H; rewrite H; clear H.

Section visibility.
Context (ALLOWED_EXTENSIONS IGNORE_DIRS : gset string).

Lemma visible_Dir (dirs : list (string * tree)) (files : list (string * file)) :
  visible ALLOWED_EXTENSIONS IGNORE_DIRS (Dir dirs files)
  = Dir ((λ e : string * tree,
            (e.1, visible ALLOWED_EXTENSIONS IGNORE_DIRS e.2))
           <$> filter (λ e : string * tree, e.1 ∉ IGNORE_DIRS) dirs)
        (filter (λ e : string * file, included ALLOWED_EXTENSIONS e.1 = true)
                files).
Proof.
  simpl. f_equal. induction dirs as [|[n sub] dirs IH]; [done |].
  rewrite filter_cons. simpl. rewrite IH.
  destruct (decide (n ∉ IGNORE_DIRS)) as [H|H].
  - by rewrite bool_decide_eq_false_2.
  - rewrite bool_decide_eq_true_2; [done |]. by apply dec_stable.
Qed.

Lemma names_filter_fmap {A B : Type} (g : A → B) (P : string → Prop)
      `{∀ x, Decision (P x)} (l : list (string * A)) :
  ((λ e : string * A, (e.1, g e.2))
     <$> filter (λ e : string * A, P e.1) l).*1
  = filter P l.*1.
Proof.
  induction l as [|[n a] l IH]; [done |].
  rewrite fmap_cons, !filter_cons. cbn [fst].
  destruct (decide (P n)); [| done].
  rewrite !fmap_cons. cbn [fst]. by f_equal.
Qed.

Lemma resolve_filter_fmap {A B : Type} (g : A → B) (P : string → Prop)
      `{∀ x, Decision (P x)} (d : string) (l : list (string * A)) :
  P d →
  resolve d ((λ e : string * A, (e.1, g e.2))
               <$> filter (λ e : string * A, P e.1) l)
  = g <$> resolve d l.
Proof.
  intros Hd. induction l as [|[n a] l IH]; [done |].
  rewrite filter_cons. simpl.
  destruct (String.eqb_spec n d) as [->|Hn].
  - rewrite decide_True by done. simpl. by rewrite String.eqb_refl.
  - destruct (decide (P n)); [| done]. simpl.
    apply String.eqb_neq in Hn. by rewrite Hn.
Qed.

Lemma filter_twice {A : Type} (P : A → Prop) `{∀ x, Decision (P x)}
      (l : list A) :
  filter P (filter P l) = filter P l.
Proof.
  induction l as [|x l IH]; [done |]. rewrite filter_cons.
  destruct (decide (P x)) as [Hx|Hx]; [| done].
  by rewrite filter_cons, decide_True, IH.
Qed.

(** What a run uses of a visited directory: the names that lead to it
    and its files with an allowed extension. *)
Lemma view_visible (t : tree) :
  ∀ top,
    (λ node, (node.1.1,
              filter (λ e : string * file,
                        included ALLOWED_EXTENSIONS e.1 = true) node.2))
      <$> os.walk_with snoc (keep IGNORE_DIRS) top
            (visible ALLOWED_EXTENSIONS IGNORE_DIRS t)
    = (λ node, (node.1.1,
                filter (λ e : string * file,
                          included ALLOWED_EXTENSIONS e.1 = true) node.2))
        <$> os.walk_with snoc (keep IGNORE_DIRS) top t.
Proof.
  induction t as [dirs files IH] using tree_ind_nested. intros top.
  rewrite visible_Dir, !walk_with_unfold, !fmap_cons. cbn [fst snd].
  rewrite filter_twice. f_equal.
  rewrite_beta (names_filter_fmap (visible ALLOWED_EXTENSIONS IGNORE_DIRS)
                  (λ d, d ∉ IGNORE_DIRS) dirs).
  assert (keep IGNORE_DIRS (filter (λ d, d ∉ IGNORE_DIRS) dirs.*1)
          = keep IGNORE_DIRS dirs.*1) as -> by apply filter_twice.
  rewrite !fmap_bind_list. apply Forall_bind_ext, Forall_forall.
  intros d [Hd _]%elem_of_keep.
  rewrite_beta (resolve_filter_fmap (visible ALLOWED_EXTENSIONS IGNORE_DIRS)
                  (λ d, d ∉ IGNORE_DIRS) d dirs Hd).
  destruct (resolve d dirs) as [sub|] eqn:E; [| done]. simpl.
  rewrite Forall_forall in IH. apply (IH _ (resolve_Some _ _ _ E)).
Qed.

End visibility.

Section visible_runs.
Context (ALLOWED_EXTENSIONS IGNORE_DIRS : gset string).

(** The files written are those of the visible part. *)
Lemma selected_visible (t : tree) :
  selected ALLOWED_EXTENSIONS IGNORE_DIRS
    (visible ALLOWED_EXTENSIONS IGNORE_DIRS t)
  = selected ALLOWED_EXTENSIONS IGNORE_DIRS t.
Proof.
  pose proof (view_visible ALLOWED_EXTENSIONS IGNORE_DIRS t []) as V.
  unfold selected, visited.
  set (g := λ v : list string * list (string * file),
              (λ e : string * file, (v.1, e.1, e.2)) <$> v.2).
  set (view := λ node : list string * list string * list (string * file),
                 (node.1.1,
                  filter (λ e : string * file,
                            included ALLOWED_EXTENSIONS e.1 = true) node.2))
    in V.
  pose proof (list_fmap_bind view g) as B. unfold compose in B.
  by rewrite <- !B, V.
Qed.

Lemma content_visible (lead trail : string)
      (rel : list string → string → string) (t : tree) :
  content_with ALLOWED_EXTENSIONS IGNORE_DIRS lead trail rel
    (visible ALLOWED_EXTENSIONS IGNORE_DIRS t)
  = content_with ALLOWED_EXTENSIONS IGNORE_DIRS lead trail rel t.
Proof. unfold content_with. by rewrite selected_visible. Qed.

Lemma diagnostics_visible (rel : list string → string → string) (t : tree) :
  diagnostics_with ALLOWED_EXTENSIONS IGNORE_DIRS rel
    (visible ALLOWED_EXTENSIONS IGNORE_DIRS t)
  = diagnostics_with ALLOWED_EXTENSIONS IGNORE_DIRS rel t.
Proof. unfold diagnostics_with. by rewrite selected_visible. Qed.

Lemma structure_visible (startpath : string) (t : tree) :
  structure ALLOWED_EXTENSIONS IGNORE_DIRS startpath
    (visible ALLOWED_EXTENSIONS IGNORE_DIRS t)
  = structure ALLOWED_EXTENSIONS IGNORE_DIRS startpath t.
Proof.
  pose proof (view_visible ALLOWED_EXTENSIONS IGNORE_DIRS t []) as V.
  unfold structure, visited. do 5 f_equal.
  set (view := λ node : list string * list string * list (string * file),
                 (node.1.1,
                  filter (λ e : string * file,
                            included ALLOWED_EXTENSIONS e.1 = true) node.2))
    in V.
  set (g := λ v : list string * list (string * file),
         str.mul (str.mul " " 4) (level_of startpath v.1)
           +:+ posixpath.basename (path_of startpath v.1) +:+ "/" +:+ LF
         +:+ concat_str
               ((λ e : string * file,
                   str.mul (str.mul " " 4) (level_of startpath v.1 + 1)
                     +:+ e.1 +:+ LF) <$> v.2)).
  pose proof (list_fmap_compose view g) as B. unfold compose in B.
  unfold dir_lines. by rewrite !B, V.
Qed.

(** Files whose name is not included do not show in the visible part. *)
Lemma filter_store (name text : string) (files : list (string * file)) :
  included ALLOWED_EXTENSIONS name = false →
  filter (λ e : string * file, included ALLOWED_EXTENSIONS e.1 = true)
         (store name text files)
  = filter (λ e : string * file, included ALLOWED_EXTENSIONS e.1 = true)
           files.
Proof.
  intros Hn. induction files as [|[n c] files IH]; [done |].
  unfold store in *. rewrite map_cons, !filter_cons, IH. cbn [fst].
  destruct (String.eqb_spec n name) as [->|_]; [| done]. cbn [fst].
  by rewrite !decide_False by (by rewrite Hn).
Qed.

Lemma filter_truncate (name : string) (files : list (string * file)) :
  included ALLOWED_EXTENSIONS name = false →
  filter (λ e : string * file, included ALLOWED_EXTENSIONS e.1 = true)
         (truncate name files)
  = filter (λ e : string * file, included ALLOWED_EXTENSIONS e.1 = true)
           files.
Proof.
  intros Hn. unfold truncate. destruct (bool_decide _).
  - by apply filter_store.
  - rewrite filter_app, filter_cons. cbn [fst].
    rewrite decide_False by (by rewrite Hn). by rewrite app_nil_r.
Qed.

Lemma visible_open_w (name : string) (t : tree) :
  included ALLOWED_EXTENSIONS name = false →
  visible ALLOWED_EXTENSIONS IGNORE_DIRS (open_w name t)
  = visible ALLOWED_EXTENSIONS IGNORE_DIRS t.
Proof.
  intros Hn. destruct t as [dirs files]. unfold open_w.
  rewrite !visible_Dir. cbn [subdirs entries]. by rewrite filter_truncate.
Qed.

Lemma visible_close_w (name text : string) (t : tree) :
  included ALLOWED_EXTENSIONS name = false →
  visible ALLOWED_EXTENSIONS IGNORE_DIRS (close_w name text t)
  = visible ALLOWED_EXTENSIONS IGNORE_DIRS t.
Proof.
  intros Hn. destruct t as [dirs files]. unfold close_w.
  rewrite !visible_Dir. cbn [subdirs entries]. by rewrite filter_store.
Qed.

End visible_runs.

(** Opening the output file again and closing it on the same document
    leaves the file system as the first run left it. *)
Lemma store_store (name text1 text2 : string) (files : list (string * file)) :
  store name text2 (store name text1 files) = store name text2 files.
Proof.
  unfold store. rewrite map_map. apply map_ext. intros [n c]. cbn [fst].
  destruct (String.eqb n name) eqn:E; cbn [fst]; by rewrite E.
Qed.

Lemma store_names (name text : string) (files : list (string * file)) :
  (store name text files).*1 = files.*1.
Proof.
  unfold store. induction files as [|[n c] files IH]; [done |].
  rewrite map_cons, !fmap_cons, IH. cbn [fst]. by destruct (String.eqb n name).
Qed.

Lemma truncate_names (name : string) (files : list (string * file)) :
  name ∈ (truncate name files).*1.
Proof.
  unfold truncate. destruct (bool_decide _) eqn:E.
  - apply bool_decide_eq_true in E. by rewrite store_names.
  - rewrite fmap_app. apply elem_of_app. right. by left.
Qed.

Lemma reopen (name text : string) (t : tree) :
  close_w name text (open_w name (close_w name text (open_w name t)))
  = close_w name text (open_w name t).
Proof.
  destruct t as [dirs files]. unfold close_w, open_w. cbn [subdirs entries].
  f_equal. unfold truncate at 1.
  rewrite bool_decide_eq_true_2
    by (rewrite store_names; apply truncate_names).
  by rewrite !store_store.
Qed.

(** ** The two scripts *)

Lemma merge_code_output_excluded :
  included merge_code.ALLOWED_EXTENSIONS merge_code.OUTPUT_FILE = false.
Proof. by vm_compute. Qed.

Lemma mergecode_output_excluded :
  included mergecode.ALLOWED_EXTENSIONS mergecode.OUTPUT_FILE = false.
Proof. by vm_compute. Qed.

(** What a run of [merge_code.py] leaves, writes and prints. *)
Lemma merge_code_run (root_dir : string) (t : tree) :
  merge_code.merge_files root_dir t
  = let doc :=
      content_with merge_code.ALLOWED_EXTENSIONS merge_code.IGNORE_DIRS
        LF LF (emitted_path root_dir) t in
    (close_w merge_code.OUTPUT_FILE doc (open_w merge_code.OUTPUT_FILE t),
     World doc
       (diagnostics_with merge_code.ALLOWED_EXTENSIONS merge_code.IGNORE_DIRS
          (emitted_path root_dir) t
        ++ ["✅ Success! Source code combined into: FullProjectSource.txt"])).
Proof.
  unfold merge_code.merge_files.
  change (merge_code.merge_loop root_dir ?fs ?w)
    with (merge_loop merge_code.ALLOWED_EXTENSIONS merge_code.IGNORE_DIRS
            LF LF root_dir fs w).
  rewrite merge_loop_spec. cbn [document stdout].
  rewrite str_app_nil_l, app_nil_l.
  rewrite <- content_visible, <- diagnostics_visible.
  rewrite visible_open_w by apply merge_code_output_excluded.
  by rewrite content_visible, diagnostics_visible.
Qed.

Lemma each_name_loop (subindent : string) (files : list (string * file)) :
  ∀ w,
    foldl (mergecode.each_name subindent) w files
    = World (document w +:+ concat_str
               ((λ e : string * file, subindent +:+ e.1 +:+ LF)
                  <$> filter (λ e : string * file,
                                included mergecode.ALLOWED_EXTENSIONS e.1 = true)
                             files))
            (stdout w).
Proof.
  induction files as [|e files IH]; intros w.
  - simpl. by rewrite str_app_nil_r, world_eta.
  - simpl foldl. rewrite IH, filter_cons. unfold mergecode.each_name.
    fold (included mergecode.ALLOWED_EXTENSIONS e.1).
    destruct (included mergecode.ALLOWED_EXTENSIONS e.1) eqn:E.
    + rewrite decide_True by done. rewrite fmap_cons. simpl.
      by rewrite !str_app_assoc.
    + by rewrite decide_False by done.
Qed.

Lemma each_dir_spec (startpath : string) (w : world)
      (node : list string * list string * list (string * file)) :
  mergecode.each_dir startpath w
    (path_of startpath node.1.1, node.1.2, node.2)
  = World (document w +:+
             dir_lines mergecode.ALLOWED_EXTENSIONS startpath node)
          (stdout w).
Proof.
  unfold mergecode.each_dir, dir_lines. rewrite each_name_loop.
  unfold write, level_of. cbn [document stdout].
  by rewrite !str_app_assoc.
Qed.

Lemma write_tree_structure_spec (startpath : string) (fs : tree) (w : world) :
  mergecode.write_tree_structure startpath fs w
  = World (document w +:+
             structure mergecode.ALLOWED_EXTENSIONS mergecode.IGNORE_DIRS
               startpath fs)
          (stdout w).
Proof.
  unfold mergecode.write_tree_structure, structure.
  change mergecode.keep with (keep mergecode.IGNORE_DIRS).
  rewrite walk_visited.
  generalize (visited mergecode.IGNORE_DIRS fs) as nodes. intros nodes.
  assert (∀ w0,
    foldl (mergecode.each_dir startpath) w0
      ((λ node, (path_of startpath node.1.1, node.1.2, node.2)) <$> nodes)
    = World (document w0 +:+
               concat_str
                 (dir_lines mergecode.ALLOWED_EXTENSIONS startpath <$> nodes))
            (stdout w0)) as L.
  { induction nodes as [|node nodes IH]; intros w0.
    - simpl. by rewrite str_app_nil_r, world_eta.
    - rewrite !fmap_cons.
      change (foldl ?f ?a (?x :: ?l)) with (foldl f (f a x) l).
      rewrite IH, (each_dir_spec startpath w0 node).
      cbn [document stdout]. simpl concat_str. by rewrite str_app_assoc. }
  rewrite L. unfold write. cbn [document stdout].
  by rewrite !str_app_assoc.
Qed.

(** What a run of [mergecode.py] leaves, writes and prints. *)
Lemma mergecode_run (root_dir : string) (t : tree) :
  mergecode.merge_files root_dir t
  = let doc :=
      structure mergecode.ALLOWED_EXTENSIONS mergecode.IGNORE_DIRS root_dir t
      +:+ content_with mergecode.ALLOWED_EXTENSIONS mergecode.IGNORE_DIRS
            "" (LF +:+ LF) (emitted_path root_dir) t in
    (close_w mergecode.OUTPUT_FILE doc (open_w mergecode.OUTPUT_FILE t),
     World doc
       (["Generating folder structure..."; "Merging file contents..."]
        ++ diagnostics_with mergecode.ALLOWED_EXTENSIONS mergecode.IGNORE_DIRS
             (emitted_path root_dir) t
        ++ ["✅ Success! Structure and code combined into: FullProjectSource.txt"])).
Proof.
  unfold mergecode.merge_files.
  change (mergecode.merge_loop root_dir ?fs ?w)
    with (merge_loop mergecode.ALLOWED_EXTENSIONS mergecode.IGNORE_DIRS
            "" (LF +:+ LF) root_dir fs w).
  rewrite write_tree_structure_spec, merge_loop_spec.
  unfold print. cbn [document stdout]. rewrite str_app_nil_l.
  rewrite <- content_visible, <- diagnostics_visible, <- structure_visible.
  rewrite visible_open_w by apply mergecode_output_excluded.
  rewrite content_visible, diagnostics_visible, structure_visible.
  cbv zeta. by rewrite <- !app_assoc.
Qed.

(** The files written, with the extension test spelled out. *)
Lemma elem_of_selected_ext (ALLOWED_EXTENSIONS IGNORE_DIRS : gset string)
      (t : tree) (ds : list string) (f : string) (c : file) :
  (ds, f, c) ∈ selected ALLOWED_EXTENSIONS IGNORE_DIRS t ↔
  Forall (λ d, d ∉ IGNORE_DIRS) ds ∧ file_in t ds f c
  ∧ (posixpath.splitext f).2 ∈ ALLOWED_EXTENSIONS.
Proof.
  rewrite elem_of_selected. unfold included.
  by rewrite bool_decide_eq_true.
Qed.

Lemma selected_open_w (ALLOWED_EXTENSIONS IGNORE_DIRS : gset string)
      (name : string) (t : tree) :
  included ALLOWED_EXTENSIONS name = false →
  selected ALLOWED_EXTENSIONS IGNORE_DIRS (open_w name t)
  = selected ALLOWED_EXTENSIONS IGNORE_DIRS t.
Proof.
  intros Hn. rewrite <- selected_visible, visible_open_w by done.
  apply selected_visible.
Qed.

Lemma selected_close_w (ALLOWED_EXTENSIONS IGNORE_DIRS : gset string)
      (name text : string) (t : tree) :
  included ALLOWED_EXTENSIONS name = false →
  selected ALLOWED_EXTENSIONS IGNORE_DIRS (close_w name text t)
  = selected ALLOWED_EXTENSIONS IGNORE_DIRS t.
Proof.
  intros Hn. rewrite <- selected_visible, visible_close_w by done.
  apply selected_visible.
Qed.

Lemma structure_reopen (ALLOWED_EXTENSIONS IGNORE_DIRS : gset string)
      (name text startpath : string) (t : tree) :
  included ALLOWED_EXTENSIONS name = false →
  structure ALLOWED_EXTENSIONS IGNORE_DIRS startpath
    (close_w name text (open_w name t))
  = structure ALLOWED_EXTENSIONS IGNORE_DIRS startpath t.
Proof.
  intros Hn.
  rewrite <- structure_visible, visible_close_w, visible_open_w by done.
  apply structure_visible.
Qed.

Lemma resolve_store (name text : string) (files : list (string * file)) :
  name ∈ files.*1 → resolve name (store name text files) = Some (Text text).
Proof.
  induction files as [|[n c] files IH]; [by intros ?%elem_of_nil |].
  rewrite fmap_cons. cbn [fst]. unfold store. simpl.
  destruct (String.eqb_spec n name) as [->|Hn]; cbn [fst].
  - by rewrite String.eqb_refl.
  - intros [?|Hin]%elem_of_cons; [done |].
    apply String.eqb_neq in Hn. rewrite Hn. by apply IH.
Qed.

(** The output file holds the document when the stream is closed. *)
Lemma resolve_output (name text : string) (t : tree) :
  resolve name (entries (close_w name text (open_w name t)))
  = Some (Text text).
Proof.
  destruct t as [dirs files]. cbn [close_w open_w entries subdirs].
  apply resolve_store, truncate_names.
Qed.

(** The directories and files of the visible part. *)
Lemma dir_at_visible (ALLOWED_EXTENSIONS IGNORE_DIRS : gset string)
      (ds : list string) :
  ∀ t s',
    dir_at (visible ALLOWED_EXTENSIONS IGNORE_DIRS t) ds = Some s' ↔
    Forall (λ d, d ∉ IGNORE_DIRS) ds
    ∧ ∃ s, dir_at t ds = Some s
           ∧ s' = visible ALLOWED_EXTENSIONS IGNORE_DIRS s.
Proof.
  induction ds as [|d ds IH]; intros [dirs files] s'.
  - simpl dir_at. split.
    + intros [= <-]. split; [constructor |]. by eexists.
    + by intros (_ & s & [= <-] & ->).
  - rewrite visible_Dir. cbn [dir_at subdirs]. rewrite Forall_cons.
    destruct (decide (d ∈ IGNORE_DIRS)) as [Hd|Hd].
    + assert (resolve d
                ((λ e : string * tree,
                    (e.1, visible ALLOWED_EXTENSIONS IGNORE_DIRS e.2))
                   <$> filter (λ e : string * tree, e.1 ∉ IGNORE_DIRS) dirs)
              = None) as ->.
      { apply resolve_None.
        rewrite_beta (names_filter_fmap
                        (visible ALLOWED_EXTENSIONS IGNORE_DIRS)
                        (λ d, d ∉ IGNORE_DIRS) dirs).
        by intros [? _]%list_elem_of_filter. }
      split; [done | by intros [[? _] _]].
    + rewrite_beta (resolve_filter_fmap
                      (visible ALLOWED_EXTENSIONS IGNORE_DIRS)
                      (λ d, d ∉ IGNORE_DIRS) d dirs Hd).
      destruct (resolve d dirs) as [sub|]; simpl.
      * rewrite IH. tauto.
      * split; [done | by intros (_ & s & ? & _)].
Qed.

Lemma file_in_visible (ALLOWED_EXTENSIONS IGNORE_DIRS : gset string)
      (t : tree) (ds : list string) (f : string) (c : file) :
  file_in (visible ALLOWED_EXTENSIONS IGNORE_DIRS t) ds f c ↔
  Forall (λ d, d ∉ IGNORE_DIRS) ds ∧ file_in t ds f c
  ∧ (posixpath.splitext f).2 ∈ ALLOWED_EXTENSIONS.
Proof.
  unfold file_in. split.
  - intros (s' & (Hds & s & Hat & ->)%dir_at_visible & Hin).
    destruct s as [dirs files]. rewrite visible_Dir in Hin.
    cbn [entries] in Hin. apply list_elem_of_filter in Hin as [Hf Hin].
    split_and!; [done | by exists (Dir dirs files) |].
    by apply bool_decide_eq_true in Hf.
  - intros (Hds & (s & Hat & Hin) & Hf).
    exists (visible ALLOWED_EXTENSIONS IGNORE_DIRS s). split.
    + apply dir_at_visible. split; [done |]. by exists s.
    + destruct s as [dirs files]. rewrite visible_Dir. cbn [entries].
      apply list_elem_of_filter. split; [| done].
      by apply bool_decide_eq_true.
Qed.

(** A run is a function of the visible part of the tree. *)
Lemma merge_code_visible (root_dir : string) (t1 t2 : tree) :
  visible merge_code.ALLOWED_EXTENSIONS merge_code.IGNORE_DIRS t1
  = visible merge_code.ALLOWED_EXTENSIONS merge_code.IGNORE_DIRS t2 →
  (merge_code.merge_files root_dir t1).2
  = (merge_code.merge_files root_dir t2).2.
Proof.
  intros V. rewrite !merge_code_run. cbv zeta. cbn [snd].
  unfold content_with, diagnostics_with.
  by rewrite <- (selected_visible _ _ t1), V, selected_visible.
Qed.

Lemma mergecode_visible (root_dir : string) (t1 t2 : tree) :
  visible mergecode.ALLOWED_EXTENSIONS mergecode.IGNORE_DIRS t1
  = visible mergecode.ALLOWED_EXTENSIONS mergecode.IGNORE_DIRS t2 →
  (mergecode.merge_files root_dir t1).2
  = (mergecode.merge_files root_dir t2).2.
Proof.
  intros V. rewrite !mergecode_run. cbv zeta. cbn [snd].
  unfold content_with, diagnostics_with.
  rewrite <- (selected_visible _ _ t1), <- (structure_visible _ _ _ t1), V.
  by rewrite selected_visible, structure_visible.
Qed.

(** ** The level of a directory in the structure section *)

Lemma count_sep_cons (c : ascii) (s : string) :
  str.count (String c s) "/"
  = (if Ascii.eqb c "/" then 1 else 0) + str.count s "/".
Proof.
  unfold str.count. change (String "/" "") with "/".
  cbn [str.count_go]. rewrite prefix_cons, prefix_nil, andb_true_r.
  rewrite Ascii.eqb_sym. by destruct (Ascii.eqb c "/").
Qed.

Lemma count_sep_app (a b : string) :
  str.count (a +:+ b) "/" = str.count a "/" + str.count b "/".
Proof.
  induction a as [|c a IH]; [done |].
  rewrite str_app_cons, !count_sep_cons, IH. lia.
Qed.

Lemma count_sep_without (s : string) :
  has_char "/" s = false → str.count s "/" = 0.
Proof.
  induction s as [|c s IH]; [done |]. simpl has_char.
  intros [Hc Hs]%orb_false_iff. by rewrite count_sep_cons, Hc, IH.
Qed.

Lemma count_sep_join (ds : list string) :
  Forall (λ n, has_char "/" n = false) ds →
  str.count (str.join "/" ds) "/" = length ds - 1.
Proof.
  induction 1 as [|d ds Hd Hds IH]; [done |].
  destruct ds as [|d' ds]; [by apply count_sep_without |].
  rewrite join_cons by done.
  rewrite !count_sep_app, IH, count_sep_without by done.
  change (str.count "/" "/") with 1. simpl length. lia.
Qed.

Lemma prefix_app (old rest : string) : String.prefix old (old +:+ rest) = true.
Proof.
  induction old as [|c old IH]; [apply prefix_nil |].
  by rewrite str_app_cons, prefix_cons, Ascii.eqb_refl, IH.
Qed.

Lemma replace_go_skip (old new x rest : string) :
  str.replace_go old new (String.length x) (x +:+ rest)
  = str.replace_go old new 0 rest.
Proof.
  induction x as [|c x IH]; [by destruct rest |].
  rewrite str_app_cons. simpl. apply IH.
Qed.

Lemma replace_go_absent (old new s : string) :
  str.contains s old = false → str.replace_go old new 0 s = s.
Proof.
  induction s as [|c s IH]; [done |]. cbn [str.contains].
  intros [Hp Hs]%orb_false_iff. cbn [str.replace_go].
  by rewrite Hp, IH.
Qed.

(** Removing the start path from a path that has it as a prefix. *)
Lemma replace_prefix (old rest : string) :
  old ≠ "" →
  str.replace (old +:+ rest) old "" = str.replace rest old "".
Proof.
  intros Hne. destruct old as [|c old]; [done |].
  unfold str.replace. rewrite str_app_cons. cbn [str.replace_go].
  rewrite <- str_app_cons, prefix_app, str_app_nil_l.
  replace (String.length (String c old) - 1) with (String.length old)
    by (simpl; lia).
  apply replace_go_skip.
Qed.

Lemma replace_sep_without (s : string) :
  has_char "/" (str.replace s "/" "") = false.
Proof.
  unfold str.replace. change (String "/" "") with "/".
  induction s as [|c s IH]; [done |]. cbn [str.replace_go].
  rewrite prefix_cons, prefix_nil, andb_true_r, Ascii.eqb_sym.
  destruct (Ascii.eqb c "/") eqn:E.
  - by rewrite str_app_nil_l.
  - simpl. by rewrite E, IH.
Qed.

Lemma join_app (l1 l2 : list string) :
  l1 ≠ [] → l2 ≠ [] →
  str.join "/" (l1 ++ l2) = str.join "/" l1 +:+ "/" +:+ str.join "/" l2.
Proof.
  intros H1 H2. induction l1 as [|x l1 IH]; [done |].
  destruct l1 as [|y l1].
  - simpl app. by rewrite join_cons.
  - change ((x :: y :: l1) ++ l2) with (x :: ((y :: l1) ++ l2)).
    rewrite join_cons by done. rewrite IH by done.
    rewrite (join_cons "/" x (y :: l1)) by done.
    by rewrite !str_app_assoc.
Qed.

(** Where the start path does not come back behind its prefix, the level
    is the number of names that lead to the directory. *)
Lemma level_of_depth (rcomps ds : list string) :
  rcomps ≠ [] →
  forallb valid_name rcomps = true → forallb valid_name ds = true →
  str.contains
    (str.drop (String.length (abs_path rcomps))
              (path_of (abs_path rcomps) ds))
    (abs_path rcomps) = false →
  level_of (abs_path rcomps) ds = length ds.
Proof.
  intros Hne Hr Hd. unfold level_of. rewrite path_of_abs_path by done.
  set (rest := match ds with [] => "" | _ :: _ => "/" +:+ str.join "/" ds end).
  assert (abs_path (rcomps ++ ds) = abs_path rcomps +:+ rest) as ->.
  { unfold rest. destruct ds as [|d ds].
    - by rewrite app_nil_r, str_app_nil_r.
    - unfold abs_path. rewrite join_app by done.
      by rewrite !str_app_assoc. }
  rewrite drop_app_len. intros Habs.
  rewrite replace_prefix by done.
  unfold str.replace at 1. rewrite abs_path_cons at 1.
  rewrite replace_go_absent by done.
  unfold rest, os.sep, posixpath.sep. destruct ds as [|d ds]; [done |].
  rewrite count_sep_app, count_sep_join by (by apply valid_names_nosep).
  change (str.count "/" "/") with 1. simpl length. lia.
Qed.

(** In the root of the file system every directory is at level 0. *)
Lemma level_of_root (ds : list string) : level_of "/" ds = 0.
Proof.
  unfold level_of, os.sep, posixpath.sep.
  apply count_sep_without, replace_sep_without.
Qed.

(** The relative path of a file that is not selected is not written. *)
Lemma excluded_path_not_written (ALLOWED_EXTENSIONS IGNORE_DIRS : gset string)
      (t : tree) (ds : list string) (f : string) (c : file) :
  wf_tree t = true → file_in t ds f c →
  Exists (λ d, d ∈ IGNORE_DIRS) ds
  ∨ (posixpath.splitext f).2 ∉ ALLOWED_EXTENSIONS →
  relative ds f ∉ written_paths ALLOWED_EXTENSIONS IGNORE_DIRS t.
Proof.
  intros Hwf Hin Hex Hw. unfold written_paths in Hw.
  apply list_elem_of_fmap in Hw as ([[ds' f'] c'] & E & Hsel).
  cbn [fst snd] in E.
  pose proof (selected_valid _ _ _ _ _ _ Hwf Hsel) as V'.
  pose proof (file_in_valid _ _ _ _ Hwf Hin) as V.
  apply valid_names_nosep in V, V'. unfold relative in E.
  apply join_inj in E; [| done | done | by destruct ds | by destruct ds'].
  apply app_inj_tail in E as [-> ->].
  apply elem_of_selected_ext in Hsel as (Hds & _ & Hf).
  destruct Hex as [Hex|Hex]; [| done].
  apply Exists_exists in Hex as (d & Hd & Hi).
  rewrite Forall_forall in Hds. by apply (Hds d).
Qed.

(** ** Parts of the document *)

Lemma prefix_app_r (sub s y : string) :
  String.prefix sub s = true → String.prefix sub (s +:+ y) = true.
Proof.
  revert s. induction sub as [|a sub IH]; intros s.
  - intros _. apply prefix_nil.
  - destruct s as [|b s]; [done |].
    rewrite str_app_cons, !prefix_cons.
    intros [-> H]%andb_true_iff. by rewrite (IH _ H).
Qed.

Lemma contains_app_r (s sub y : string) :
  str.contains s sub = true → str.contains (s +:+ y) sub = true.
Proof.
  induction s as [|a s IH].
  - cbn [str.contains]. rewrite orb_false_r. intros H. rewrite str_app_nil_l.
    destruct sub; [| done]. destruct y; cbn [str.contains]; by rewrite prefix_nil.
  - rewrite str_app_cons. cbn [str.contains].
    intros [H|H]%orb_true_iff.
    + rewrite <- str_app_cons. by rewrite (prefix_app_r _ _ _ H).
    + by rewrite (IH H), orb_true_r.
Qed.

Lemma contains_app_l (x s sub : string) :
  str.contains s sub = true → str.contains (x +:+ s) sub = true.
Proof.
  intros H. induction x as [|a x IH]; [done |].
  rewrite str_app_cons. cbn [str.contains]. by rewrite IH, orb_true_r.
Qed.

Lemma contains_self (s : string) : str.contains s s = true.
Proof.
  pose proof (prefix_app s "") as H. rewrite str_app_nil_r in H.
  destruct s; cbn [str.contains]; by rewrite H.
Qed.

Lemma contains_concat_str (l : list string) (x sub : string) :
  x ∈ l → str.contains x sub = true →
  str.contains (concat_str l) sub = true.
Proof.
  induction 1 as [x l|x y l _ IH]; simpl concat_str; intros H.
  - by apply contains_app_r.
  - by apply contains_app_l, IH.
Qed.

Lemma contains_block_text (lead trail rel text : string) :
  str.contains (block lead trail rel (Text text)) text = true.
Proof.
  unfold block. apply contains_app_l, contains_app_r, contains_self.
Qed.

Lemma contains_block_line (lead trail rel : string) (c : file) :
  str.contains (block lead trail rel c) ("FILE: " +:+ rel +:+ LF) = true.
Proof.
  unfold block, header. apply contains_app_r.
  do 3 apply contains_app_l.
  rewrite <- !str_app_assoc. do 3 apply contains_app_r.
  rewrite str_app_assoc. apply contains_self.
Qed.

Lemma contains_content (ALLOWED_EXTENSIONS IGNORE_DIRS : gset string)
      (lead trail : string) (rel : list string → string → string)
      (t : tree) (ds : list string) (f : string) (c : file) (sub : string) :
  (ds, f, c) ∈ selected ALLOWED_EXTENSIONS IGNORE_DIRS t →
  str.contains (block lead trail (rel ds f) c) sub = true →
  str.contains
    (content_with ALLOWED_EXTENSIONS IGNORE_DIRS lead trail rel t) sub = true.
Proof.
  intros Hin H. unfold content_with.
  apply (contains_concat_str _ (block lead trail (rel ds f) c)); [| done].
  apply list_elem_of_fmap. by exists (ds, f, c).
Qed.

Lemma basename_abs_path (comps : list string) :
  forallb valid_name comps = true →
  posixpath.basename (abs_path comps) = default "" (last comps).
Proof.
  intros Hv. unfold posixpath.basename, posixpath.sep_char.
  destruct (decide (comps = [])) as [->|Hne]; [done |].
  destruct (exists_last Hne) as (l & x & ->).
  rewrite last_snoc. cbn [default].
  rewrite forallb_app in Hv. apply andb_true_iff in Hv as [Hl Hx].
  simpl in Hx. rewrite andb_true_r in Hx.
  apply valid_name_spec in Hx as (_ & Hs & _).
  assert (∃ pre, abs_path (l ++ [x]) = pre +:+ String "/" x) as [pre ->].
  { destruct l as [|y l].
    - by exists "".
    - exists ("/" +:+ str.join "/" (y :: l)). unfold abs_path.
      rewrite join_snoc by done. by rewrite !str_app_assoc. }
  rewrite rfind_last by done.
  change (pre +:+ String "/" x) with (pre +:+ "/" +:+ x).
  rewrite <- str_app_assoc.
  replace (Z.of_nat (String.length pre) + 1)%Z
    with (Z.of_nat (String.length (pre +:+ "/")))
    by (rewrite str_app_length; simpl; lia).
  apply slice_from_app.
Qed.

Lemma visited_valid (IGNORE_DIRS : gset string) (t : tree) node :
  wf_tree t = true → node ∈ visited IGNORE_DIRS t →
  forallb valid_name node.1.1 = true.
Proof.
  intros Hwf (ds & sub & -> & _ & Hat)%elem_of_visited.
  by destruct (wf_dir_at ds t sub Hwf Hat).
Qed.

(** ** Names that are valid UTF-8 *)

Example utf8_ascii : utf8 "main.swift" = true.
Proof. reflexivity. Qed.
Example utf8_two_bytes :
  utf8 ("caf" +:+ String (ascii_of_nat 195) (String (ascii_of_nat 169) ".swift"))
  = true.
Proof. reflexivity. Qed.
Example utf8_latin1 : utf8 latin1_name = false.
Proof. reflexivity. Qed.
Example utf8_latin1_line :
  utf8 ("FILE: " +:+ relative ["src"] latin1_name +:+ LF) = false.
Proof. reflexivity. Qed.

Lemma utf8_scan_app (a b : string) :
  ∀ st, utf8_scan st (a +:+ b) = utf8_scan (utf8_scan st a) b.
Proof.
  induction a as [|c a IH]; intros st; [done |].
  rewrite str_app_cons. simpl. apply IH.
Qed.

(** Two strings that are valid UTF-8 make one when put together. *)
Lemma utf8_app (a b : string) :
  utf8 a = true → utf8 b = true → utf8 (a +:+ b) = true.
Proof.
  unfold utf8. rewrite utf8_scan_app.
  by destruct (utf8_scan Start a).
Qed.

Lemma utf8_concat_str (l : list string) :
  Forall (λ s, utf8 s = true) l → utf8 (concat_str l) = true.
Proof.
  induction 1 as [|x l Hx _ IH]; [done |].
  simpl. by apply utf8_app.
Qed.

Lemma utf8_mul (s : string) (n : nat) :
  utf8 s = true → utf8 (str.mul s n) = true.
Proof.
  intros Hs. induction n as [|n IH]; [done |].
  simpl. by apply utf8_app.
Qed.

Lemma utf8_join (sep : string) (l : list string) :
  utf8 sep = true → forallb utf8 l = true → utf8 (str.join sep l) = true.
Proof.
  intros Hsep. induction l as [|x l IH]; [done |].
  simpl forallb. intros [Hx Hl]%andb_true_iff.
  destruct l as [|y l]; [done |].
  rewrite join_cons by done. apply utf8_app; [done |].
  apply utf8_app; [done |]. by apply IH.
Qed.

Lemma utf8_last (l : list string) :
  forallb utf8 l = true → utf8 (default "" (last l)) = true.
Proof.
  intros Hl. destruct (last l) as [x|] eqn:E; [| done].
  apply last_Some_elem_of in E. cbn [default].
  rewrite forallb_forall in Hl. by apply Hl, list_elem_of_In.
Qed.

Lemma utf8_tree_Dir (dirs : list (string * tree)) (files : list (string * file)) :
  utf8_tree (Dir dirs files) = true →
  forallb utf8 dirs.*1 = true ∧ forallb utf8 files.*1 = true
  ∧ Forall (λ e, utf8_tree e.2 = true) dirs.
Proof.
  simpl. rewrite !andb_true_iff. intros ((H1 & H2) & H3).
  split_and!; [done | done |].
  rewrite forallb_forall in H3. apply Forall_forall. intros [n sub] Hin.
  apply list_elem_of_In in Hin. by apply H3 in Hin.
Qed.

Lemma utf8_dir_at (ds : list string) :
  ∀ t sub, utf8_tree t = true → dir_at t ds = Some sub →
           forallb utf8 ds = true ∧ utf8_tree sub = true.
Proof.
  induction ds as [|d ds IH]; intros [dirs files] sub Hu Hat.
  - by injection Hat as <-.
  - simpl in Hat. destruct (resolve d dirs) as [sub'|] eqn:E; [| done].
    apply resolve_Some in E.
    apply utf8_tree_Dir in Hu as (Hv & _ & Hsub).
    rewrite Forall_forall in Hsub.
    destruct (IH sub' sub (Hsub _ E) Hat) as [Hds Hs]. split; [| done].
    simpl. rewrite Hds, andb_true_r.
    rewrite forallb_forall in Hv. apply Hv, list_elem_of_In.
    apply list_elem_of_fmap. by exists (d, sub').
Qed.

Lemma file_in_utf8 (t : tree) (ds : list string) (f : string) (c : file) :
  utf8_tree t = true → file_in t ds f c →
  forallb utf8 (ds ++ [f]) = true.
Proof.
  intros Hu (sub & Hat & Hin).
  destruct (utf8_dir_at ds t sub Hu Hat) as [Hds Hsub].
  rewrite forallb_app, Hds. simpl. rewrite andb_true_r.
  destruct sub as [dirs files].
  apply utf8_tree_Dir in Hsub as (_ & Hv & _).
  rewrite forallb_forall in Hv. apply Hv, list_elem_of_In.
  apply list_elem_of_fmap. by exists (f, c).
Qed.

(** In a tree whose names are valid UTF-8, so is every path written. *)
Lemma written_paths_utf8 (ALLOWED_EXTENSIONS IGNORE_DIRS : gset string)
      (t : tree) :
  utf8_tree t = true →
  Forall (λ p, utf8 p = true) (written_paths ALLOWED_EXTENSIONS IGNORE_DIRS t).
Proof.
  intros Hu. unfold written_paths. apply Forall_fmap, Forall_forall.
  intros [[ds f] c] (_ & Hin & _)%elem_of_selected. cbn [fst snd compose].
  unfold relative. apply utf8_join; [done |]. by eapply file_in_utf8.
Qed.

(** Below a root and in a tree whose names are valid UTF-8, so are the
    lines of the structure section. *)
Lemma dir_lines_utf8 (ALLOWED_EXTENSIONS IGNORE_DIRS : gset string)
      (rcomps : list string) (t : tree) node :
  forallb valid_name rcomps = true → forallb utf8 rcomps = true →
  wf_tree t = true → utf8_tree t = true →
  node ∈ visited IGNORE_DIRS t →
  utf8 (dir_lines ALLOWED_EXTENSIONS (abs_path rcomps) node) = true.
Proof.
  intros Hr Hru Hwf Hu Hn.
  pose proof (visited_valid _ _ _ Hwf Hn) as Hv.
  apply elem_of_visited in Hn as (ds & sub & -> & _ & Hat).
  cbn [fst snd] in Hv.
  destruct (utf8_dir_at ds t sub Hu Hat) as [Hds Hsub].
  destruct sub as [dirs files].
  apply utf8_tree_Dir in Hsub as (_ & Hf & _).
  unfold dir_lines. cbn [fst snd entries]. cbv zeta.
  rewrite path_of_abs_path by done.
  rewrite basename_abs_path by (by rewrite forallb_app, Hr, Hv).
  repeat apply utf8_app; try done.
  - by apply utf8_mul, utf8_mul.
  - apply utf8_last. by rewrite forallb_app, Hru, Hds.
  - apply utf8_concat_str, Forall_fmap, Forall_forall.
    intros [f c] [_ Hin]%list_elem_of_filter. cbn [fst compose].
    repeat apply utf8_app; try done.
    + by apply utf8_mul, utf8_mul.
    + rewrite forallb_forall in Hf. apply Hf, list_elem_of_In.
      apply list_elem_of_fmap. by exists (f, c).
Qed.

Lemma structure_utf8 (ALLOWED_EXTENSIONS IGNORE_DIRS : gset string)
      (rcomps : list string) (t : tree) :
  forallb valid_name rcomps = true → forallb utf8 rcomps = true →
  wf_tree t = true → utf8_tree t = true →
  utf8 (structure ALLOWED_EXTENSIONS IGNORE_DIRS (abs_path rcomps) t) = true.
Proof.
  intros Hr Hru Hwf Hu. unfold structure.
  repeat apply utf8_app; try done.
  apply utf8_concat_str, Forall_fmap, Forall_forall. intros node Hn.
  by apply (dir_lines_utf8 _ IGNORE_DIRS _ t).
Qed.

(** ** The stream that raises *)

Example raising_latin1_first :
  merge_code_raising.merge_files "/home/u/proj" latin1_first
  = (Dir [] [(latin1_name, Text "x"); ("main.swift", Text "A");
             ("FullProjectSource.txt", Text (LF +:+ separator +:+ LF))],
     Run (World (LF +:+ separator +:+ LF) [])
         (Some (UnicodeEncodeError ("FILE: " +:+ latin1_name +:+ LF)))).
Proof. by vm_compute. Qed.

Lemma write_names_stuck (s : string) (r : run) (e : exn) :
  raised r = Some e → write_names s r = r.
Proof. unfold write_names. by intros ->. Qed.

Lemma write_text_stuck (s : string) (r : run) (e : exn) :
  raised r = Some e → write_text s r = r.
Proof. unfold write_text. by intros ->. Qed.

Lemma print_line_stuck (s : string) (r : run) (e : exn) :
  raised r = Some e → print_line s r = r.
Proof. unfold print_line. by intros ->. Qed.

Lemma write_names_returned (s : string) (w : world) :
  utf8 s = true → write_names s (returned w) = returned (write s w).
Proof. unfold write_names, returned. simpl. by intros ->. Qed.

Lemma write_names_raises (s : string) (w : world) :
  utf8 s = false →
  write_names s (returned w) = Run w (Some (UnicodeEncodeError s)).
Proof. unfold write_names, returned. simpl. by intros ->. Qed.

Lemma foldl_stuck {X : Type} (f : run → X → run) (l : list X) (r : run) :
  (∀ x, f r x = r) → foldl f r l = r.
Proof.
  intros H. induction l as [|x l IH]; [done |]. simpl. by rewrite H.
Qed.

Lemma utf8_separator : utf8 separator = true.
Proof. reflexivity. Qed.

Section raising_facts.
Context (ALLOWED_EXTENSIONS IGNORE_DIRS : gset string).
Context (lead trail : string).
Context (Hlead : utf8 lead = true) (Htrail : utf8 trail = true).

Lemma each_file_skip (root_dir dirpath : string) (r : run)
      (e : string * file) :
  included ALLOWED_EXTENSIONS e.1 = false →
  raising.each_file ALLOWED_EXTENSIONS lead trail root_dir dirpath r e = r.
Proof.
  unfold raising.each_file, included. cbv zeta. by intros ->.
Qed.

Lemma each_file_stuck (root_dir dirpath : string) (r : run)
      (e : string * file) (x : exn) :
  raised r = Some x →
  raising.each_file ALLOWED_EXTENSIONS lead trail root_dir dirpath r e = r.
Proof.
  intros H. unfold raising.each_file. cbv zeta.
  destruct (bool_decide _); [| done].
  rewrite !(write_names_stuck _ r x) by done.
  destruct e.2.
  - by rewrite (write_text_stuck _ r x), (write_names_stuck _ r x).
  - by rewrite (print_line_stuck _ r x).
Qed.

(** A turn of the loop whose FILE line encodes does on the stream that
    raises what it does on the one that does not. *)
Lemma each_file_returned (root_dir dirpath : string) (w : world)
      (e : string * file) :
  (included ALLOWED_EXTENSIONS e.1 = true →
   utf8 (posixpath.relpath root_dir (posixpath.join dirpath e.1) root_dir)
   = true) →
  raising.each_file ALLOWED_EXTENSIONS lead trail root_dir dirpath
    (returned w) e
  = returned (each_file ALLOWED_EXTENSIONS lead trail root_dir dirpath w e).
Proof using Type*.
  intros H. unfold raising.each_file, each_file, included in *. cbv zeta.
  destruct (bool_decide _); [| done]. specialize (H eq_refl).
  rewrite write_names_returned
    by (apply utf8_app; [done | by apply utf8_app]).
  rewrite write_names_returned
    by (apply utf8_app; [done | by apply utf8_app]).
  rewrite write_names_returned by done.
  destruct e.2 as [text|err]; [| done].
  change (write_text text (returned ?w)) with (returned (write text w)).
  by rewrite write_names_returned.
Qed.

(** A turn of the loop whose FILE line does not encode writes the first
    separator line and raises. *)
Lemma each_file_raises (root_dir dirpath : string) (w : world)
      (e : string * file) :
  included ALLOWED_EXTENSIONS e.1 = true →
  utf8 (posixpath.relpath root_dir (posixpath.join dirpath e.1) root_dir)
  = false →
  raising.each_file ALLOWED_EXTENSIONS lead trail root_dir dirpath
    (returned w) e
  = Run (write (lead +:+ separator +:+ LF) w)
        (Some (UnicodeEncodeError
                 ("FILE: "
                  +:+ posixpath.relpath root_dir
                        (posixpath.join dirpath e.1) root_dir
                  +:+ LF))).
Proof using Type*.
  intros Hin H. unfold raising.each_file, included in *. cbv zeta.
  rewrite Hin.
  rewrite write_names_returned
    by (apply utf8_app; [done | by apply utf8_app]).
  assert (utf8 ("FILE: "
                +:+ posixpath.relpath root_dir
                      (posixpath.join dirpath e.1) root_dir +:+ LF)
          = false) as B.
  { unfold utf8 in *. rewrite utf8_scan_app. simpl utf8_scan at 2.
    rewrite utf8_scan_app.
    destruct (utf8_scan Start
                (posixpath.relpath root_dir (posixpath.join dirpath e.1)
                   root_dir)); done. }
  rewrite write_names_raises by done.
  set (r := Run _ _).
  assert (∃ x, raised r = Some x) as [x R] by (by eexists).
  rewrite (write_names_stuck _ r x R).
  destruct e.2 as [text|err].
  - rewrite (write_text_stuck text r x R).
    apply (write_names_stuck trail r x R).
  - apply (print_line_stuck _ r x R).
Qed.

Lemma files_loop_selected (root_dir : string) (ds : list string)
      (files : list (string * file)) :
  ∀ r,
    foldl (raising.each_file ALLOWED_EXTENSIONS lead trail root_dir
             (path_of root_dir ds)) r files
    = foldl (raising.each_selected ALLOWED_EXTENSIONS lead trail root_dir) r
        ((λ e : string * file, (ds, e.1, e.2))
           <$> filter (λ e : string * file,
                         included ALLOWED_EXTENSIONS e.1 = true) files).
Proof.
  induction files as [|e files IH]; intros r; [done |].
  simpl foldl. rewrite filter_cons.
  destruct (decide (included ALLOWED_EXTENSIONS e.1 = true)) as [E|E].
  - rewrite fmap_cons. simpl foldl. rewrite IH.
    unfold raising.each_selected at 2. cbn [fst snd].
    by destruct e.
  - apply not_true_is_false in E. by rewrite each_file_skip, IH.
Qed.

(** The loop over the walk is the loop over the selected files. *)
Lemma merge_loop_selected (root_dir : string) (t : tree) (r : run) :
  raising.merge_loop ALLOWED_EXTENSIONS IGNORE_DIRS lead trail root_dir t r
  = foldl (raising.each_selected ALLOWED_EXTENSIONS lead trail root_dir) r
      (selected ALLOWED_EXTENSIONS IGNORE_DIRS t).
Proof.
  unfold raising.merge_loop, selected.
  rewrite walk_visited. generalize (visited IGNORE_DIRS t) as nodes.
  intros nodes. revert r.
  induction nodes as [|[[ds dn] fl] nodes IH]; intros r; [done |].
  rewrite fmap_cons, bind_cons, foldl_app. simpl foldl at 1.
  rewrite IH. cbn [fst snd]. by rewrite files_loop_selected.
Qed.

Lemma each_selected_stuck (root_dir : string)
      (items : list (list string * string * file)) (r : run) (x : exn) :
  raised r = Some x →
  foldl (raising.each_selected ALLOWED_EXTENSIONS lead trail root_dir) r items
  = r.
Proof.
  intros H. apply foldl_stuck. intros item.
  unfold raising.each_selected. by eapply each_file_stuck.
Qed.

(** As long as the FILE lines encode, the loop does on the stream that
    raises what it does on the one that does not. *)
Lemma each_selected_returned (root_dir : string)
      (items : list (list string * string * file)) :
  Forall (λ item, included ALLOWED_EXTENSIONS item.1.2 = true) items →
  Forall (λ item, utf8 (emitted_path root_dir item.1.1 item.1.2) = true)
         items →
  ∀ w,
    foldl (raising.each_selected ALLOWED_EXTENSIONS lead trail root_dir)
      (returned w) items
    = returned
        (World
           (document w
            +:+ concat_str
                  ((λ item,
                      block lead trail
                        (emitted_path root_dir item.1.1 item.1.2) item.2)
                     <$> items))
           (stdout w
            ++ (items ≫= λ item,
                  diagnostic (emitted_path root_dir item.1.1 item.1.2)
                    item.2))).
Proof using Type*.
  induction 1 as [|item items Hi _ IH]; intros Hu w.
  - simpl. by rewrite str_app_nil_r, app_nil_r, world_eta.
  - apply Forall_cons in Hu as [Hu1 Hu]. simpl foldl.
    unfold raising.each_selected at 2.
    rewrite each_file_returned by (intros _; exact Hu1).
    rewrite each_file_spec. cbn [fst snd]. rewrite Hi. cbv zeta.
    rewrite IH by done. cbn [document stdout].
    rewrite fmap_cons, bind_cons. simpl concat_str.
    unfold emitted_path.
    by rewrite str_app_assoc, <- app_assoc.
Qed.

(** The loop stops at the first file whose FILE line does not encode:
    the blocks of the files before it and the first separator line of
    its own block are written, and nothing after. *)
Lemma each_selected_cut (root_dir : string)
      (before rest : list (list string * string * file))
      (item : list string * string * file) (w : world) :
  Forall (λ item, included ALLOWED_EXTENSIONS item.1.2 = true)
         (before ++ [item]) →
  Forall (λ item, utf8 (emitted_path root_dir item.1.1 item.1.2) = true)
         before →
  utf8 (emitted_path root_dir item.1.1 item.1.2) = false →
  foldl (raising.each_selected ALLOWED_EXTENSIONS lead trail root_dir)
    (returned w) (before ++ item :: rest)
  = Run (World
           (document w
            +:+ cut_short lead trail (emitted_path root_dir) before)
           (stdout w
            ++ (before ≫= λ item,
                  diagnostic (emitted_path root_dir item.1.1 item.1.2)
                    item.2)))
        (Some (UnicodeEncodeError
                 ("FILE: " +:+ emitted_path root_dir item.1.1 item.1.2
                  +:+ LF))).
Proof using Type*.
  intros [Hb Hi]%Forall_app Hu Hbad.
  apply Forall_cons in Hi as [Hi _].
  rewrite foldl_app, each_selected_returned by done. simpl foldl.
  unfold raising.each_selected at 2.
  rewrite each_file_raises by done.
  unfold write, cut_short. cbn [document stdout fst snd].
  set (r := Run _ _).
  assert (∃ x, raised r = Some x) as [x R] by (by eexists).
  rewrite (each_selected_stuck _ _ r x R). unfold r, emitted_path.
  by rewrite !str_app_assoc.
Qed.

End raising_facts.

Lemma foldl_pointwise {X Y : Type} (f g : X → Y → X) (l : list Y) :
  (∀ a y, f a y = g a y) → ∀ a, foldl f a l = foldl g a l.
Proof.
  intros H. induction l as [|y l IH]; intros a; [done |].
  simpl. by rewrite H, IH.
Qed.

(** The loop over the files of a directory in the structure pass looks
    at the files with an allowed extension only. *)
Lemma each_name_filter (subindent : string) (files : list (string * file)) :
  ∀ r,
    foldl (mergecode_raising.each_name subindent) r files
    = foldl (mergecode_raising.each_name subindent) r
        (filter (λ e : string * file,
                   included mergecode.ALLOWED_EXTENSIONS e.1 = true) files).
Proof.
  induction files as [|e files IH]; intros r; [done |].
  simpl foldl. rewrite filter_cons.
  destruct (decide (included mergecode.ALLOWED_EXTENSIONS e.1 = true))
    as [E|E].
  - simpl foldl. apply IH.
  - rewrite IH. f_equal. apply not_true_is_false in E.
    unfold mergecode_raising.each_name. cbv zeta.
    unfold included in E. by rewrite E.
Qed.

Lemma each_dir_view (startpath : string) (r : run) (p : string)
      (dn : list string) (files : list (string * file)) :
  mergecode_raising.each_dir startpath r (p, dn, files)
  = mergecode_raising.each_dir startpath r
      (p, [],
       filter (λ e : string * file,
                 included mergecode.ALLOWED_EXTENSIONS e.1 = true) files).
Proof.
  unfold mergecode_raising.each_dir. cbv zeta. apply each_name_filter.
Qed.

(** The structure pass is a function of the directories visited and of
    their files with an allowed extension. *)
Lemma write_tree_structure_views (startpath : string) (t : tree) (r : run) :
  mergecode_raising.write_tree_structure startpath t r
  = write_names (LF +:+ LF)
      (foldl
         (λ r (v : list string * list (string * file)),
            mergecode_raising.each_dir startpath r
              (path_of startpath v.1, [], v.2))
         (write_names ("==================" +:+ LF)
            (write_names ("PROJECT STRUCTURE:" +:+ LF) r))
         ((λ node : list string * list string * list (string * file),
             (node.1.1,
              filter (λ e : string * file,
                        included mergecode.ALLOWED_EXTENSIONS e.1 = true)
                     node.2))
            <$> visited mergecode.IGNORE_DIRS t)).
Proof.
  unfold mergecode_raising.write_tree_structure. cbv zeta. f_equal.
  change mergecode.keep with (keep mergecode.IGNORE_DIRS).
  rewrite walk_visited, !foldl_fmap.
  apply foldl_pointwise. intros a [[ds dn] files]. cbn [fst snd].
  apply each_dir_view.
Qed.

Lemma write_tree_structure_raising_visible (startpath : string) (t : tree)
      (r : run) :
  mergecode_raising.write_tree_structure startpath
    (visible mergecode.ALLOWED_EXTENSIONS mergecode.IGNORE_DIRS t) r
  = mergecode_raising.write_tree_structure startpath t r.
Proof.
  rewrite !write_tree_structure_views. unfold visited.
  by rewrite view_visible.
Qed.

Lemma each_name_returned (subindent : string) (files : list (string * file)) :
  utf8 subindent = true →
  Forall (λ e : string * file,
            included mergecode.ALLOWED_EXTENSIONS e.1 = true →
            utf8 e.1 = true) files →
  ∀ w,
    foldl (mergecode_raising.each_name subindent) (returned w) files
    = returned (foldl (mergecode.each_name subindent) w files).
Proof.
  intros Hs. induction 1 as [|e files He _ IH]; intros w; [done |].
  simpl foldl.
  assert (mergecode_raising.each_name subindent (returned w) e
          = returned (mergecode.each_name subindent w e)) as ->; [| apply IH].
  unfold mergecode_raising.each_name, mergecode.each_name. cbv zeta.
  unfold included in He. destruct (bool_decide _); [| done].
  apply write_names_returned.
  apply utf8_app; [done |]. apply utf8_app; [by apply He | done].
Qed.

Lemma each_dir_returned (startpath : string) (w : world)
      (node : string * list string * list (string * file)) :
  utf8 (posixpath.basename node.1.1) = true →
  Forall (λ e : string * file,
            included mergecode.ALLOWED_EXTENSIONS e.1 = true →
            utf8 e.1 = true) node.2 →
  mergecode_raising.each_dir startpath (returned w) node
  = returned (mergecode.each_dir startpath w node).
Proof.
  destruct node as [[root dirs] files]. cbn [fst snd]. intros Hb Hf.
  unfold mergecode_raising.each_dir, mergecode.each_dir. cbv zeta.
  rewrite write_names_returned.
  - apply each_name_returned; [| done]. by apply utf8_mul, utf8_mul.
  - apply utf8_app; [by apply utf8_mul, utf8_mul |].
    by apply utf8_app.
Qed.

(** Where the names written encode, the structure pass does on the
    stream that raises what it does on the one that does not. *)
Lemma write_tree_structure_returned (startpath : string) (t : tree)
      (w : world) :
  Forall (λ node : string * list string * list (string * file),
            utf8 (posixpath.basename node.1.1) = true
            ∧ Forall (λ e : string * file,
                        included mergecode.ALLOWED_EXTENSIONS e.1 = true →
                        utf8 e.1 = true) node.2)
         (os.walk mergecode.keep startpath t) →
  mergecode_raising.write_tree_structure startpath t (returned w)
  = returned (mergecode.write_tree_structure startpath t w).
Proof.
  intros H.
  unfold mergecode_raising.write_tree_structure,
    mergecode.write_tree_structure. cbv zeta.
  rewrite !write_names_returned by done.
  generalize (write ("==================" +:+ LF)
                (write ("PROJECT STRUCTURE:" +:+ LF) w)) as w0.
  induction H as [|node nodes [Hb Hf] _ IH]; intros w0.
  - simpl. by rewrite write_names_returned.
  - simpl foldl. rewrite each_dir_returned by done. apply IH.
Qed.

(** Below a root and in a tree whose names are valid UTF-8, the names
    that the structure pass writes encode. *)
Lemma walk_encodes (IGNORE_DIRS : gset string) (rcomps : list string)
      (t : tree) :
  forallb valid_name rcomps = true → forallb utf8 rcomps = true →
  wf_tree t = true → utf8_tree t = true →
  Forall (λ node : string * list string * list (string * file),
            utf8 (posixpath.basename node.1.1) = true
            ∧ Forall (λ e : string * file,
                        included mergecode.ALLOWED_EXTENSIONS e.1 = true →
                        utf8 e.1 = true) node.2)
         (os.walk (keep IGNORE_DIRS) (abs_path rcomps) t).
Proof.
  intros Hr Hru Hwf Hu. rewrite walk_visited.
  apply Forall_fmap, Forall_forall. intros node Hn. cbn [compose fst snd].
  pose proof (visited_valid _ _ _ Hwf Hn) as Hv.
  apply elem_of_visited in Hn as (ds & sub & -> & _ & Hat).
  cbn [fst snd] in *.
  destruct (utf8_dir_at ds t sub Hu Hat) as [Hds Hsub].
  destruct sub as [dirs files].
  apply utf8_tree_Dir in Hsub as (_ & Hf & _).
  split.
  - rewrite path_of_abs_path by done.
    rewrite basename_abs_path by (by rewrite forallb_app, Hr, Hv).
    apply utf8_last. by rewrite forallb_app, Hru, Hds.
  - apply Forall_forall. intros [f c] Hin _. cbn [fst entries] in *.
    rewrite forallb_forall in Hf. apply Hf, list_elem_of_In.
    apply list_elem_of_fmap. by exists (f, c).
Qed.

Lemma selected_encodes (ALLOWED_EXTENSIONS IGNORE_DIRS : gset string)
      (rcomps : list string) (t : tree) :
  forallb valid_name rcomps = true →
  wf_tree t = true → utf8_tree t = true →
  Forall (λ item,
            utf8 (emitted_path (abs_path rcomps) item.1.1 item.1.2) = true)
         (selected ALLOWED_EXTENSIONS IGNORE_DIRS t).
Proof.
  intros Hr Hwf Hu. apply Forall_forall. intros [[ds f] c] Hin.
  cbn [fst snd].
  rewrite emitted_path_relative by (done || by eapply selected_valid).
  apply elem_of_selected in Hin as (_ & Hin & _).
  unfold relative. apply utf8_join; [done |]. by eapply file_in_utf8.
Qed.

Lemma selected_included (ALLOWED_EXTENSIONS IGNORE_DIRS : gset string)
      (t : tree) :
  Forall (λ item, included ALLOWED_EXTENSIONS item.1.2 = true)
         (selected ALLOWED_EXTENSIONS IGNORE_DIRS t).
Proof.
  apply Forall_forall. by intros [[ds f] c] (_ & _ & H)%elem_of_selected.
Qed.

(** What a run of [merge_code.py] on the stream that raises comes to,
    where the output file opens. *)
Lemma merge_code_raising_run (root_dir : string) (t : tree) :
  merge_code.OUTPUT_FILE ∉ (subdirs t).*1 →
  merge_code_raising.merge_files root_dir t
  = let r :=
      foldl (raising.each_selected merge_code.ALLOWED_EXTENSIONS LF LF
               root_dir)
        (returned (World "" []))
        (selected merge_code.ALLOWED_EXTENSIONS merge_code.IGNORE_DIRS t) in
    (close_w merge_code.OUTPUT_FILE (document (made r))
       (open_w merge_code.OUTPUT_FILE t),
     print_line
       "✅ Success! Source code combined into: FullProjectSource.txt" r).
Proof.
  intros Hout. unfold merge_code_raising.merge_files.
  rewrite bool_decide_eq_false_2 by done.
  change (merge_code_raising.merge_loop root_dir ?fs ?r)
    with (raising.merge_loop merge_code.ALLOWED_EXTENSIONS
            merge_code.IGNORE_DIRS LF LF root_dir fs r).
  rewrite merge_loop_selected.
  by rewrite selected_open_w by apply merge_code_output_excluded.
Qed.

Lemma mergecode_raising_run (root_dir : string) (t : tree) :
  mergecode.OUTPUT_FILE ∉ (subdirs t).*1 →
  mergecode_raising.merge_files root_dir t
  = let r :=
      foldl (raising.each_selected mergecode.ALLOWED_EXTENSIONS ""
               (LF +:+ LF) root_dir)
        (print_line "Merging file contents..."
           (mergecode_raising.write_tree_structure root_dir t
              (print_line "Generating folder structure..."
                 (returned (World "" [])))))
        (selected mergecode.ALLOWED_EXTENSIONS mergecode.IGNORE_DIRS t) in
    (close_w mergecode.OUTPUT_FILE (document (made r))
       (open_w mergecode.OUTPUT_FILE t),
     print_line
       "✅ Success! Structure and code combined into: FullProjectSource.txt"
       r).
Proof.
  intros Hout. unfold mergecode_raising.merge_files.
  rewrite bool_decide_eq_false_2 by done.
  change (mergecode_raising.merge_loop root_dir ?fs ?r)
    with (raising.merge_loop mergecode.ALLOWED_EXTENSIONS
            mergecode.IGNORE_DIRS "" (LF +:+ LF) root_dir fs r).
  rewrite merge_loop_selected.
  rewrite selected_open_w by apply mergecode_output_excluded.
  rewrite <- (write_tree_structure_raising_visible _ (open_w _ _)).
  rewrite visible_open_w by apply mergecode_output_excluded.
  by rewrite write_tree_structure_raising_visible.
Qed.

(** Whether a sub-directory has the name of the output file shows in
    the visible part of the tree. *)
Lemma output_dir_visible (ALLOWED_EXTENSIONS IGNORE_DIRS : gset string)
      (name : string) (t : tree) :
  name ∉ IGNORE_DIRS →
  name ∈ (subdirs (visible ALLOWED_EXTENSIONS IGNORE_DIRS t)).*1 ↔
  name ∈ (subdirs t).*1.
Proof.
  intros Hn. destruct t as [dirs files]. rewrite visible_Dir.
  cbn [subdirs]. rewrite <- list_fmap_compose.
  rewrite !list_elem_of_fmap. split.
  - intros ([n sub] & -> & [_ Hin]%list_elem_of_filter). by exists (n, sub).
  - intros ([n sub] & -> & Hin). exists (n, sub). split; [done |].
    by apply list_elem_of_filter.
Qed.

Lemma first_failure {X : Type} (P : X → bool) (l : list X) :
  ¬ Forall (λ x, P x = true) l →
  ∃ before x rest,
    l = before ++ x :: rest ∧ Forall (λ x, P x = true) before ∧ P x = false.
Proof.
  induction l as [|x l IH]; intros H.
  - destruct H. constructor.
  - destruct (P x) eqn:E.
    + destruct IH as (before & y & rest & -> & Hb & Hy).
      { intros Hl. apply H. by constructor. }
      exists (x :: before), y, rest. split_and!; [done | | done].
      by constructor.
    + exists [], x, l. split_and!; [done | constructor | done].
Qed.

Lemma Forall_upto {X : Type} (P : X → Prop) (before rest : list X) (x : X) :
  Forall P (before ++ x :: rest) → Forall P (before ++ [x]).
Proof.
  rewrite !Forall_app, !Forall_cons. intros (? & ? & _).
  split_and!; [done | done | constructor].
Qed.

Lemma merge_code_goes_through (root_dir : string) (t : tree) :
  "FullProjectSource.txt" ∉ (subdirs t).*1 →
  Forall (λ item, utf8 (emitted_path root_dir item.1.1 item.1.2) = true)
         (selected merge_code.ALLOWED_EXTENSIONS merge_code.IGNORE_DIRS t) →
  merge_code_raising.merge_files root_dir t
  = ((merge_code.merge_files root_dir t).1,
     returned (merge_code.merge_files root_dir t).2).
Proof.
  intros Hout Hu. rewrite merge_code_raising_run by done. cbv zeta.
  rewrite each_selected_returned by (done || apply selected_included).
  rewrite merge_code_run. cbv zeta. cbn [fst snd made document stdout].
  by rewrite str_app_nil_l.
Qed.

Lemma mergecode_goes_through (rcomps : list string) (t : tree) :
  forallb valid_name rcomps = true → forallb utf8 rcomps = true →
  wf_tree t = true → utf8_tree t = true →
  "FullProjectSource.txt" ∉ (subdirs t).*1 →
  mergecode_raising.merge_files (abs_path rcomps) t
  = ((mergecode.merge_files (abs_path rcomps) t).1,
     returned (mergecode.merge_files (abs_path rcomps) t).2).
Proof.
  intros Hr Hru Hwf Hu Hout. rewrite mergecode_raising_run by done. cbv zeta.
  change (print_line ?s (returned ?w)) with (returned (print s w)).
  rewrite write_tree_structure_returned by (by apply walk_encodes).
  change (print_line ?s (returned ?w)) with (returned (print s w)).
  rewrite each_selected_returned
    by (done || apply selected_included || by apply selected_encodes).
  rewrite mergecode_run, write_tree_structure_spec. cbv zeta.
  unfold print. cbn [fst snd made document stdout].
  rewrite str_app_nil_l. by rewrite <- !app_assoc.
Qed.

(** * The claims *)

(** C1, as stated, fails.  A file named [.swift], in a directory that
    no ignored name leads to, has the allowed extension [.swift] as the
    part of its name from the last dot on, and there is no block for it
    in the document of either script.  And where a file name is not
    valid UTF-8, the run stops at its FILE line: [main.swift], listed
    after [caf\xe9.swift], has an allowed extension by any reading and
    gets no block. *)
Lemma C1_counterexample :
  ¬ (∀ (t : tree) (ds : list string) (pre suf : string) (c : file),
       file_in t ds (pre +:+ "." +:+ suf) c →
       Forall (λ d, d ∉ merge_code.IGNORE_DIRS) ds →
       has_char "." suf = false →
       "." +:+ suf ∈ merge_code.ALLOWED_EXTENSIONS →
       str.contains
         (document (merge_code.merge_files "/home/u/proj" t).2)
         ("FILE: " +:+ relative ds (pre +:+ "." +:+ suf) +:+ LF) = true)
  ∧ ¬ (∀ (t : tree) (ds : list string) (pre suf : string) (c : file),
         file_in t ds (pre +:+ "." +:+ suf) c →
         Forall (λ d, d ∉ mergecode.IGNORE_DIRS) ds →
         has_char "." suf = false →
         "." +:+ suf ∈ mergecode.ALLOWED_EXTENSIONS →
         str.contains
           (document (mergecode.merge_files "/home/u/proj" t).2)
           ("FILE: " +:+ relative ds (pre +:+ "." +:+ suf) +:+ LF) = true)
  ∧ ¬ (∀ (t : tree) (ds : list string) (f : string) (c : file),
         file_in t ds f c →
         Forall (λ d, d ∉ merge_code.IGNORE_DIRS) ds →
         (posixpath.splitext f).2 ∈ merge_code.ALLOWED_EXTENSIONS →
         str.contains
           (document
              (made (merge_code_raising.merge_files "/home/u/proj" t).2))
           ("FILE: " +:+ relative ds f +:+ LF) = true)
  ∧ ¬ (∀ (t : tree) (ds : list string) (f : string) (c : file),
         file_in t ds f c →
         Forall (λ d, d ∉ mergecode.IGNORE_DIRS) ds →
         (posixpath.splitext f).2 ∈ mergecode.ALLOWED_EXTENSIONS →
         str.contains
           (document
              (made (mergecode_raising.merge_files "/home/u/proj" t).2))
           ("FILE: " +:+ relative ds f +:+ LF) = true).
Proof.
  assert (file_in dot_swift ["src"] ("" +:+ "." +:+ "swift") (Text "A"))
    as Hin.
  { exists (Dir [] [(".swift", Text "A")]). split; [done | left]. }
  assert (file_in latin1_first [] "main.swift" (Text "A")) as Hin'.
  { exists latin1_first. split; [done | right; left]. }
  split_and!; intros H.
  - specialize (H dot_swift ["src"] "" "swift" (Text "A") Hin).
    assert (str.contains
              (document (merge_code.merge_files "/home/u/proj" dot_swift).2)
              ("FILE: " +:+ relative ["src"] ("" +:+ "." +:+ "swift") +:+ LF)
            = true) as E.
    { apply H; [| done |].
      - constructor; [| constructor]. by apply (bool_decide_eq_false_1 _).
      - by apply (bool_decide_eq_true_1 _). }
    vm_compute in E. discriminate.
  - specialize (H dot_swift ["src"] "" "swift" (Text "A") Hin).
    assert (str.contains
              (document (mergecode.merge_files "/home/u/proj" dot_swift).2)
              ("FILE: " +:+ relative ["src"] ("" +:+ "." +:+ "swift") +:+ LF)
            = true) as E.
    { apply H; [| done |].
      - constructor; [| constructor]. by apply (bool_decide_eq_false_1 _).
      - by apply (bool_decide_eq_true_1 _). }
    vm_compute in E. discriminate.
  - specialize (H latin1_first [] "main.swift" (Text "A") Hin').
    assert (str.contains
              (document
                 (made (merge_code_raising.merge_files "/home/u/proj"
                          latin1_first).2))
              ("FILE: " +:+ relative [] "main.swift" +:+ LF) = true) as E.
    { apply H; [constructor |]. by apply (bool_decide_eq_true_1 _). }
    vm_compute in E. discriminate.
  - specialize (H latin1_first [] "main.swift" (Text "A") Hin').
    assert (str.contains
              (document
                 (made (mergecode_raising.merge_files "/home/u/proj"
                          latin1_first).2))
              ("FILE: " +:+ relative [] "main.swift" +:+ LF) = true) as E.
    { apply H; [constructor |]. by apply (bool_decide_eq_true_1 _). }
    vm_compute in E. discriminate.
Qed.

(** C1, amended.  The extension is the one that [os.path.splitext]
    gives, which is empty for a name whose last dot only dots precede,
    and the working directory is one that a run goes through: its names
    are valid UTF-8 and none of its sub-directories has the name of the
    output file.  Then, below a normalised root and in a well-formed
    tree, neither script raises, and the document of either holds one
    FILE block for each selected file, in the order of the walk; every
    path and every line of the structure section is valid UTF-8.  No
    relative path is written twice; and a file is selected exactly when
    its extension is in the allow-set and no ignored name leads to its
    directory.  In the scenario ([src/main.swift], [Pods/Lib.swift],
    [build/out.h]) the only block is the one of [src/main.swift], with
    the text [A]. *)
Theorem C1_selected_files_once :
  (∀ (rcomps : list string) (t : tree),
     forallb valid_name rcomps = true → forallb utf8 rcomps = true →
     wf_tree t = true → utf8_tree t = true →
     "FullProjectSource.txt" ∉ (subdirs t).*1 →
     document (merge_code.merge_files (abs_path rcomps) t).2
     = content_with merge_code.ALLOWED_EXTENSIONS merge_code.IGNORE_DIRS
         LF LF relative t
     ∧ document (mergecode.merge_files (abs_path rcomps) t).2
       = structure mergecode.ALLOWED_EXTENSIONS mergecode.IGNORE_DIRS
           (abs_path rcomps) t
         +:+ content_with mergecode.ALLOWED_EXTENSIONS mergecode.IGNORE_DIRS
               "" (LF +:+ LF) relative t
     ∧ merge_code_raising.merge_files (abs_path rcomps) t
       = ((merge_code.merge_files (abs_path rcomps) t).1,
          returned (merge_code.merge_files (abs_path rcomps) t).2)
     ∧ mergecode_raising.merge_files (abs_path rcomps) t
       = ((mergecode.merge_files (abs_path rcomps) t).1,
          returned (mergecode.merge_files (abs_path rcomps) t).2)
     ∧ Forall (λ p, utf8 p = true)
         (written_paths merge_code.ALLOWED_EXTENSIONS
            merge_code.IGNORE_DIRS t)
     ∧ Forall (λ p, utf8 p = true)
         (written_paths mergecode.ALLOWED_EXTENSIONS
            mergecode.IGNORE_DIRS t)
     ∧ utf8 (structure mergecode.ALLOWED_EXTENSIONS mergecode.IGNORE_DIRS
               (abs_path rcomps) t) = true)
  ∧ (∀ t : tree,
       wf_tree t = true →
       NoDup (written_paths merge_code.ALLOWED_EXTENSIONS
                merge_code.IGNORE_DIRS t)
       ∧ NoDup (written_paths mergecode.ALLOWED_EXTENSIONS
                  mergecode.IGNORE_DIRS t))
  ∧ (∀ t ds f c,
       (ds, f, c) ∈ selected merge_code.ALLOWED_EXTENSIONS
                      merge_code.IGNORE_DIRS t ↔
       Forall (λ d, d ∉ merge_code.IGNORE_DIRS) ds ∧ file_in t ds f c
       ∧ (posixpath.splitext f).2 ∈ merge_code.ALLOWED_EXTENSIONS)
  ∧ (∀ t ds f c,
       (ds, f, c) ∈ selected mergecode.ALLOWED_EXTENSIONS
                      mergecode.IGNORE_DIRS t ↔
       Forall (λ d, d ∉ mergecode.IGNORE_DIRS) ds ∧ file_in t ds f c
       ∧ (posixpath.splitext f).2 ∈ mergecode.ALLOWED_EXTENSIONS)
  ∧ document (merge_code.merge_files (abs_path scenario_root) scenario).2
    = scenario_content_only
  ∧ document (mergecode.merge_files (abs_path scenario_root) scenario).2
    = scenario_structure_content
  ∧ selected merge_code.ALLOWED_EXTENSIONS merge_code.IGNORE_DIRS scenario
    = [(["src"], "main.swift", Text "A")]
  ∧ selected mergecode.ALLOWED_EXTENSIONS mergecode.IGNORE_DIRS scenario
    = [(["src"], "main.swift", Text "A")]
  ∧ document (merge_loop {[ ".swift"; ".h" ]} {[ "Pods"; "build" ]} LF LF
                (abs_path scenario_root) scenario (World "" []))
    = scenario_content_only.
Proof.
  split_and!; [| | | | by vm_compute ..].
  - intros rcomps t Hr Hru Hwf Hu Hout. split_and!.
    + rewrite merge_code_run. cbn [snd document].
      by apply content_relative.
    + rewrite mergecode_run. cbn [snd document].
      by rewrite content_relative.
    + apply merge_code_goes_through; [done |]. by apply selected_encodes.
    + by apply mergecode_goes_through.
    + by apply written_paths_utf8.
    + by apply written_paths_utf8.
    + by apply structure_utf8.
  - intros t Hwf. split; by apply NoDup_relative.
  - intros t ds f c. apply elem_of_selected_ext.
  - intros t ds f c. apply elem_of_selected_ext.
Qed.

(** C1 at the scenario. *)
Lemma C1_selected_files_once_witness :
  forallb valid_name scenario_root = true
  ∧ forallb utf8 scenario_root = true
  ∧ wf_tree scenario = true ∧ utf8_tree scenario = true
  ∧ ("FullProjectSource.txt" ∉ (subdirs scenario).*1)
  ∧ document (merge_code.merge_files (abs_path scenario_root) scenario).2
    = content_with merge_code.ALLOWED_EXTENSIONS merge_code.IGNORE_DIRS
        LF LF relative scenario.
Proof.
  assert ("FullProjectSource.txt" ∉ (subdirs scenario).*1) as N
    by (by apply (bool_decide_eq_false_1 _)).
  do 4 (split; [reflexivity |]). split; [exact N |].
  exact (proj1 (proj1 C1_selected_files_once scenario_root scenario
                  eq_refl eq_refl eq_refl eq_refl N)).
Defined.

(** C2, as stated, fails: the name and the text of a file below an
    ignored directory occur in the document when an included file has
    the same name and the same text. *)
Lemma C2_counterexample :
  ¬ (∀ (t : tree) (ds : list string) (f text : string),
       file_in t ds f (Text text) →
       Exists (λ d, d ∈ merge_code.IGNORE_DIRS) ds
       ∨ (posixpath.splitext f).2 ∉ merge_code.ALLOWED_EXTENSIONS →
       str.contains
         (document (merge_code.merge_files "/home/u/proj" t).2) f = false
       ∧ str.contains
           (document (merge_code.merge_files "/home/u/proj" t).2) text
         = false)
  ∧ ¬ (∀ (t : tree) (ds : list string) (f text : string),
         file_in t ds f (Text text) →
         Exists (λ d, d ∈ mergecode.IGNORE_DIRS) ds
         ∨ (posixpath.splitext f).2 ∉ mergecode.ALLOWED_EXTENSIONS →
         str.contains
           (document (mergecode.merge_files "/home/u/proj" t).2) f = false
         ∧ str.contains
             (document (mergecode.merge_files "/home/u/proj" t).2) text
           = false).
Proof.
  assert (file_in vendored ["Pods"] "main.swift" (Text "A")) as Hin.
  { exists (Dir [] [("main.swift", Text "A")]). split; [done | left]. }
  split; intros H.
  - destruct (H vendored ["Pods"] "main.swift" "A" Hin) as [H1 _].
    + left. left. by apply (bool_decide_eq_true_1 _).
    + vm_compute in H1. discriminate.
  - destruct (H vendored ["Pods"] "main.swift" "A" Hin) as [H1 _].
    + left. left. by apply (bool_decide_eq_true_1 _).
    + vm_compute in H1. discriminate.
Qed.

(** C2, amended.  What a run writes and prints depends on the visible
    part of the tree only: two trees with the same directories that no
    ignored name leads to, and the same files of an allowed extension in
    them, give the same document and the same printed lines, whatever
    their other files are called and contain.  In a well-formed tree
    the relative path of a file that is not selected is not among the
    paths written. *)
Theorem C2_only_visible_part_matters :
  (∀ (root_dir : string) (t1 t2 : tree),
     visible merge_code.ALLOWED_EXTENSIONS merge_code.IGNORE_DIRS t1
     = visible merge_code.ALLOWED_EXTENSIONS merge_code.IGNORE_DIRS t2 →
     (merge_code.merge_files root_dir t1).2
     = (merge_code.merge_files root_dir t2).2)
  ∧ (∀ (root_dir : string) (t1 t2 : tree),
       visible mergecode.ALLOWED_EXTENSIONS mergecode.IGNORE_DIRS t1
       = visible mergecode.ALLOWED_EXTENSIONS mergecode.IGNORE_DIRS t2 →
       (mergecode.merge_files root_dir t1).2
       = (mergecode.merge_files root_dir t2).2)
  ∧ (∀ t ds f c,
       file_in (visible merge_code.ALLOWED_EXTENSIONS
                  merge_code.IGNORE_DIRS t) ds f c ↔
       Forall (λ d, d ∉ merge_code.IGNORE_DIRS) ds ∧ file_in t ds f c
       ∧ (posixpath.splitext f).2 ∈ merge_code.ALLOWED_EXTENSIONS)
  ∧ (∀ t ds f c,
       file_in (visible mergecode.ALLOWED_EXTENSIONS
                  mergecode.IGNORE_DIRS t) ds f c ↔
       Forall (λ d, d ∉ mergecode.IGNORE_DIRS) ds ∧ file_in t ds f c
       ∧ (posixpath.splitext f).2 ∈ mergecode.ALLOWED_EXTENSIONS)
  ∧ (∀ t ds f c,
       wf_tree t = true → file_in t ds f c →
       Exists (λ d, d ∈ merge_code.IGNORE_DIRS) ds
       ∨ (posixpath.splitext f).2 ∉ merge_code.ALLOWED_EXTENSIONS →
       relative ds f ∉ written_paths merge_code.ALLOWED_EXTENSIONS
                         merge_code.IGNORE_DIRS t)
  ∧ (∀ t ds f c,
       wf_tree t = true → file_in t ds f c →
       Exists (λ d, d ∈ mergecode.IGNORE_DIRS) ds
       ∨ (posixpath.splitext f).2 ∉ mergecode.ALLOWED_EXTENSIONS →
       relative ds f ∉ written_paths mergecode.ALLOWED_EXTENSIONS
                         mergecode.IGNORE_DIRS t).
Proof.
  split_and!.
  - apply merge_code_visible.
  - apply mergecode_visible.
  - apply file_in_visible.
  - apply file_in_visible.
  - apply excluded_path_not_written.
  - apply excluded_path_not_written.
Qed.

(** C2 at the scenario and at the tree with other excluded files. *)
Lemma C2_only_visible_part_matters_witness :
  visible merge_code.ALLOWED_EXTENSIONS merge_code.IGNORE_DIRS scenario
  = visible merge_code.ALLOWED_EXTENSIONS merge_code.IGNORE_DIRS
      scenario_changed
  ∧ (merge_code.merge_files "/home/u/proj" scenario).2
    = (merge_code.merge_files "/home/u/proj" scenario_changed).2.
Proof.
  assert (visible merge_code.ALLOWED_EXTENSIONS merge_code.IGNORE_DIRS
            scenario
          = visible merge_code.ALLOWED_EXTENSIONS merge_code.IGNORE_DIRS
              scenario_changed) as V by (vm_compute; reflexivity).
  split; [exact V |].
  exact (proj1 C2_only_visible_part_matters "/home/u/proj"
           scenario scenario_changed V).
Defined.

(** C3, as stated, fails.  The separator lines and the FILE line of a
    file that cannot be read are in the document.  And the run does not
    always go on to its end: where the next file has a name that is
    not valid UTF-8, its FILE line raises [UnicodeEncodeError]. *)
Lemma C3_counterexample :
  ¬ (∀ (t : tree) (ds : list string) (f e : string),
       file_in t ds f (Failure e) →
       str.contains
         (document (merge_code.merge_files "/home/u/proj" t).2)
         (separator +:+ LF +:+ "FILE: " +:+ relative ds f +:+ LF
          +:+ separator +:+ LF) = false)
  ∧ ¬ (∀ (t : tree) (ds : list string) (f e : string),
         file_in t ds f (Failure e) →
         str.contains
           (document (mergecode.merge_files "/home/u/proj" t).2)
           (separator +:+ LF +:+ "FILE: " +:+ relative ds f +:+ LF
            +:+ separator +:+ LF) = false)
  ∧ ¬ (∀ (t : tree) (ds : list string) (f e : string),
         file_in t ds f (Failure e) →
         Forall (λ d, d ∉ merge_code.IGNORE_DIRS) ds →
         (posixpath.splitext f).2 ∈ merge_code.ALLOWED_EXTENSIONS →
         raised (merge_code_raising.merge_files "/home/u/proj" t).2 = None).
Proof.
  assert (file_in unreadable [] "secret.swift" (Failure permission_denied))
    as Hin.
  { exists unreadable. split; [done | left]. }
  assert (file_in unreadable_then_latin1 [] "secret.swift"
            (Failure permission_denied)) as Hin'.
  { exists unreadable_then_latin1. split; [done | left]. }
  split_and!; intros H.
  - specialize (H unreadable [] "secret.swift" _ Hin).
    vm_compute in H. discriminate.
  - specialize (H unreadable [] "secret.swift" _ Hin).
    vm_compute in H. discriminate.
  - specialize (H unreadable_then_latin1 [] "secret.swift" _ Hin').
    assert (raised (merge_code_raising.merge_files "/home/u/proj"
                      unreadable_then_latin1).2 = None) as E.
    { apply H; [constructor |]. by apply (bool_decide_eq_true_1 _). }
    vm_compute in E. discriminate.
Qed.

(** C3, amended.  For a file with an allowed extension that cannot be
    read and whose relative path is valid UTF-8, the turn of the loop
    writes the separator lines, the FILE line and the blank line, writes
    nothing else, and prints [Could not read <relative_path>: <error>];
    it raises nothing.  (Where the path is not valid UTF-8, the FILE
    line raises, and nothing is printed.)  The loop goes on: in a
    working directory whose names are valid UTF-8 and that has no
    sub-directory of the name of the output file, the run raises
    nothing, its document holds the block of every selected file, which
    for such a file is its header alone, and the printed lines hold the
    diagnostic of each of them, followed by the success message. *)
Theorem C3_unreadable_file_keeps_header :
  (∀ (root_dir dirpath : string) (w : world) (f e : string),
     (posixpath.splitext f).2 ∈ merge_code.ALLOWED_EXTENSIONS →
     utf8 (posixpath.relpath root_dir (posixpath.join dirpath f) root_dir)
     = true →
     merge_code.each_file root_dir dirpath w (f, Failure e)
     = World (document w +:+ LF +:+ separator +:+ LF
              +:+ "FILE: "
              +:+ posixpath.relpath root_dir
                    (posixpath.join dirpath f) root_dir
              +:+ LF +:+ separator +:+ LF +:+ LF)
             (stdout w ++
              ["Could not read "
               +:+ posixpath.relpath root_dir
                     (posixpath.join dirpath f) root_dir
               +:+ ": " +:+ e])
     ∧ merge_code_raising.each_file root_dir dirpath (returned w)
         (f, Failure e)
       = returned (merge_code.each_file root_dir dirpath w (f, Failure e)))
  ∧ (∀ (root_dir dirpath : string) (w : world) (f e : string),
       (posixpath.splitext f).2 ∈ mergecode.ALLOWED_EXTENSIONS →
       utf8 (posixpath.relpath root_dir (posixpath.join dirpath f) root_dir)
       = true →
       mergecode.each_file root_dir dirpath w (f, Failure e)
       = World (document w +:+ separator +:+ LF
                +:+ "FILE: "
                +:+ posixpath.relpath root_dir
                      (posixpath.join dirpath f) root_dir
                +:+ LF +:+ separator +:+ LF +:+ LF)
               (stdout w ++
                ["Could not read "
                 +:+ posixpath.relpath root_dir
                       (posixpath.join dirpath f) root_dir
                 +:+ ": " +:+ e])
       ∧ mergecode_raising.each_file root_dir dirpath (returned w)
           (f, Failure e)
         = returned (mergecode.each_file root_dir dirpath w (f, Failure e)))
  ∧ (∀ (root_dir dirpath : string) (w : world) (f e : string),
       (posixpath.splitext f).2 ∈ merge_code.ALLOWED_EXTENSIONS →
       utf8 (posixpath.relpath root_dir (posixpath.join dirpath f) root_dir)
       = false →
       merge_code_raising.each_file root_dir dirpath (returned w)
         (f, Failure e)
       = Run (World (document w +:+ LF +:+ separator +:+ LF) (stdout w))
             (Some (UnicodeEncodeError
                      ("FILE: "
                       +:+ posixpath.relpath root_dir
                             (posixpath.join dirpath f) root_dir
                       +:+ LF))))
  ∧ (∀ (rcomps : list string) (t : tree),
       forallb valid_name rcomps = true → forallb utf8 rcomps = true →
       wf_tree t = true → utf8_tree t = true →
       "FullProjectSource.txt" ∉ (subdirs t).*1 →
       (merge_code.merge_files (abs_path rcomps) t).2
       = World
           (content_with merge_code.ALLOWED_EXTENSIONS merge_code.IGNORE_DIRS
              LF LF relative t)
           (diagnostics_with merge_code.ALLOWED_EXTENSIONS
              merge_code.IGNORE_DIRS relative t
            ++ ["✅ Success! Source code combined into: FullProjectSource.txt"])
       ∧ (mergecode.merge_files (abs_path rcomps) t).2
         = World
             (structure mergecode.ALLOWED_EXTENSIONS mergecode.IGNORE_DIRS
                (abs_path rcomps) t
              +:+ content_with mergecode.ALLOWED_EXTENSIONS
                    mergecode.IGNORE_DIRS "" (LF +:+ LF) relative t)
             (["Generating folder structure..."; "Merging file contents..."]
              ++ diagnostics_with mergecode.ALLOWED_EXTENSIONS
                   mergecode.IGNORE_DIRS relative t
              ++ ["✅ Success! Structure and code combined into: FullProjectSource.txt"])
       ∧ (merge_code_raising.merge_files (abs_path rcomps) t).2
         = returned (merge_code.merge_files (abs_path rcomps) t).2
       ∧ (mergecode_raising.merge_files (abs_path rcomps) t).2
         = returned (mergecode.merge_files (abs_path rcomps) t).2
       ∧ (∀ ds f e,
            (ds, f, Failure e) ∈ selected merge_code.ALLOWED_EXTENSIONS
                                   merge_code.IGNORE_DIRS t →
            utf8 (relative ds f) = true
            ∧ "Could not read " +:+ relative ds f +:+ ": " +:+ e
                ∈ diagnostics_with merge_code.ALLOWED_EXTENSIONS
                    merge_code.IGNORE_DIRS relative t)
       ∧ (∀ ds f e,
            (ds, f, Failure e) ∈ selected mergecode.ALLOWED_EXTENSIONS
                                   mergecode.IGNORE_DIRS t →
            utf8 (relative ds f) = true
            ∧ "Could not read " +:+ relative ds f +:+ ": " +:+ e
                ∈ diagnostics_with mergecode.ALLOWED_EXTENSIONS
                    mergecode.IGNORE_DIRS relative t))
  ∧ (∀ lead trail rel e,
       block lead trail rel (Failure e)
       = lead +:+ separator +:+ LF +:+ "FILE: " +:+ rel +:+ LF
         +:+ separator +:+ LF +:+ LF)
  ∧ (merge_code.merge_files "/home/u/proj" unreadable).2
    = World unreadable_content_only
        ["Could not read secret.swift: [Errno 13] Permission denied: '/home/u/proj/secret.swift'";
         "✅ Success! Source code combined into: FullProjectSource.txt"]
  ∧ (merge_code_raising.merge_files "/home/u/proj" unreadable).2
    = returned (merge_code.merge_files "/home/u/proj" unreadable).2.
Proof.
  split_and!; [| | | | | by vm_compute | by vm_compute].
  - intros root_dir dirpath w f e Hf Hu. split.
    + change (merge_code.each_file root_dir dirpath w (f, Failure e))
        with (each_file merge_code.ALLOWED_EXTENSIONS LF LF root_dir dirpath w
                (f, Failure e)).
      rewrite each_file_spec. unfold included. cbn [fst snd].
      rewrite bool_decide_eq_true_2 by done.
      unfold block, header, diagnostic. cbv zeta.
      by rewrite !str_app_assoc, str_app_nil_r.
    + change (merge_code_raising.each_file root_dir dirpath (returned w)
                (f, Failure e))
        with (raising.each_file merge_code.ALLOWED_EXTENSIONS LF LF root_dir
                dirpath (returned w) (f, Failure e)).
      by rewrite each_file_returned.
  - intros root_dir dirpath w f e Hf Hu. split.
    + change (mergecode.each_file root_dir dirpath w (f, Failure e))
        with (each_file mergecode.ALLOWED_EXTENSIONS "" (LF +:+ LF)
                root_dir dirpath w (f, Failure e)).
      rewrite each_file_spec. unfold included. cbn [fst snd].
      rewrite bool_decide_eq_true_2 by done.
      unfold block, header, diagnostic. cbv zeta.
      by rewrite !str_app_assoc, str_app_nil_r.
    + change (mergecode_raising.each_file root_dir dirpath (returned w)
                (f, Failure e))
        with (raising.each_file mergecode.ALLOWED_EXTENSIONS "" (LF +:+ LF)
                root_dir dirpath (returned w) (f, Failure e)).
      by rewrite each_file_returned.
  - intros root_dir dirpath w f e Hf Hu.
    change (merge_code_raising.each_file root_dir dirpath (returned w)
              (f, Failure e))
      with (raising.each_file merge_code.ALLOWED_EXTENSIONS LF LF root_dir
              dirpath (returned w) (f, Failure e)).
    rewrite each_file_raises; [| done | done | | done].
    + unfold write. cbn [document stdout fst].
      by rewrite ?str_app_assoc.
    + unfold included. cbn [fst]. by apply bool_decide_eq_true_2.
  - intros rcomps t Hr Hru Hwf Hu Hout.
    assert (∀ A I ds f e,
              (ds, f, Failure e) ∈ selected A I t →
              utf8 (relative ds f) = true
              ∧ "Could not read " +:+ relative ds f +:+ ": " +:+ e
                  ∈ diagnostics_with A I relative t) as D.
    { intros A I ds f e Hin. split.
      - pose proof (written_paths_utf8 A I t Hu) as P.
        rewrite Forall_forall in P. apply P. unfold written_paths.
        apply list_elem_of_fmap. by exists (ds, f, Failure e).
      - unfold diagnostics_with.
        apply list_elem_of_bind. exists (ds, f, Failure e).
        split; [left | done]. }
    split_and!; [| | | | apply D | apply D].
    + rewrite merge_code_run. cbv zeta. cbn [snd].
      by rewrite content_relative, diagnostics_relative.
    + rewrite mergecode_run. cbv zeta. cbn [snd].
      by rewrite content_relative, diagnostics_relative.
    + rewrite merge_code_goes_through; [done | done |].
      by apply selected_encodes.
    + by rewrite mergecode_goes_through.
  - intros lead trail rel e. unfold block, header.
    by rewrite !str_app_assoc, str_app_nil_r.
Qed.

(** C3 at a file of the root that cannot be read. *)
Lemma C3_unreadable_file_keeps_header_witness :
  (posixpath.splitext "secret.swift").2 ∈ merge_code.ALLOWED_EXTENSIONS
  ∧ utf8 (posixpath.relpath "/home/u/proj"
            (posixpath.join "/home/u/proj" "secret.swift") "/home/u/proj")
    = true
  ∧ merge_code.each_file "/home/u/proj" "/home/u/proj" (World "" [])
      ("secret.swift", Failure permission_denied)
    = World ("" +:+ LF +:+ separator +:+ LF
             +:+ "FILE: "
             +:+ posixpath.relpath "/home/u/proj"
                   (posixpath.join "/home/u/proj" "secret.swift")
                   "/home/u/proj"
             +:+ LF +:+ separator +:+ LF +:+ LF)
            ([] ++
             ["Could not read "
              +:+ posixpath.relpath "/home/u/proj"
                    (posixpath.join "/home/u/proj" "secret.swift")
                    "/home/u/proj"
              +:+ ": " +:+ permission_denied]).
Proof.
  assert ((posixpath.splitext "secret.swift").2
            ∈ merge_code.ALLOWED_EXTENSIONS) as H
    by (by apply (bool_decide_eq_true_1 _)).
  split; [exact H |]. split; [reflexivity |].
  exact (proj1 (proj1 C3_unreadable_file_keeps_header "/home/u/proj"
                  "/home/u/proj" (World "" []) "secret.swift"
                  permission_denied H eq_refl)).
Defined.

(** C4, as stated, fails: the extension is not always the part of the
    name from its last dot on, and the name [.swift] is not included. *)
Lemma C4_counterexample :
  ¬ (∀ pre suf : string,
       has_char "/" (pre +:+ "." +:+ suf) = false →
       has_char "." suf = false →
       (posixpath.splitext (pre +:+ "." +:+ suf)).2 = "." +:+ suf)
  ∧ ".swift" ∈ merge_code.ALLOWED_EXTENSIONS
  ∧ ".swift" ∈ mergecode.ALLOWED_EXTENSIONS
  ∧ included merge_code.ALLOWED_EXTENSIONS ".swift" = false
  ∧ included mergecode.ALLOWED_EXTENSIONS ".swift" = false.
Proof.
  split_and!.
  - intros H. specialize (H "" "swift" eq_refl eq_refl). discriminate.
  - by apply (bool_decide_eq_true_1 _).
  - by apply (bool_decide_eq_true_1 _).
  - by vm_compute.
  - by vm_compute.
Qed.

(** C4, amended.  The test is a function of the file name alone.  The
    extension of a name without a dot is empty; the extension of a name
    whose last dot is preceded by some character other than a dot is the
    part of the name from that dot on; the extension of a name whose
    last dot is preceded by nothing or by dots only is empty.  A file is
    included exactly when its extension is a member of the allow-set, so
    a name without extension is included exactly when the empty string
    is a member, which it is in neither script; the comparison
    distinguishes upper and lower case. *)
Theorem C4_extension_filter :
  (∀ name : string,
     has_char "." name = false → (posixpath.splitext name).2 = "")
  ∧ (∀ pre suf : string,
       has_char "/" (pre +:+ "." +:+ suf) = false →
       has_char "." suf = false →
       (posixpath.splitext (pre +:+ "." +:+ suf)).2
       = if all_dots pre then "" else "." +:+ suf)
  ∧ (∀ (ALLOWED_EXTENSIONS : gset string) (name : string),
       included ALLOWED_EXTENSIONS name = true ↔
       (posixpath.splitext name).2 ∈ ALLOWED_EXTENSIONS)
  ∧ (∀ (ALLOWED_EXTENSIONS : gset string) (name : string),
       has_char "." name = false →
       (included ALLOWED_EXTENSIONS name = true ↔ "" ∈ ALLOWED_EXTENSIONS))
  ∧ ("" ∉ merge_code.ALLOWED_EXTENSIONS)
  ∧ ("" ∉ mergecode.ALLOWED_EXTENSIONS)
  ∧ included merge_code.ALLOWED_EXTENSIONS "Main.swift" = true
  ∧ included merge_code.ALLOWED_EXTENSIONS "Main.SWIFT" = false
  ∧ included merge_code.ALLOWED_EXTENSIONS "Main.Swift" = false
  ∧ included merge_code.ALLOWED_EXTENSIONS "Main.swift " = false
  ∧ included merge_code.ALLOWED_EXTENSIONS "Mainswift" = false.
Proof.
  split_and!; [| | | | | | by vm_compute ..].
  - intros name H. by rewrite splitext_no_dot_spec.
  - intros pre suf H1 H2. rewrite splitext_last_dot_spec by done.
    by destruct (all_dots pre).
  - intros A name. unfold included. apply bool_decide_eq_true.
  - intros A name H. unfold included.
    rewrite splitext_no_dot_spec by done. apply bool_decide_eq_true.
  - by apply (bool_decide_eq_false_1 _).
  - by apply (bool_decide_eq_false_1 _).
Qed.

(** C4 at a name without a dot. *)
Lemma C4_extension_filter_witness :
  has_char "." "Makefile" = false
  ∧ (posixpath.splitext "Makefile").2 = "".
Proof.
  split; [reflexivity |].
  exact (proj1 C4_extension_filter "Makefile" eq_refl).
Defined.

(** C5, as stated, fails.  For [merge_code.py] the document does not
    start with the separator line of its first block.  And an included
    file has no block at all where the run has stopped before it, at
    the FILE line of a name that is not valid UTF-8. *)
Lemma C5_counterexample :
  ¬ (∀ t : tree,
       selected merge_code.ALLOWED_EXTENSIONS merge_code.IGNORE_DIRS t ≠ [] →
       str.startswith
         (document (merge_code.merge_files "/home/u/proj" t).2)
         (separator +:+ LF) = true)
  ∧ ¬ (∀ (t : tree) (ds : list string) (f text : string),
         (ds, f, Text text) ∈ selected merge_code.ALLOWED_EXTENSIONS
                                merge_code.IGNORE_DIRS t →
         str.contains
           (document
              (made (merge_code_raising.merge_files "/home/u/proj" t).2))
           (separator +:+ LF +:+ "FILE: " +:+ relative ds f +:+ LF
            +:+ separator +:+ LF +:+ LF +:+ text) = true).
Proof.
  split; intros H.
  - specialize (H one_file).
    assert (selected merge_code.ALLOWED_EXTENSIONS merge_code.IGNORE_DIRS
              one_file ≠ []) as N by (by vm_compute).
    apply H in N. vm_compute in N. discriminate.
  - specialize (H latin1_first [] "main.swift" "A").
    assert (([], "main.swift", Text "A")
              ∈ selected merge_code.ALLOWED_EXTENSIONS merge_code.IGNORE_DIRS
                  latin1_first) as S by (vm_compute; right; left).
    apply H in S. vm_compute in S. discriminate.
Qed.

(** C5, amended.  In a working directory whose names are valid UTF-8
    and that has no sub-directory of the name of the output file, below
    a normalised root and in a well-formed tree, the run raises nothing
    and the content section of either document is the sequence of the
    blocks of the selected files.  The block of a file that can be read is a
    separator line of 50 [=], the line [FILE: <relative_path>], a
    separator line, an empty line, the text of the file, and one
    newline in [merge_code.py], two in [mergecode.py]; in
    [merge_code.py] one newline precedes the first separator line of
    every block, in [mergecode.py] nothing does.  The path written is
    the names that lead from the root to the file, joined by the
    separator; it is not absolute. *)
Theorem C5_block_layout :
  (∀ (rcomps : list string) (t : tree),
     forallb valid_name rcomps = true → forallb utf8 rcomps = true →
     wf_tree t = true → utf8_tree t = true →
     "FullProjectSource.txt" ∉ (subdirs t).*1 →
     document (merge_code.merge_files (abs_path rcomps) t).2
     = concat_str
         ((λ item, block LF LF (relative item.1.1 item.1.2) item.2)
            <$> selected merge_code.ALLOWED_EXTENSIONS
                  merge_code.IGNORE_DIRS t)
     ∧ document (mergecode.merge_files (abs_path rcomps) t).2
       = structure mergecode.ALLOWED_EXTENSIONS mergecode.IGNORE_DIRS
           (abs_path rcomps) t
         +:+ concat_str
               ((λ item,
                   block "" (LF +:+ LF) (relative item.1.1 item.1.2) item.2)
                  <$> selected mergecode.ALLOWED_EXTENSIONS
                        mergecode.IGNORE_DIRS t)
     ∧ (∀ ds f c,
          (ds, f, c) ∈ selected merge_code.ALLOWED_EXTENSIONS
                         merge_code.IGNORE_DIRS t →
          utf8 ("FILE: " +:+ str.join "/" (ds ++ [f]) +:+ LF) = true)
     ∧ (∀ ds f c,
          (ds, f, c) ∈ selected mergecode.ALLOWED_EXTENSIONS
                         mergecode.IGNORE_DIRS t →
          utf8 ("FILE: " +:+ str.join "/" (ds ++ [f]) +:+ LF) = true)
     ∧ (merge_code_raising.merge_files (abs_path rcomps) t).2
       = returned (merge_code.merge_files (abs_path rcomps) t).2
     ∧ (mergecode_raising.merge_files (abs_path rcomps) t).2
       = returned (mergecode.merge_files (abs_path rcomps) t).2)
  ∧ (∀ (rcomps : list string) (t : tree),
       forallb valid_name rcomps = true → wf_tree t = true →
       (∀ ds f c,
          (ds, f, c) ∈ selected merge_code.ALLOWED_EXTENSIONS
                         merge_code.IGNORE_DIRS t →
          emitted_path (abs_path rcomps) ds f = str.join "/" (ds ++ [f])
          ∧ posixpath.isabs (str.join "/" (ds ++ [f])) = false)
       ∧ (∀ ds f c,
            (ds, f, c) ∈ selected mergecode.ALLOWED_EXTENSIONS
                           mergecode.IGNORE_DIRS t →
            emitted_path (abs_path rcomps) ds f = str.join "/" (ds ++ [f])
            ∧ posixpath.isabs (str.join "/" (ds ++ [f])) = false))
  ∧ (∀ rel text,
       block LF LF rel (Text text)
       = LF +:+ separator +:+ LF +:+ "FILE: " +:+ rel +:+ LF
         +:+ separator +:+ LF +:+ LF +:+ text +:+ LF)
  ∧ (∀ rel text,
       block "" (LF +:+ LF) rel (Text text)
       = separator +:+ LF +:+ "FILE: " +:+ rel +:+ LF
         +:+ separator +:+ LF +:+ LF +:+ text +:+ LF +:+ LF)
  ∧ separator = "=================================================="
  ∧ emitted_path "/root" ["a"; "b"] "c.swift" = "a/b/c.swift".
Proof.
  split_and!; [| | | | by vm_compute | by vm_compute].
  - intros rcomps t Hr Hru Hwf Hu Hout.
    assert (∀ A I ds f c,
              (ds, f, c) ∈ selected A I t →
              utf8 ("FILE: " +:+ str.join "/" (ds ++ [f]) +:+ LF) = true)
      as P.
    { intros A I ds f c (_ & Hin & _)%elem_of_selected.
      apply utf8_app; [done |]. apply utf8_app; [| done].
      apply utf8_join; [done |]. by eapply file_in_utf8. }
    split_and!; [| | by apply P | by apply P | |].
    + rewrite merge_code_run. cbv zeta. cbn [snd document].
      by rewrite content_relative.
    + rewrite mergecode_run. cbv zeta. cbn [snd document].
      by rewrite content_relative.
    + rewrite merge_code_goes_through; [done | done |].
      by apply selected_encodes.
    + by rewrite mergecode_goes_through.
  - intros rcomps t Hr Hwf.
    assert (∀ A I ds f c,
              (ds, f, c) ∈ selected A I t →
              emitted_path (abs_path rcomps) ds f = str.join "/" (ds ++ [f])
              ∧ posixpath.isabs (str.join "/" (ds ++ [f])) = false) as P.
    { intros A I ds f c Hin.
      pose proof (selected_valid A I t ds f c Hwf Hin) as Hv.
      split; [by apply emitted_path_relative |].
      by apply prefix_sep_join. }
    split; by apply P.
  - intros rel text. unfold block, header. by rewrite !str_app_assoc.
  - intros rel text. unfold block, header.
    by rewrite !str_app_assoc, str_app_nil_l.
Qed.

(** C5 at the scenario. *)
Lemma C5_block_layout_witness :
  forallb valid_name scenario_root = true
  ∧ forallb utf8 scenario_root = true
  ∧ wf_tree scenario = true ∧ utf8_tree scenario = true
  ∧ ("FullProjectSource.txt" ∉ (subdirs scenario).*1)
  ∧ document (merge_code.merge_files (abs_path scenario_root) scenario).2
    = concat_str
        ((λ item, block LF LF (relative item.1.1 item.1.2) item.2)
           <$> selected merge_code.ALLOWED_EXTENSIONS
                 merge_code.IGNORE_DIRS scenario).
Proof.
  assert ("FullProjectSource.txt" ∉ (subdirs scenario).*1) as N
    by (by apply (bool_decide_eq_false_1 _)).
  do 4 (split; [reflexivity |]). split; [exact N |].
  exact (proj1 (proj1 C5_block_layout scenario_root scenario
                  eq_refl eq_refl eq_refl eq_refl N)).
Defined.

(** C6.  The structure section is the two title lines, then for each
    visited directory its base name followed by [/] and, right after
    it, its included files one level further in, then two newlines.
    The level is the number of separators left in the path of the
    directory once every occurrence of the start path is removed from
    it.  That is the number of names that lead to the directory where
    the start path does not come back behind its prefix.  It is not in a
    project in [/app] with a directory [app]: the path [/app/app] loses
    both halves and the directory is written at level 0, like the root,
    where the path with the root prefix stripped, [/app], has one
    separator; and in the root of the file system every directory is at
    level 0. *)
Theorem C6_level_removes_every_occurrence :
  (∀ (startpath : string) (fs : tree) (w : world),
     mergecode.write_tree_structure startpath fs w
     = World
         (document w +:+ "PROJECT STRUCTURE:" +:+ LF
          +:+ "==================" +:+ LF
          +:+ concat_str
                (dir_lines mergecode.ALLOWED_EXTENSIONS startpath
                   <$> visited mergecode.IGNORE_DIRS fs)
          +:+ LF +:+ LF)
         (stdout w))
  ∧ (∀ (rcomps ds : list string),
       rcomps ≠ [] →
       forallb valid_name rcomps = true → forallb valid_name ds = true →
       str.contains
         (str.drop (String.length (abs_path rcomps))
                   (path_of (abs_path rcomps) ds))
         (abs_path rcomps) = false →
       level_of (abs_path rcomps) ds = length ds)
  ∧ level_of "/app" ["app"] = 0
  ∧ str.count (str.drop (String.length "/app") (path_of "/app" ["app"])) "/"
    = 1
  ∧ document (mergecode.write_tree_structure "/app" nested_app (World "" []))
    = nested_app_structure
  ∧ (∀ ds : list string, level_of "/" ds = 0).
Proof.
  split_and!; [| | by vm_compute | by vm_compute | by vm_compute |].
  - intros startpath fs w. by rewrite write_tree_structure_spec.
  - apply level_of_depth.
  - apply level_of_root.
Qed.

(** C6 at the directory [src] of the scenario. *)
Lemma C6_level_removes_every_occurrence_witness :
  scenario_root ≠ []
  ∧ forallb valid_name scenario_root = true
  ∧ forallb valid_name ["src"] = true
  ∧ str.contains
      (str.drop (String.length (abs_path scenario_root))
                (path_of (abs_path scenario_root) ["src"]))
      (abs_path scenario_root) = false
  ∧ level_of (abs_path scenario_root) ["src"] = 1.
Proof.
  assert (scenario_root ≠ []) as N by done.
  split; [exact N |]. do 3 (split; [reflexivity |]).
  exact (proj1 (proj2 C6_level_removes_every_occurrence)
           scenario_root ["src"] N eq_refl eq_refl eq_refl).
Defined.

(** C7.  [os.walk], with the edit of either script, yields the
    directories of the tree that no ignored name leads to and no other:
    the walk descends only into the names that the edit has left, so a
    directory of an ignored name is passed over with everything below
    it, at any depth, and a name is ignored by equality with a member of
    the ignore-set. *)
Theorem C7_ignored_never_visited :
  (∀ (root_dir : string) (t : tree),
     os.walk merge_code.keep root_dir t
     = (λ node, (path_of root_dir node.1.1, node.1.2, node.2))
         <$> visited merge_code.IGNORE_DIRS t
     ∧ os.walk mergecode.keep root_dir t
       = (λ node, (path_of root_dir node.1.1, node.1.2, node.2))
           <$> visited mergecode.IGNORE_DIRS t
     ∧ (∀ node,
          node ∈ visited merge_code.IGNORE_DIRS t ↔
          ∃ ds sub, node = (ds, (subdirs sub).*1, entries sub)
                    ∧ Forall (λ d, d ∉ merge_code.IGNORE_DIRS) ds
                    ∧ dir_at t ds = Some sub)
     ∧ (∀ node,
          node ∈ visited mergecode.IGNORE_DIRS t ↔
          ∃ ds sub, node = (ds, (subdirs sub).*1, entries sub)
                    ∧ Forall (λ d, d ∉ mergecode.IGNORE_DIRS) ds
                    ∧ dir_at t ds = Some sub))
  ∧ (∀ (top : string) dirs files,
       os.walk merge_code.keep top (Dir dirs files)
       = (top, dirs.*1, files) ::
         (merge_code.keep dirs.*1 ≫= λ d,
            match resolve d dirs with
            | Some sub => os.walk merge_code.keep (posixpath.join top d) sub
            | None => []
            end))
  ∧ (λ node, node.1.1) <$> os.walk merge_code.keep "/p" nested_build
    = ["/p"; "/p/a"; "/p/a/builds"]
  ∧ (λ node, node.1.1) <$> os.walk mergecode.keep "/p" nested_build
    = ["/p"; "/p/a"; "/p/a/builds"].
Proof.
  split_and!; [| | by vm_compute | by vm_compute].
  - intros root_dir t. split_and!.
    + apply walk_visited.
    + apply walk_visited.
    + intros node. apply elem_of_visited.
    + intros node. apply elem_of_visited.
  - intros top dirs files. apply walk_with_unfold.
Qed.

(** C8.  A second run over the tree that the first run left gives the
    same document, the same printed lines and the same file system; the
    output file holds the document. *)
Theorem C8_second_run_same_output :
  ∀ (root_dir : string) (t : tree),
    merge_code.merge_files root_dir (merge_code.merge_files root_dir t).1
    = merge_code.merge_files root_dir t
    ∧ mergecode.merge_files root_dir (mergecode.merge_files root_dir t).1
      = mergecode.merge_files root_dir t
    ∧ resolve merge_code.OUTPUT_FILE
        (entries (merge_code.merge_files root_dir t).1)
      = Some (Text (document (merge_code.merge_files root_dir t).2))
    ∧ resolve mergecode.OUTPUT_FILE
        (entries (mergecode.merge_files root_dir t).1)
      = Some (Text (document (mergecode.merge_files root_dir t).2)).
Proof.
  intros root_dir t. split_and!.
  - rewrite !merge_code_run. cbv zeta. cbn [fst].
    unfold content_with, diagnostics_with.
    rewrite selected_close_w, selected_open_w
      by apply merge_code_output_excluded.
    by rewrite reopen.
  - rewrite !mergecode_run. cbv zeta. cbn [fst].
    rewrite structure_reopen by apply mergecode_output_excluded.
    unfold content_with, diagnostics_with.
    rewrite selected_close_w, selected_open_w
      by apply mergecode_output_excluded.
    by rewrite reopen.
  - rewrite merge_code_run. cbv zeta. cbn [fst snd document].
    apply resolve_output.
  - rewrite mergecode_run. cbv zeta. cbn [fst snd document].
    apply resolve_output.
Qed.

(** C9.  The extension of the output file is [.txt], which is in neither
    allow-set.  During a run the output file is listed in the root, yet
    none of the files written is the output file. *)
Theorem C9_output_never_input :
  (posixpath.splitext merge_code.OUTPUT_FILE).2 = ".txt"
  ∧ (posixpath.splitext mergecode.OUTPUT_FILE).2 = ".txt"
  ∧ (".txt" ∉ merge_code.ALLOWED_EXTENSIONS)
  ∧ (".txt" ∉ mergecode.ALLOWED_EXTENSIONS)
  ∧ ∀ (root_dir : string) (t : tree),
      merge_code.OUTPUT_FILE ∈ (entries (open_w merge_code.OUTPUT_FILE t)).*1
      ∧ document (merge_code.merge_files root_dir t).2
        = content_with merge_code.ALLOWED_EXTENSIONS merge_code.IGNORE_DIRS
            LF LF (emitted_path root_dir) (open_w merge_code.OUTPUT_FILE t)
      ∧ document (mergecode.merge_files root_dir t).2
        = structure mergecode.ALLOWED_EXTENSIONS mergecode.IGNORE_DIRS
            root_dir (open_w mergecode.OUTPUT_FILE t)
          +:+ content_with mergecode.ALLOWED_EXTENSIONS mergecode.IGNORE_DIRS
                "" (LF +:+ LF) (emitted_path root_dir)
                (open_w mergecode.OUTPUT_FILE t)
      ∧ (∀ ds f c,
           (ds, f, c) ∈ selected merge_code.ALLOWED_EXTENSIONS
                          merge_code.IGNORE_DIRS
                          (open_w merge_code.OUTPUT_FILE t) →
           f ≠ merge_code.OUTPUT_FILE)
      ∧ (∀ ds f c,
           (ds, f, c) ∈ selected mergecode.ALLOWED_EXTENSIONS
                          mergecode.IGNORE_DIRS
                          (open_w mergecode.OUTPUT_FILE t) →
           f ≠ mergecode.OUTPUT_FILE).
Proof.
  split_and!; [done | done | | |].
  - by apply (bool_decide_eq_false_1 _).
  - by apply (bool_decide_eq_false_1 _).
  - intros root_dir t. split_and!.
    + destruct t as [dirs files]. apply truncate_names.
    + rewrite merge_code_run. cbv zeta. cbn [snd document].
      unfold content_with.
      by rewrite selected_open_w by apply merge_code_output_excluded.
    + rewrite mergecode_run. cbv zeta. cbn [snd document].
      rewrite <- (structure_visible _ _ _ (open_w _ _)).
      rewrite visible_open_w by apply mergecode_output_excluded.
      rewrite structure_visible. unfold content_with.
      by rewrite selected_open_w by apply mergecode_output_excluded.
    + intros ds f c (_ & _ & Hf)%elem_of_selected ->.
      by rewrite merge_code_output_excluded in Hf.
    + intros ds f c (_ & _ & Hf)%elem_of_selected ->.
      by rewrite mergecode_output_excluded in Hf.
Qed.

(** C9 at a root with one file. *)
Lemma C9_output_never_input_witness :
  ([], "main.swift", Text "A")
    ∈ selected merge_code.ALLOWED_EXTENSIONS merge_code.IGNORE_DIRS
        (open_w merge_code.OUTPUT_FILE one_file)
  ∧ "main.swift" ≠ merge_code.OUTPUT_FILE.
Proof.
  assert (([], "main.swift", Text "A")
            ∈ selected merge_code.ALLOWED_EXTENSIONS merge_code.IGNORE_DIRS
                (open_w merge_code.OUTPUT_FILE one_file)) as H.
  { vm_compute. left. }
  split; [exact H |].
  destruct C9_output_never_input as (_ & _ & _ & _ & W).
  destruct (W "/p" one_file) as (_ & _ & _ & N & _).
  exact (N [] "main.swift" (Text "A") H).
Defined.

(** C10, as stated, fails: a file named [.swift] directly in the root
    has the allowed extension [.swift] as the part of its name from the
    last dot on, and is not included.  And a file of the root with an
    allowed extension has no block where the run has stopped before
    it, at the FILE line of a name that is not valid UTF-8. *)
Lemma C10_counterexample :
  ¬ (∀ (t : tree) (pre suf : string) (c : file),
       (pre +:+ "." +:+ suf, c) ∈ entries t →
       has_char "." suf = false →
       "." +:+ suf ∈ merge_code.ALLOWED_EXTENSIONS →
       str.contains
         (document (merge_code.merge_files build_root t).2)
         ("FILE: " +:+ pre +:+ "." +:+ suf +:+ LF) = true)
  ∧ ¬ (∀ (t : tree) (pre suf : string) (c : file),
         (pre +:+ "." +:+ suf, c) ∈ entries t →
         has_char "." suf = false →
         "." +:+ suf ∈ mergecode.ALLOWED_EXTENSIONS →
         str.contains
           (document (mergecode.merge_files build_root t).2)
           ("FILE: " +:+ pre +:+ "." +:+ suf +:+ LF) = true)
  ∧ ¬ (∀ (t : tree) (f : string) (c : file),
         (f, c) ∈ entries t →
         (posixpath.splitext f).2 ∈ merge_code.ALLOWED_EXTENSIONS →
         str.contains
           (document (made (merge_code_raising.merge_files build_root t).2))
           ("FILE: " +:+ f +:+ LF) = true)
  ∧ ¬ (∀ (t : tree) (f : string) (c : file),
         (f, c) ∈ entries t →
         (posixpath.splitext f).2 ∈ mergecode.ALLOWED_EXTENSIONS →
         str.contains
           (document (made (mergecode_raising.merge_files build_root t).2))
           ("FILE: " +:+ f +:+ LF) = true).
Proof.
  assert (("" +:+ "." +:+ "swift", Text "A") ∈ entries dot_swift_root)
    as Hin by left.
  assert (("main.swift", Text "A") ∈ entries latin1_first)
    as Hin' by (right; left).
  split_and!; intros H.
  - specialize (H dot_swift_root "" "swift" (Text "A") Hin eq_refl).
    assert (str.contains
              (document (merge_code.merge_files build_root dot_swift_root).2)
              ("FILE: " +:+ "" +:+ "." +:+ "swift" +:+ LF) = true) as E.
    { apply H. by apply (bool_decide_eq_true_1 _). }
    vm_compute in E. discriminate.
  - specialize (H dot_swift_root "" "swift" (Text "A") Hin eq_refl).
    assert (str.contains
              (document (mergecode.merge_files build_root dot_swift_root).2)
              ("FILE: " +:+ "" +:+ "." +:+ "swift" +:+ LF) = true) as E.
    { apply H. by apply (bool_decide_eq_true_1 _). }
    vm_compute in E. discriminate.
  - specialize (H latin1_first "main.swift" (Text "A") Hin').
    assert (str.contains
              (document
                 (made (merge_code_raising.merge_files build_root
                          latin1_first).2))
              ("FILE: " +:+ "main.swift" +:+ LF) = true) as E.
    { apply H. by apply (bool_decide_eq_true_1 _). }
    vm_compute in E. discriminate.
  - specialize (H latin1_first "main.swift" (Text "A") Hin').
    assert (str.contains
              (document
                 (made (mergecode_raising.merge_files build_root
                          latin1_first).2))
              ("FILE: " +:+ "main.swift" +:+ LF) = true) as E.
    { apply H. by apply (bool_decide_eq_true_1 _). }
    vm_compute in E. discriminate.
Qed.

(** C10, amended.  The walk starts with the root itself, whatever its
    name, and the files of the root whose extension, as
    [os.path.splitext] gives it, is allowed are among the files written,
    also when the base name of the root is in the ignore-set.  In a
    working directory whose names are valid UTF-8 and that has no
    sub-directory of the name of the output file, the run raises
    nothing and the document has the block of each of them, under its
    bare name. *)
Theorem C10_root_is_walked :
  (∀ (root_dir : string) (t : tree),
     head (os.walk merge_code.keep root_dir t)
     = Some (root_dir, (subdirs t).*1, entries t)
     ∧ head (os.walk mergecode.keep root_dir t)
       = Some (root_dir, (subdirs t).*1, entries t)
     ∧ (∀ f c,
          (f, c) ∈ entries t →
          (posixpath.splitext f).2 ∈ merge_code.ALLOWED_EXTENSIONS →
          ([], f, c) ∈ selected merge_code.ALLOWED_EXTENSIONS
                         merge_code.IGNORE_DIRS t)
     ∧ (∀ f c,
          (f, c) ∈ entries t →
          (posixpath.splitext f).2 ∈ mergecode.ALLOWED_EXTENSIONS →
          ([], f, c) ∈ selected mergecode.ALLOWED_EXTENSIONS
                         mergecode.IGNORE_DIRS t))
  ∧ (∀ (rcomps : list string) (t : tree),
       forallb valid_name rcomps = true → forallb utf8 rcomps = true →
       wf_tree t = true → utf8_tree t = true →
       "FullProjectSource.txt" ∉ (subdirs t).*1 →
       document (merge_code.merge_files (abs_path rcomps) t).2
       = content_with merge_code.ALLOWED_EXTENSIONS merge_code.IGNORE_DIRS
           LF LF relative t
       ∧ document (mergecode.merge_files (abs_path rcomps) t).2
         = structure mergecode.ALLOWED_EXTENSIONS mergecode.IGNORE_DIRS
             (abs_path rcomps) t
           +:+ content_with mergecode.ALLOWED_EXTENSIONS
                 mergecode.IGNORE_DIRS "" (LF +:+ LF) relative t
       ∧ (∀ f c,
            (f, c) ∈ entries t →
            (posixpath.splitext f).2 ∈ merge_code.ALLOWED_EXTENSIONS →
            utf8 ("FILE: " +:+ f +:+ LF) = true
            ∧ str.contains
                (document (merge_code.merge_files (abs_path rcomps) t).2)
                (block LF LF f c) = true)
       ∧ (∀ f c,
            (f, c) ∈ entries t →
            (posixpath.splitext f).2 ∈ mergecode.ALLOWED_EXTENSIONS →
            utf8 ("FILE: " +:+ f +:+ LF) = true
            ∧ str.contains
                (document (mergecode.merge_files (abs_path rcomps) t).2)
                (block "" (LF +:+ LF) f c) = true)
       ∧ (merge_code_raising.merge_files (abs_path rcomps) t).2
         = returned (merge_code.merge_files (abs_path rcomps) t).2
       ∧ (mergecode_raising.merge_files (abs_path rcomps) t).2
         = returned (mergecode.merge_files (abs_path rcomps) t).2)
  ∧ posixpath.basename build_root ∈ merge_code.IGNORE_DIRS
  ∧ posixpath.basename build_root ∈ mergecode.IGNORE_DIRS
  ∧ document (merge_code.merge_files build_root one_file).2
    = build_root_content_only
  ∧ document (mergecode.merge_files build_root one_file).2
    = build_root_structure_content.
Proof.
  assert (∀ A I t f c,
            (f, c) ∈ entries t → (posixpath.splitext f).2 ∈ A →
            ([], f, c) ∈ selected A I t) as S.
  { intros A I t f c Hin Hext. apply elem_of_selected_ext.
    split_and!; [constructor | by exists t | done]. }
  split_and!; [| | | | by vm_compute | by vm_compute].
  - intros root_dir t. split_and!.
    + by destruct t.
    + by destruct t.
    + apply S.
    + apply S.
  - intros rcomps t Hr Hru Hwf Hu Hout.
    assert (∀ f c, (f, c) ∈ entries t →
                   utf8 ("FILE: " +:+ f +:+ LF) = true) as U.
    { intros f c Hin.
      apply utf8_app; [done |]. apply utf8_app; [| done].
      assert (file_in t [] f c) as F by (by exists t).
      pose proof (file_in_utf8 t [] f c Hu F) as V.
      simpl in V. by rewrite andb_true_r in V. }
    split_and!.
    + rewrite merge_code_run. cbn [snd document].
      by apply content_relative.
    + rewrite mergecode_run. cbn [snd document].
      by rewrite content_relative.
    + intros f c Hin Hext. split; [by eapply U |].
      rewrite merge_code_run. cbn [snd document].
      rewrite content_relative by done.
      apply (contains_content _ _ _ _ relative t [] f c);
        [by apply S | apply contains_self].
    + intros f c Hin Hext. split; [by eapply U |].
      rewrite mergecode_run. cbn [snd document].
      rewrite content_relative by done. apply contains_app_l.
      apply (contains_content _ _ _ _ relative t [] f c);
        [by apply S | apply contains_self].
    + rewrite merge_code_goes_through; [done | done |].
      by apply selected_encodes.
    + by rewrite mergecode_goes_through.
  - by apply (bool_decide_eq_true_1 _).
  - by apply (bool_decide_eq_true_1 _).
Qed.

(** C10 at a root directory named [build]. *)
Lemma C10_root_is_walked_witness :
  forallb valid_name ["work"; "build"] = true
  ∧ forallb utf8 ["work"; "build"] = true
  ∧ wf_tree one_file = true ∧ utf8_tree one_file = true
  ∧ ("FullProjectSource.txt" ∉ (subdirs one_file).*1)
  ∧ ("main.swift", Text "A") ∈ entries one_file
  ∧ (posixpath.splitext "main.swift").2 ∈ merge_code.ALLOWED_EXTENSIONS
  ∧ str.contains
      (document (merge_code.merge_files (abs_path ["work"; "build"])
                   one_file).2)
      (block LF LF "main.swift" (Text "A")) = true.
Proof.
  assert ("FullProjectSource.txt" ∉ (subdirs one_file).*1) as N
    by (by apply (bool_decide_eq_false_1 _)).
  assert (("main.swift", Text "A") ∈ entries one_file) as H1 by left.
  assert ((posixpath.splitext "main.swift").2 ∈ merge_code.ALLOWED_EXTENSIONS)
    as H2 by (by apply (bool_decide_eq_true_1 _)).
  do 4 (split; [reflexivity |]). split; [exact N |].
  split; [exact H1 |]. split; [exact H2 |].
  destruct (proj1 (proj2 C10_root_is_walked) ["work"; "build"] one_file
              eq_refl eq_refl eq_refl eq_refl N) as (_ & _ & W & _).
  exact (proj2 (W "main.swift" (Text "A") H1 H2)).
Defined.

(** * Further properties of the two scripts *)

(** ** The order of the blocks *)

Lemma bind_bind_list {A B C : Type} (f : A → list B) (g : B → list C)
      (l : list A) :
  (l ≫= f) ≫= g = l ≫= λ x, f x ≫= g.
Proof.
  induction l as [|x l IH]; [done |].
  by rewrite !bind_cons, bind_app, IH.
Qed.

Lemma concat_str_bind {A : Type} (f : A → list string) (l : list A) :
  concat_str (l ≫= f) = concat_str ((λ x, concat_str (f x)) <$> l).
Proof.
  induction l as [|x l IH]; [done |].
  rewrite bind_cons, concat_str_app, fmap_cons, IH. done.
Qed.

(** A walk that starts below [top] is the walk from the empty path with
    [top] put before every path. *)
Lemma walk_shift (IGNORE_DIRS : gset string) (top : list string) (t : tree) :
  os.walk_with snoc (keep IGNORE_DIRS) top t
  = (λ node, (top ++ node.1.1, node.1.2, node.2))
      <$> os.walk_with snoc (keep IGNORE_DIRS) [] t.
Proof.
  pose proof (walk_with_fmap (λ p, top ++ p) snoc snoc (keep IGNORE_DIRS)) as W.
  rewrite <- W; [by rewrite app_nil_r |].
  intros p d. unfold snoc. by rewrite app_assoc.
Qed.

(** The files written for a directory: its own files with an allowed
    extension, in listing order, then those of each sub-directory that
    is kept, in listing order. *)
Lemma selected_Dir (ALLOWED_EXTENSIONS IGNORE_DIRS : gset string)
      (dirs : list (string * tree)) (files : list (string * file)) :
  selected ALLOWED_EXTENSIONS IGNORE_DIRS (Dir dirs files)
  = ((λ e : string * file, ([], e.1, e.2))
       <$> filter (λ e : string * file,
                     included ALLOWED_EXTENSIONS e.1 = true) files)
    ++ (keep IGNORE_DIRS dirs.*1 ≫= λ d,
          match resolve d dirs with
          | Some sub =>
              (λ item, (d :: item.1.1, item.1.2, item.2))
                <$> selected ALLOWED_EXTENSIONS IGNORE_DIRS sub
          | None => []
          end).
Proof.
  unfold selected, visited. rewrite walk_with_unfold, bind_cons.
  cbn [fst snd]. f_equal. rewrite bind_bind_list.
  apply list_bind_ext; [| done]. intros d.
  destruct (resolve d dirs) as [sub|]; [| done].
  rewrite walk_shift, list_fmap_bind, fmap_bind_list.
  apply list_bind_ext; [| done]. intros [[ds dn] fl]. cbn [fst snd compose].
  by rewrite <- list_fmap_compose.
Qed.

Lemma content_Dir (ALLOWED_EXTENSIONS IGNORE_DIRS : gset string)
      (lead trail : string) (rel : list string → string → string)
      (dirs : list (string * tree)) (files : list (string * file)) :
  content_with ALLOWED_EXTENSIONS IGNORE_DIRS lead trail rel (Dir dirs files)
  = concat_str
      ((λ e : string * file, block lead trail (rel [] e.1) e.2)
         <$> filter (λ e : string * file,
                       included ALLOWED_EXTENSIONS e.1 = true) files)
    +:+ concat_str
          ((λ d,
              match resolve d dirs with
              | Some sub =>
                  content_with ALLOWED_EXTENSIONS IGNORE_DIRS lead trail
                    (λ ds, rel (d :: ds)) sub
              | None => ""
              end) <$> keep IGNORE_DIRS dirs.*1).
Proof.
  unfold content_with. rewrite selected_Dir, fmap_app, concat_str_app.
  f_equal.
  - by rewrite <- list_fmap_compose.
  - rewrite fmap_bind_list, concat_str_bind. f_equal.
    apply Forall_fmap_ext, Forall_forall. intros d _.
    destruct (resolve d dirs) as [sub|]; [| done].
    by rewrite <- list_fmap_compose.
Qed.

(** X1.  In a working directory that a run goes through, the blocks come
    in the order of a top-down walk: the document of a directory has the
    blocks of its own files with an allowed extension first, in listing
    order, and then, for each of its sub-directories that is kept, in
    listing order, the whole content of that sub-directory, with the
    name of the sub-directory put before the paths. *)
Theorem X1_blocks_in_walk_order :
  ∀ (rcomps : list string) (dirs : list (string * tree))
    (files : list (string * file)),
    forallb valid_name rcomps = true → forallb utf8 rcomps = true →
    wf_tree (Dir dirs files) = true → utf8_tree (Dir dirs files) = true →
    "FullProjectSource.txt" ∉ dirs.*1 →
    document (merge_code.merge_files (abs_path rcomps) (Dir dirs files)).2
    = concat_str
        ((λ e : string * file, block LF LF (relative [] e.1) e.2)
           <$> filter (λ e : string * file,
                         included merge_code.ALLOWED_EXTENSIONS e.1 = true)
                      files)
      +:+ concat_str
            ((λ d,
                match resolve d dirs with
                | Some sub =>
                    content_with merge_code.ALLOWED_EXTENSIONS
                      merge_code.IGNORE_DIRS LF LF
                      (λ ds, relative (d :: ds)) sub
                | None => ""
                end) <$> merge_code.keep dirs.*1)
    ∧ document (mergecode.merge_files (abs_path rcomps) (Dir dirs files)).2
      = structure mergecode.ALLOWED_EXTENSIONS mergecode.IGNORE_DIRS
          (abs_path rcomps) (Dir dirs files)
        +:+ concat_str
              ((λ e : string * file,
                  block "" (LF +:+ LF) (relative [] e.1) e.2)
                 <$> filter (λ e : string * file,
                               included mergecode.ALLOWED_EXTENSIONS e.1 = true)
                            files)
        +:+ concat_str
              ((λ d,
                  match resolve d dirs with
                  | Some sub =>
                      content_with mergecode.ALLOWED_EXTENSIONS
                        mergecode.IGNORE_DIRS "" (LF +:+ LF)
                        (λ ds, relative (d :: ds)) sub
                  | None => ""
                  end) <$> mergecode.keep dirs.*1)
    ∧ (merge_code_raising.merge_files (abs_path rcomps) (Dir dirs files)).2
      = returned (merge_code.merge_files (abs_path rcomps) (Dir dirs files)).2
    ∧ (mergecode_raising.merge_files (abs_path rcomps) (Dir dirs files)).2
      = returned (mergecode.merge_files (abs_path rcomps) (Dir dirs files)).2.
Proof.
  intros rcomps dirs files Hr Hru Hwf Hu Hout. split_and!.
  - rewrite merge_code_run. cbv zeta. cbn [snd document].
    rewrite content_relative by done. apply content_Dir.
  - rewrite mergecode_run. cbv zeta. cbn [snd document].
    rewrite content_relative by done. by rewrite content_Dir.
  - rewrite merge_code_goes_through; [done | done |].
    by apply selected_encodes.
  - by rewrite mergecode_goes_through.
Qed.

(** X1 at a directory with a file of its own and a file one level
    down. *)
Lemma X1_blocks_in_walk_order_witness :
  forallb valid_name scenario_root = true
  ∧ forallb utf8 scenario_root = true
  ∧ wf_tree (Dir [("src", Dir [] [("main.swift", Text "A")])]
                 [("top.swift", Text "T")]) = true
  ∧ utf8_tree (Dir [("src", Dir [] [("main.swift", Text "A")])]
                   [("top.swift", Text "T")]) = true
  ∧ ("FullProjectSource.txt"
       ∉ [("src", Dir [] [("main.swift", Text "A")])].*1)
  ∧ document
      (merge_code.merge_files (abs_path scenario_root)
         (Dir [("src", Dir [] [("main.swift", Text "A")])]
              [("top.swift", Text "T")])).2
    = block LF LF "top.swift" (Text "T")
      +:+ block LF LF "src/main.swift" (Text "A").
Proof.
  assert ("FullProjectSource.txt"
            ∉ [("src", Dir [] [("main.swift", Text "A")])].*1) as N
    by (by apply (bool_decide_eq_false_1 _)).
  do 4 (split; [reflexivity |]). split; [exact N |].
  rewrite (proj1 (X1_blocks_in_walk_order scenario_root
                    [("src", Dir [] [("main.swift", Text "A")])]
                    [("top.swift", Text "T")]
                    eq_refl eq_refl eq_refl eq_refl N)).
  reflexivity.
Defined.

(** ** The printed lines *)

Lemma elem_of_diagnostics (ALLOWED_EXTENSIONS IGNORE_DIRS : gset string)
      (rel : list string → string → string) (t : tree) (line : string) :
  line ∈ diagnostics_with ALLOWED_EXTENSIONS IGNORE_DIRS rel t ↔
  ∃ ds f e,
    Forall (λ d, d ∉ IGNORE_DIRS) ds ∧ file_in t ds f (Failure e)
    ∧ (posixpath.splitext f).2 ∈ ALLOWED_EXTENSIONS
    ∧ line = "Could not read " +:+ rel ds f +:+ ": " +:+ e.
Proof.
  unfold diagnostics_with. rewrite list_elem_of_bind. split.
  - intros ([[ds f] [text|e]] & Hl & Hin); cbn [diagnostic fst snd] in Hl.
    + by apply elem_of_nil in Hl.
    + apply list_elem_of_singleton in Hl as ->.
      apply elem_of_selected_ext in Hin as (? & ? & ?).
      by exists ds, f, e.
  - intros (ds & f & e & Hds & Hin & Hf & ->).
    exists (ds, f, Failure e). split; [by left |].
    by apply elem_of_selected_ext.
Qed.

(** X2.  In a working directory that a run goes through, a run prints
    [Could not read <path>: <error>] for the files with an allowed
    extension, in directories that no ignored name leads to, whose
    reading fails, and for no other file; whatever file cannot be read,
    the last line printed is the success message.  [mergecode.py] prints
    its two progress lines first. *)
Theorem X2_printed_lines :
  ∀ (rcomps : list string) (t : tree),
    forallb valid_name rcomps = true → forallb utf8 rcomps = true →
    wf_tree t = true → utf8_tree t = true →
    "FullProjectSource.txt" ∉ (subdirs t).*1 →
    (∃ lines,
       stdout (merge_code.merge_files (abs_path rcomps) t).2
       = lines
         ++ ["✅ Success! Source code combined into: FullProjectSource.txt"]
       ∧ ∀ line,
           line ∈ lines ↔
           ∃ ds f e,
             Forall (λ d, d ∉ merge_code.IGNORE_DIRS) ds
             ∧ file_in t ds f (Failure e)
             ∧ (posixpath.splitext f).2 ∈ merge_code.ALLOWED_EXTENSIONS
             ∧ line = "Could not read " +:+ relative ds f +:+ ": " +:+ e)
    ∧ (∃ lines,
         stdout (mergecode.merge_files (abs_path rcomps) t).2
         = ["Generating folder structure..."; "Merging file contents..."]
           ++ lines
           ++ ["✅ Success! Structure and code combined into: FullProjectSource.txt"]
         ∧ ∀ line,
             line ∈ lines ↔
             ∃ ds f e,
               Forall (λ d, d ∉ mergecode.IGNORE_DIRS) ds
               ∧ file_in t ds f (Failure e)
               ∧ (posixpath.splitext f).2 ∈ mergecode.ALLOWED_EXTENSIONS
               ∧ line = "Could not read " +:+ relative ds f +:+ ": " +:+ e)
    ∧ (merge_code_raising.merge_files (abs_path rcomps) t).2
      = returned (merge_code.merge_files (abs_path rcomps) t).2
    ∧ (mergecode_raising.merge_files (abs_path rcomps) t).2
      = returned (mergecode.merge_files (abs_path rcomps) t).2.
Proof.
  intros rcomps t Hr Hru Hwf Hu Hout. split_and!.
  - eexists. rewrite merge_code_run. cbv zeta. cbn [snd stdout].
    rewrite diagnostics_relative by done.
    split; [done |]. intros line. apply elem_of_diagnostics.
  - eexists. rewrite mergecode_run. cbv zeta. cbn [snd stdout].
    rewrite diagnostics_relative by done.
    split; [done |]. intros line. apply elem_of_diagnostics.
  - rewrite merge_code_goes_through; [done | done |].
    by apply selected_encodes.
  - by rewrite mergecode_goes_through.
Qed.

(** X2 at the working directory with a file that cannot be read. *)
Lemma X2_printed_lines_witness :
  forallb valid_name scenario_root = true
  ∧ forallb utf8 scenario_root = true
  ∧ wf_tree unreadable = true ∧ utf8_tree unreadable = true
  ∧ ("FullProjectSource.txt" ∉ (subdirs unreadable).*1)
  ∧ ∃ lines,
      stdout (merge_code.merge_files (abs_path scenario_root) unreadable).2
      = lines
        ++ ["✅ Success! Source code combined into: FullProjectSource.txt"].
Proof.
  assert ("FullProjectSource.txt" ∉ (subdirs unreadable).*1) as N
    by (by apply (bool_decide_eq_false_1 _)).
  do 4 (split; [reflexivity |]). split; [exact N |].
  destruct (proj1 (X2_printed_lines scenario_root unreadable
                     eq_refl eq_refl eq_refl eq_refl N)) as (lines & E & _).
  exists lines. exact E.
Defined.

(** ** The text of the document *)

(** X3.  In a working directory that a run goes through, for every file
    with an allowed extension in a directory that no ignored name leads
    to, the document has the whole block of the file in one piece, hence
    its [FILE:] line and, when the file can be read, its text as it was
    read. *)
Theorem X3_document_holds_every_block :
  ∀ (rcomps : list string) (t : tree) (ds : list string) (f : string)
    (c : file),
    forallb valid_name rcomps = true → forallb utf8 rcomps = true →
    wf_tree t = true → utf8_tree t = true →
    "FullProjectSource.txt" ∉ (subdirs t).*1 →
    (Forall (λ d, d ∉ merge_code.IGNORE_DIRS) ds → file_in t ds f c →
     (posixpath.splitext f).2 ∈ merge_code.ALLOWED_EXTENSIONS →
     let doc := document (merge_code.merge_files (abs_path rcomps) t).2 in
     str.contains doc (block LF LF (relative ds f) c) = true
     ∧ str.contains doc ("FILE: " +:+ relative ds f +:+ LF) = true
     ∧ ∀ text, c = Text text → str.contains doc text = true)
    ∧ (Forall (λ d, d ∉ mergecode.IGNORE_DIRS) ds → file_in t ds f c →
       (posixpath.splitext f).2 ∈ mergecode.ALLOWED_EXTENSIONS →
       let doc := document (mergecode.merge_files (abs_path rcomps) t).2 in
       str.contains doc (block "" (LF +:+ LF) (relative ds f) c) = true
       ∧ str.contains doc ("FILE: " +:+ relative ds f +:+ LF) = true
       ∧ ∀ text, c = Text text → str.contains doc text = true)
    ∧ (merge_code_raising.merge_files (abs_path rcomps) t).2
      = returned (merge_code.merge_files (abs_path rcomps) t).2
    ∧ (mergecode_raising.merge_files (abs_path rcomps) t).2
      = returned (mergecode.merge_files (abs_path rcomps) t).2.
Proof.
  intros rcomps t ds f c Hr Hru Hwf Hu Hout. split_and!.
  - intros Hds Hin Hf doc.
    assert ((ds, f, c) ∈ selected merge_code.ALLOWED_EXTENSIONS
                           merge_code.IGNORE_DIRS t) as Hsel
      by (by apply elem_of_selected_ext).
    unfold doc. rewrite merge_code_run. cbv zeta. cbn [snd document].
    rewrite content_relative by done.
    split_and!.
    + eapply contains_content; [done | apply contains_self].
    + eapply contains_content; [done | apply contains_block_line].
    + intros text ->.
      eapply contains_content; [done | apply contains_block_text].
  - intros Hds Hin Hf doc.
    assert ((ds, f, c) ∈ selected mergecode.ALLOWED_EXTENSIONS
                           mergecode.IGNORE_DIRS t) as Hsel
      by (by apply elem_of_selected_ext).
    unfold doc. rewrite mergecode_run. cbv zeta. cbn [snd document].
    rewrite content_relative by done.
    split_and!.
    + apply contains_app_l.
      eapply contains_content; [done | apply contains_self].
    + apply contains_app_l.
      eapply contains_content; [done | apply contains_block_line].
    + intros text ->. apply contains_app_l.
      eapply contains_content; [done | apply contains_block_text].
  - rewrite merge_code_goes_through; [done | done |].
    by apply selected_encodes.
  - by rewrite mergecode_goes_through.
Qed.

(** X3 at the file of the scenario that is written. *)
Lemma X3_document_holds_every_block_witness :
  forallb valid_name scenario_root = true
  ∧ forallb utf8 scenario_root = true
  ∧ wf_tree scenario = true ∧ utf8_tree scenario = true
  ∧ ("FullProjectSource.txt" ∉ (subdirs scenario).*1)
  ∧ Forall (λ d, d ∉ merge_code.IGNORE_DIRS) ["src"]
  ∧ file_in scenario ["src"] "main.swift" (Text "A")
  ∧ (posixpath.splitext "main.swift").2 ∈ merge_code.ALLOWED_EXTENSIONS
  ∧ str.contains
      (document (merge_code.merge_files (abs_path scenario_root) scenario).2)
      ("FILE: " +:+ relative ["src"] "main.swift" +:+ LF)
    = true.
Proof.
  assert ("FullProjectSource.txt" ∉ (subdirs scenario).*1) as N
    by (by apply (bool_decide_eq_false_1 _)).
  assert (Forall (λ d, d ∉ merge_code.IGNORE_DIRS) ["src"]) as H1.
  { constructor; [| constructor]. by apply (bool_decide_eq_false_1 _). }
  assert (file_in scenario ["src"] "main.swift" (Text "A")) as H2.
  { exists (Dir [] [("main.swift", Text "A")]). split; [reflexivity | left]. }
  assert ((posixpath.splitext "main.swift").2 ∈ merge_code.ALLOWED_EXTENSIONS)
    as H3 by (by apply (bool_decide_eq_true_1 _)).
  do 4 (split; [reflexivity |]). split; [exact N |].
  split; [exact H1 |]. split; [exact H2 |]. split; [exact H3 |].
  destruct (proj1 (X3_document_holds_every_block scenario_root scenario
                     ["src"] "main.swift" (Text "A")
                     eq_refl eq_refl eq_refl eq_refl N) H1 H2 H3)
    as (_ & L & _).
  exact L.
Defined.

(** ** A tree in which nothing is selected *)

Lemma selected_nil (ALLOWED_EXTENSIONS IGNORE_DIRS : gset string) (t : tree) :
  selected ALLOWED_EXTENSIONS IGNORE_DIRS t = [] ↔
  ∀ ds f c,
    Forall (λ d, d ∉ IGNORE_DIRS) ds → file_in t ds f c →
    (posixpath.splitext f).2 ∉ ALLOWED_EXTENSIONS.
Proof.
  split.
  - intros E ds f c Hds Hin Hf.
    assert ((ds, f, c) ∈ selected ALLOWED_EXTENSIONS IGNORE_DIRS t) as Hsel
      by (by apply elem_of_selected_ext).
    rewrite E in Hsel. by apply elem_of_nil in Hsel.
  - intros H.
    destruct (selected ALLOWED_EXTENSIONS IGNORE_DIRS t)
      as [|[[ds f] c] l] eqn:E; [done |].
    assert ((ds, f, c) ∈ selected ALLOWED_EXTENSIONS IGNORE_DIRS t) as Hsel
      by (rewrite E; left).
    apply elem_of_selected_ext in Hsel as (Hds & Hin & Hf).
    by destruct (H ds f c).
Qed.

(** X4.  Where no file has an allowed extension in a directory that no
    ignored name leads to and no sub-directory of the working directory
    has the name of the output file, [merge_code.py] writes nothing and
    leaves an empty output file, whatever the names in the tree are;
    [mergecode.py], where the names are valid UTF-8, leaves an output
    file that holds the structure section alone; and each prints its
    success message and no diagnostic. *)
Theorem X4_nothing_selected :
  (∀ (root_dir : string) (t : tree),
     selected merge_code.ALLOWED_EXTENSIONS merge_code.IGNORE_DIRS t = [] →
     "FullProjectSource.txt" ∉ (subdirs t).*1 →
     (merge_code.merge_files root_dir t).2
     = World ""
         ["✅ Success! Source code combined into: FullProjectSource.txt"]
     ∧ resolve merge_code.OUTPUT_FILE
         (entries (merge_code.merge_files root_dir t).1)
       = Some (Text "")
     ∧ (merge_code_raising.merge_files root_dir t).2
       = returned (merge_code.merge_files root_dir t).2)
  ∧ (∀ (rcomps : list string) (t : tree),
       selected mergecode.ALLOWED_EXTENSIONS mergecode.IGNORE_DIRS t = [] →
       forallb valid_name rcomps = true → forallb utf8 rcomps = true →
       wf_tree t = true → utf8_tree t = true →
       "FullProjectSource.txt" ∉ (subdirs t).*1 →
       (mergecode.merge_files (abs_path rcomps) t).2
       = World
           (structure mergecode.ALLOWED_EXTENSIONS mergecode.IGNORE_DIRS
              (abs_path rcomps) t)
           ["Generating folder structure..."; "Merging file contents...";
            "✅ Success! Structure and code combined into: FullProjectSource.txt"]
       ∧ resolve mergecode.OUTPUT_FILE
           (entries (mergecode.merge_files (abs_path rcomps) t).1)
         = Some (Text (structure mergecode.ALLOWED_EXTENSIONS
                         mergecode.IGNORE_DIRS (abs_path rcomps) t))
       ∧ utf8 (structure mergecode.ALLOWED_EXTENSIONS mergecode.IGNORE_DIRS
                 (abs_path rcomps) t) = true
       ∧ (mergecode_raising.merge_files (abs_path rcomps) t).2
         = returned (mergecode.merge_files (abs_path rcomps) t).2)
  ∧ (∀ t,
       selected merge_code.ALLOWED_EXTENSIONS merge_code.IGNORE_DIRS t = [] ↔
       ∀ ds f c,
         Forall (λ d, d ∉ merge_code.IGNORE_DIRS) ds → file_in t ds f c →
         (posixpath.splitext f).2 ∉ merge_code.ALLOWED_EXTENSIONS)
  ∧ (∀ t,
       selected mergecode.ALLOWED_EXTENSIONS mergecode.IGNORE_DIRS t = [] ↔
       ∀ ds f c,
         Forall (λ d, d ∉ mergecode.IGNORE_DIRS) ds → file_in t ds f c →
         (posixpath.splitext f).2 ∉ mergecode.ALLOWED_EXTENSIONS).
Proof.
  split_and!.
  - intros root_dir t E Hout. split_and!.
    + rewrite merge_code_run. cbv zeta. cbn [fst snd].
      unfold content_with, diagnostics_with. by rewrite E.
    + rewrite merge_code_run. cbv zeta. cbn [fst snd].
      unfold content_with. rewrite E. apply resolve_output.
    + rewrite merge_code_goes_through; [done | done |]. by rewrite E.
  - intros rcomps t E Hr Hru Hwf Hu Hout. split_and!.
    + rewrite mergecode_run. cbv zeta. cbn [fst snd].
      unfold content_with, diagnostics_with. rewrite E.
      simpl. by rewrite str_app_nil_r.
    + rewrite mergecode_run. cbv zeta. cbn [fst snd].
      unfold content_with. rewrite E. simpl. rewrite str_app_nil_r.
      apply resolve_output.
    + by apply structure_utf8.
    + by rewrite mergecode_goes_through.
  - apply selected_nil.
  - apply selected_nil.
Qed.

(** X4 at a directory with a [README] and a Swift file below [Pods]. *)
Lemma X4_nothing_selected_witness :
  selected merge_code.ALLOWED_EXTENSIONS merge_code.IGNORE_DIRS
    nothing_selected = []
  ∧ ("FullProjectSource.txt" ∉ (subdirs nothing_selected).*1)
  ∧ (merge_code.merge_files "/home/u/proj" nothing_selected).2
    = World ""
        ["✅ Success! Source code combined into: FullProjectSource.txt"].
Proof.
  assert (selected merge_code.ALLOWED_EXTENSIONS merge_code.IGNORE_DIRS
            nothing_selected = []) as E by (vm_compute; reflexivity).
  assert ("FullProjectSource.txt" ∉ (subdirs nothing_selected).*1) as N
    by (by apply (bool_decide_eq_false_1 _)).
  split; [exact E |]. split; [exact N |].
  exact (proj1 (proj1 X4_nothing_selected "/home/u/proj" nothing_selected
                  E N)).
Defined.

(** ** The path written and the path opened *)

Lemma join_root_relative (rcomps rest : list string) :
  forallb valid_name rcomps = true → forallb valid_name rest = true →
  rest ≠ [] →
  posixpath.join (abs_path rcomps) (str.join "/" rest)
  = abs_path (rcomps ++ rest).
Proof.
  intros Hr Hs Hne. unfold posixpath.join, str.startswith, posixpath.sep.
  rewrite prefix_sep_join by done.
  destruct rcomps as [|x l].
  - reflexivity.
  - replace (abs_path (x :: l) =? "")%string with false by done.
    unfold abs_path. rewrite endswith_sep_join by done. simpl orb. cbv iota.
    rewrite (join_app (x :: l) rest) by done.
    by rewrite !str_app_assoc.
Qed.

(** X6.  Below a normalised root, the path written in the [FILE:] line
    leads back to the file: joined to the root with [os.path.join] it is
    the path that the script opens. *)
Theorem X6_written_path_leads_back :
  ∀ (rcomps ds : list string) (f : string),
    forallb valid_name rcomps = true →
    forallb valid_name (ds ++ [f]) = true →
    posixpath.join (abs_path rcomps)
      (posixpath.relpath (abs_path rcomps)
         (posixpath.join (path_of (abs_path rcomps) ds) f)
         (abs_path rcomps))
    = posixpath.join (path_of (abs_path rcomps) ds) f.
Proof.
  intros rcomps ds f Hr Hv.
  pose proof (emitted_path_relative rcomps ds f Hr Hv) as E.
  unfold emitted_path, relative in E. rewrite E.
  pose proof Hv as Hv'. rewrite forallb_app in Hv'.
  apply andb_true_iff in Hv' as [Hds Hf].
  simpl in Hf. rewrite andb_true_r in Hf.
  rewrite join_root_relative; [| done | done | by destruct ds].
  rewrite path_of_abs_path by done.
  rewrite join_abs_path; [| by rewrite forallb_app, Hr, Hds | done].
  by rewrite <- app_assoc.
Qed.

(** X6 at the file of the scenario that is written. *)
Lemma X6_written_path_leads_back_witness :
  forallb valid_name scenario_root = true
  ∧ forallb valid_name (["src"] ++ ["main.swift"]) = true
  ∧ posixpath.join (abs_path scenario_root)
      (posixpath.relpath (abs_path scenario_root)
         (posixpath.join (path_of (abs_path scenario_root) ["src"])
            "main.swift")
         (abs_path scenario_root))
    = posixpath.join (path_of (abs_path scenario_root) ["src"]) "main.swift".
Proof.
  split; [reflexivity |]. split; [reflexivity |].
  exact (X6_written_path_leads_back scenario_root ["src"] "main.swift"
           eq_refl eq_refl).
Defined.

(** ** The line of a directory in the structure section *)

(** X7.  Where the working directory is not the root of the file system
    and its path does not come back in the path of a directory behind
    the prefix, [write_tree_structure] writes for that directory its
    name, indented by four spaces for each name that leads to it from
    the working directory and followed by [/], and then its files with
    an allowed extension, in listing order, four spaces further in.
    The names are taken to be valid UTF-8, and then so is every line
    written. *)
Theorem X7_directory_line :
  ∀ (rcomps ds : list string) (dirs : list string)
    (files : list (string * file)) (w : world),
    rcomps ≠ [] →
    forallb valid_name rcomps = true → forallb valid_name ds = true →
    forallb utf8 rcomps = true → forallb utf8 ds = true →
    forallb utf8 files.*1 = true →
    str.contains
      (str.drop (String.length (abs_path rcomps))
                (path_of (abs_path rcomps) ds))
      (abs_path rcomps) = false →
    mergecode.each_dir (abs_path rcomps) w
      (path_of (abs_path rcomps) ds, dirs, files)
    = World
        (document w
         +:+ str.mul "    " (length ds)
         +:+ default "" (last (rcomps ++ ds)) +:+ "/" +:+ LF
         +:+ concat_str
               ((λ e : string * file,
                   str.mul "    " (length ds + 1) +:+ e.1 +:+ LF)
                  <$> filter (λ e : string * file,
                                included mergecode.ALLOWED_EXTENSIONS e.1
                                = true) files))
        (stdout w)
    ∧ utf8 (str.mul "    " (length ds)
            +:+ default "" (last (rcomps ++ ds)) +:+ "/" +:+ LF) = true
    ∧ Forall (λ e : string * file,
                utf8 (str.mul "    " (length ds + 1) +:+ e.1 +:+ LF) = true)
        files
    ∧ mergecode_raising.each_dir (abs_path rcomps) (returned w)
        (path_of (abs_path rcomps) ds, dirs, files)
      = returned
          (mergecode.each_dir (abs_path rcomps) w
             (path_of (abs_path rcomps) ds, dirs, files)).
Proof.
  intros rcomps ds dirs files w Hne Hr Hd Hru Hdu Hfu Habs. split_and!.
  - pose proof (each_dir_spec (abs_path rcomps) w (ds, dirs, files)) as E.
    cbn [fst snd] in E. rewrite E. clear E.
    unfold dir_lines. cbn [fst snd].
    rewrite level_of_depth by done.
    rewrite path_of_abs_path by done.
    rewrite basename_abs_path by (by rewrite forallb_app, Hr, Hd).
    reflexivity.
  - apply utf8_app; [by apply utf8_mul |]. apply utf8_app; [| done].
    apply utf8_last. by rewrite forallb_app, Hru, Hdu.
  - apply Forall_forall. intros [f c] Hin. cbn [fst].
    apply utf8_app; [by apply utf8_mul |]. apply utf8_app; [| done].
    rewrite forallb_forall in Hfu. apply Hfu, list_elem_of_In.
    apply list_elem_of_fmap. by exists (f, c).
  - apply each_dir_returned; cbn [fst snd].
    + rewrite path_of_abs_path by done.
      rewrite basename_abs_path by (by rewrite forallb_app, Hr, Hd).
      apply utf8_last. by rewrite forallb_app, Hru, Hdu.
    + apply Forall_forall. intros [f c] Hin _. cbn [fst].
      rewrite forallb_forall in Hfu. apply Hfu, list_elem_of_In.
      apply list_elem_of_fmap. by exists (f, c).
Qed.

(** X7 at the directory [src] of the scenario. *)
Lemma X7_directory_line_witness :
  scenario_root ≠ []
  ∧ forallb valid_name scenario_root = true
  ∧ forallb valid_name ["src"] = true
  ∧ forallb utf8 scenario_root = true
  ∧ forallb utf8 ["src"] = true
  ∧ forallb utf8
      [("main.swift", Text "A"); ("notes.txt", Text "N")].*1 = true
  ∧ str.contains
      (str.drop (String.length (abs_path scenario_root))
                (path_of (abs_path scenario_root) ["src"]))
      (abs_path scenario_root) = false
  ∧ document
      (mergecode.each_dir (abs_path scenario_root) (World "" [])
         (path_of (abs_path scenario_root) ["src"], [],
          [("main.swift", Text "A"); ("notes.txt", Text "N")]))
    = "    src/" +:+ LF +:+ "        main.swift" +:+ LF.
Proof.
  assert (scenario_root ≠ []) as N by done.
  split; [exact N |]. do 6 (split; [reflexivity |]).
  rewrite (proj1 (X7_directory_line scenario_root ["src"] []
                    [("main.swift", Text "A"); ("notes.txt", Text "N")]
                    (World "" []) N eq_refl eq_refl eq_refl eq_refl eq_refl
                    eq_refl)).
  reflexivity.
Defined.

(** ** The extensions that can be allowed *)

Lemma last_dot_split (name : string) :
  has_char "." name = true →
  ∃ pre suf, name = pre +:+ "." +:+ suf ∧ has_char "." suf = false.
Proof.
  induction name as [|a s IH]; [done |]. simpl has_char.
  destruct (has_char "." s) eqn:Hs.
  - intros _. destruct (IH eq_refl) as (pre & suf & -> & Hsuf).
    by exists (String a pre), suf.
  - rewrite orb_false_r. intros ->%Ascii.eqb_eq. by exists "", s.
Qed.

Lemma splitext_shape (name : string) :
  has_char "/" name = false →
  (posixpath.splitext name).1 +:+ (posixpath.splitext name).2 = name
  ∧ extension_like (posixpath.splitext name).2 = true.
Proof.
  intros Hsep. destruct (has_char "." name) eqn:Hdot.
  - destruct (last_dot_split name Hdot) as (pre & suf & -> & Hsuf).
    rewrite splitext_last_dot_spec by done.
    destruct (all_dots pre); cbn [fst snd].
    + by rewrite str_app_nil_r.
    + split; [done |].
      rewrite !has_char_app in Hsep.
      apply orb_false_iff in Hsep as [_ [_ Hs]%orb_false_iff].
      change ("." +:+ suf) with (String "." suf). cbn [extension_like].
      by rewrite Hsuf, Hs.
  - rewrite splitext_no_dot_spec by done. cbn [fst snd].
    by rewrite str_app_nil_r.
Qed.

(** X8.  For a file name as a directory lists it, the two parts that
    [os.path.splitext] returns make up the name, and the extension is
    empty or a dot followed by characters that are neither a dot nor a
    separator.  So a member of the allow-set of any other form, such as
    [swift] without its dot or [.tar.gz] with two, allows no file. *)
Theorem X8_extension_shape :
  ∀ (name : string),
    has_char "/" name = false →
    (posixpath.splitext name).1 +:+ (posixpath.splitext name).2 = name
    ∧ extension_like (posixpath.splitext name).2 = true
    ∧ (∀ ALLOWED_EXTENSIONS : gset string,
         (∀ e, e ∈ ALLOWED_EXTENSIONS → extension_like e = false) →
         included ALLOWED_EXTENSIONS name = false)
    ∧ included {[ "swift" ]} name = false
    ∧ included {[ ".tar.gz" ]} name = false.
Proof.
  intros name Hsep. destruct (splitext_shape name Hsep) as [E S].
  assert (∀ A : gset string,
            (∀ e, e ∈ A → extension_like e = false) →
            included A name = false) as G.
  { intros A HA. unfold included. apply bool_decide_eq_false.
    intros Hin. apply HA in Hin. by rewrite S in Hin. }
  split_and!; [done | done | done | |].
  - apply G. by intros e ->%elem_of_singleton.
  - apply G. by intros e ->%elem_of_singleton.
Qed.

(** X8 at a file name with two dots. *)
Lemma X8_extension_shape_witness :
  has_char "/" "archive.tar.gz" = false
  ∧ extension_like (posixpath.splitext "archive.tar.gz").2 = true
  ∧ included {[ ".tar.gz" ]} "archive.tar.gz" = false.
Proof.
  split; [reflexivity |].
  destruct (X8_extension_shape "archive.tar.gz" eq_refl)
    as (_ & S & _ & _ & T).
  exact (conj S T).
Defined.

(** ** Every directory once *)

Lemma abs_path_inj (l1 l2 : list string) :
  forallb valid_name l1 = true → forallb valid_name l2 = true →
  abs_path l1 = abs_path l2 → l1 = l2.
Proof.
  intros H1 H2. rewrite !abs_path_cons. intros [= E].
  destruct (decide (l1 = [])) as [->|N1].
  - destruct (decide (l2 = [])) as [->|N2]; [done |].
    by destruct (join_valid_ne l2 H2 N2).
  - destruct (decide (l2 = [])) as [->|N2].
    + by destruct (join_valid_ne l1 H1 N1).
    + apply join_inj; [by apply valid_names_nosep.. | done | done | done].
Qed.

Lemma NoDup_walk_dirpaths (IGNORE_DIRS : gset string) (rcomps : list string)
      (t : tree) :
  forallb valid_name rcomps = true → wf_tree t = true →
  NoDup ((λ node, node.1.1)
           <$> os.walk (keep IGNORE_DIRS) (abs_path rcomps) t).
Proof.
  intros Hr Hwf. rewrite walk_visited, <- list_fmap_compose.
  apply NoDup_fmap_2_strong; [| by apply NoDup_visited].
  intros n1 n2 H1 H2. cbn [compose fst snd]. intros E.
  apply (visited_same_path IGNORE_DIRS t); [done | done |].
  pose proof (visited_valid _ _ _ Hwf H1) as V1.
  pose proof (visited_valid _ _ _ Hwf H2) as V2.
  rewrite !path_of_abs_path in E by done.
  apply abs_path_inj in E; [| by rewrite forallb_app, Hr, ?V1, ?V2..].
  by apply app_inv_head in E.
Qed.

(** X9.  Below a normalised root and in a well-formed tree, [os.walk],
    with the edit of either script, yields no directory path twice: a
    directory is listed, and its files are looked at, once in each
    pass. *)
Theorem X9_every_directory_once :
  ∀ (rcomps : list string) (t : tree),
    forallb valid_name rcomps = true → wf_tree t = true →
    NoDup ((λ node, node.1.1)
             <$> os.walk merge_code.keep (abs_path rcomps) t)
    ∧ NoDup ((λ node, node.1.1)
               <$> os.walk mergecode.keep (abs_path rcomps) t).
Proof.
  intros rcomps t Hr Hwf. split; by apply NoDup_walk_dirpaths.
Qed.

(** X9 at the scenario. *)
Lemma X9_every_directory_once_witness :
  forallb valid_name scenario_root = true ∧ wf_tree scenario = true
  ∧ NoDup ((λ node, node.1.1)
             <$> os.walk merge_code.keep (abs_path scenario_root) scenario).
Proof.
  split; [reflexivity |]. split; [reflexivity |].
  exact (proj1 (X9_every_directory_once scenario_root scenario
                  eq_refl eq_refl)).
Defined.

(** ** The two scripts side by side *)

Lemma filter_ext_elem {A : Type} (P Q : A → Prop)
      `{∀ x, Decision (P x)} `{∀ x, Decision (Q x)} (l : list A) :
  (∀ x, x ∈ l → P x ↔ Q x) → filter P l = filter Q l.
Proof.
  induction l as [|x l IH]; [done |]. intros HPQ.
  rewrite !filter_cons, IH by (intros y Hy; apply HPQ; by right).
  pose proof (HPQ x (list_elem_of_here _ _)) as Hx.
  destruct (decide (P x)), (decide (Q x)); tauto || done.
Qed.

Lemma allowed_in_both (e : string) :
  e ∉ one_script_only →
  e ∈ merge_code.ALLOWED_EXTENSIONS ↔ e ∈ mergecode.ALLOWED_EXTENSIONS.
Proof.
  unfold one_script_only, merge_code.ALLOWED_EXTENSIONS,
    mergecode.ALLOWED_EXTENSIONS.
  rewrite !not_elem_of_cons, !elem_of_union, !elem_of_singleton.
  tauto.
Qed.

(** X10.  On a tree that has, in the directories that no ignored name
    leads to, no file with one of the extensions that only one script
    allows ([.h], [.m], [.c], [.xcprivacy], [.plist]), the two scripts
    write the same files in the same order; so, in a working directory
    that a run goes through, their content sections differ in the
    spacing of the blocks only, and they print the same diagnostics. *)
Theorem X10_scripts_agree :
  ∀ (t : tree),
    (∀ ds f c,
       Forall (λ d, d ∉ merge_code.IGNORE_DIRS) ds → file_in t ds f c →
       (posixpath.splitext f).2 ∉ one_script_only) →
    selected merge_code.ALLOWED_EXTENSIONS merge_code.IGNORE_DIRS t
    = selected mergecode.ALLOWED_EXTENSIONS mergecode.IGNORE_DIRS t
    ∧ (∀ rcomps,
         forallb valid_name rcomps = true → forallb utf8 rcomps = true →
         wf_tree t = true → utf8_tree t = true →
         "FullProjectSource.txt" ∉ (subdirs t).*1 →
         document (mergecode.merge_files (abs_path rcomps) t).2
         = structure mergecode.ALLOWED_EXTENSIONS mergecode.IGNORE_DIRS
             (abs_path rcomps) t
           +:+ content_with merge_code.ALLOWED_EXTENSIONS
                 merge_code.IGNORE_DIRS "" (LF +:+ LF) relative t
         ∧ stdout (mergecode.merge_files (abs_path rcomps) t).2
           = ["Generating folder structure..."; "Merging file contents..."]
             ++ removelast
                  (stdout (merge_code.merge_files (abs_path rcomps) t).2)
             ++ ["✅ Success! Structure and code combined into: FullProjectSource.txt"]
         ∧ (merge_code_raising.merge_files (abs_path rcomps) t).2
           = returned (merge_code.merge_files (abs_path rcomps) t).2
         ∧ (mergecode_raising.merge_files (abs_path rcomps) t).2
           = returned (mergecode.merge_files (abs_path rcomps) t).2).
Proof.
  intros t H.
  assert (selected merge_code.ALLOWED_EXTENSIONS merge_code.IGNORE_DIRS t
          = selected mergecode.ALLOWED_EXTENSIONS mergecode.IGNORE_DIRS t)
    as S.
  { unfold selected.
    change (visited mergecode.IGNORE_DIRS t)
      with (visited merge_code.IGNORE_DIRS t).
    apply Forall_bind_ext, Forall_forall.
    intros node (ds & sub & -> & Hds & Hat)%elem_of_visited.
    cbn [fst snd]. f_equal. apply filter_ext_elem. intros [f c] Hin.
    cbn [fst]. unfold included. rewrite !bool_decide_eq_true.
    apply allowed_in_both, (H ds f c Hds). by exists sub. }
  split; [done |].
  intros rcomps Hr Hru Hwf Hu Hout. split_and!.
  - rewrite mergecode_run. cbv zeta. cbn [snd document].
    rewrite content_relative by done.
    unfold content_with. by rewrite S.
  - rewrite mergecode_run, merge_code_run. cbv zeta.
    cbn [snd stdout]. rewrite removelast_last.
    unfold diagnostics_with. by rewrite S.
  - rewrite merge_code_goes_through; [done | done |].
    by apply selected_encodes.
  - by rewrite mergecode_goes_through.
Qed.

(** X10 at the scenario. *)
Lemma X10_scripts_agree_witness :
  selected merge_code.ALLOWED_EXTENSIONS merge_code.IGNORE_DIRS scenario
  = selected mergecode.ALLOWED_EXTENSIONS mergecode.IGNORE_DIRS scenario.
Proof.
  refine (proj1 (X10_scripts_agree scenario _)).
  intros ds f c Hds (sub & Hat & Hin).
  destruct ds as [|d ds]; cbn [dir_at scenario subdirs resolve] in Hat.
  - injection Hat as <-. cbn [scenario entries] in Hin.
    by apply elem_of_nil in Hin.
  - apply Forall_cons in Hds as [Hd Hds].
    destruct (String.eqb_spec "src" d) as [<-|_].
    + destruct ds as [|d' ds]; [| done]. injection Hat as <-.
      cbn [entries] in Hin.
      apply list_elem_of_singleton in Hin as [= -> ->].
      by apply (bool_decide_eq_false_1 _).
    + destruct (String.eqb_spec "Pods" d) as [<-|_].
      * destruct Hd. by apply (bool_decide_eq_true_1 _).
      * destruct (String.eqb_spec "build" d) as [<-|_]; [| done].
        destruct Hd. by apply (bool_decide_eq_true_1 _).
Defined.

(** ** The two sections of [mergecode.py] *)

Lemma contains_own_line (l : list string) (x : string) :
  x ∈ l →
  ∀ pre,
    str.contains (pre +:+ LF +:+ concat_str ((λ y, y +:+ LF) <$> l))
      (LF +:+ x +:+ LF) = true.
Proof.
  induction 1 as [x l|x y l _ IH]; intros pre;
    rewrite fmap_cons; simpl concat_str.
  - apply contains_app_l.
    replace (LF +:+ (x +:+ LF) +:+ concat_str ((λ y, y +:+ LF) <$> l))
      with ((LF +:+ x +:+ LF) +:+ concat_str ((λ y, y +:+ LF) <$> l))
      by (by rewrite !str_app_assoc).
    apply contains_app_r, contains_self.
  - replace (pre +:+ LF +:+ (y +:+ LF) +:+ concat_str ((λ y, y +:+ LF) <$> l))
      with ((pre +:+ LF +:+ y) +:+ LF
            +:+ concat_str ((λ y, y +:+ LF) <$> l))
      by (by rewrite !str_app_assoc).
    apply IH.
Qed.

(** The line of an included file of a directory stands on its own in
    the lines of that directory: a newline comes right before its
    indentation. *)
Lemma contains_dir_lines (ALLOWED_EXTENSIONS : gset string)
      (startpath : string)
      (node : list string * list string * list (string * file))
      (f : string) (c : file) :
  (f, c) ∈ node.2 → included ALLOWED_EXTENSIONS f = true →
  str.contains (dir_lines ALLOWED_EXTENSIONS startpath node)
    (LF +:+ str.mul (str.mul " " 4) (level_of startpath node.1.1 + 1)
     +:+ f +:+ LF)
  = true.
Proof.
  intros Hin Hf. unfold dir_lines. cbv zeta.
  set (sub := str.mul (str.mul " " 4) (level_of startpath node.1.1 + 1)).
  set (chosen := filter (λ e : string * file,
                           included ALLOWED_EXTENSIONS e.1 = true) node.2).
  assert ((λ e : string * file, sub +:+ e.1 +:+ LF) <$> chosen
          = (λ y, y +:+ LF) <$> ((λ e : string * file, sub +:+ e.1) <$> chosen))
    as E.
  { rewrite <- list_fmap_compose. apply Forall_fmap_ext, Forall_forall.
    intros e _. cbn [compose]. by rewrite str_app_assoc. }
  rewrite E.
  replace (LF +:+ sub +:+ f +:+ LF) with (LF +:+ (sub +:+ f) +:+ LF)
    by (by rewrite !str_app_assoc).
  rewrite <- !str_app_assoc.
  rewrite (str_app_assoc _ LF).
  apply contains_own_line.
  apply list_elem_of_fmap. exists (f, c). split; [done |].
  by apply list_elem_of_filter.
Qed.

(** X11.  In a working directory that a run goes through, every file
    that gets a block in the content section of [mergecode.py] has a
    line of its own in the structure section: a newline, the
    indentation one level further in than its directory, the name of
    the file, a newline. *)
Theorem X11_written_files_are_listed :
  ∀ (rcomps : list string) (t : tree) (ds : list string) (f : string)
    (c : file),
    forallb valid_name rcomps = true → forallb utf8 rcomps = true →
    wf_tree t = true → utf8_tree t = true →
    "FullProjectSource.txt" ∉ (subdirs t).*1 →
    (ds, f, c) ∈ selected mergecode.ALLOWED_EXTENSIONS
                   mergecode.IGNORE_DIRS t →
    str.contains
      (structure mergecode.ALLOWED_EXTENSIONS mergecode.IGNORE_DIRS
         (abs_path rcomps) t)
      (LF +:+ str.mul "    " (level_of (abs_path rcomps) ds + 1)
       +:+ f +:+ LF) = true
    ∧ str.contains
        (document (mergecode.merge_files (abs_path rcomps) t).2)
        (LF +:+ str.mul "    " (level_of (abs_path rcomps) ds + 1)
         +:+ f +:+ LF) = true
    ∧ utf8 (str.mul "    " (level_of (abs_path rcomps) ds + 1)
            +:+ f +:+ LF) = true
    ∧ String.prefix
        (structure mergecode.ALLOWED_EXTENSIONS mergecode.IGNORE_DIRS
           (abs_path rcomps) t)
        (document (mergecode.merge_files (abs_path rcomps) t).2) = true
    ∧ (mergecode_raising.merge_files (abs_path rcomps) t).2
      = returned (mergecode.merge_files (abs_path rcomps) t).2.
Proof.
  intros rcomps t ds f c Hr Hru Hwf Hu Hout Hsel.
  pose proof Hsel as (Hds & (sub & Hat & Hin) & Hf)%elem_of_selected.
  assert (str.contains
            (structure mergecode.ALLOWED_EXTENSIONS mergecode.IGNORE_DIRS
               (abs_path rcomps) t)
            (LF +:+ str.mul "    " (level_of (abs_path rcomps) ds + 1)
             +:+ f +:+ LF) = true)
    as S.
  { unfold structure. do 4 apply contains_app_l. apply contains_app_r.
    apply (contains_concat_str _
             (dir_lines mergecode.ALLOWED_EXTENSIONS (abs_path rcomps)
                (ds, (subdirs sub).*1, entries sub))).
    - apply list_elem_of_fmap. eexists. split; [done |].
      apply elem_of_visited. by exists ds, sub.
    - by apply (contains_dir_lines _ _ (ds, (subdirs sub).*1, entries sub)
                  f c). }
  split_and!; [done | | | |].
  - rewrite mergecode_run. cbv zeta. cbn [snd document].
    by apply contains_app_r.
  - apply utf8_app; [by apply utf8_mul |]. apply utf8_app; [| done].
    assert (file_in t ds f c) as F by (by exists sub).
    pose proof (file_in_utf8 t ds f c Hu F) as V.
    rewrite forallb_app in V. apply andb_true_iff in V as [_ V].
    simpl in V. by rewrite andb_true_r in V.
  - rewrite mergecode_run. cbv zeta. cbn [snd document].
    apply prefix_app.
  - by rewrite mergecode_goes_through.
Qed.

(** X11 at the file of the scenario that is written. *)
Lemma X11_written_files_are_listed_witness :
  forallb valid_name scenario_root = true
  ∧ forallb utf8 scenario_root = true
  ∧ wf_tree scenario = true ∧ utf8_tree scenario = true
  ∧ ("FullProjectSource.txt" ∉ (subdirs scenario).*1)
  ∧ (["src"], "main.swift", Text "A")
      ∈ selected mergecode.ALLOWED_EXTENSIONS mergecode.IGNORE_DIRS scenario
  ∧ str.contains
      (document (mergecode.merge_files (abs_path scenario_root) scenario).2)
      (LF +:+ str.mul "    " (level_of (abs_path scenario_root) ["src"] + 1)
       +:+ "main.swift" +:+ LF) = true.
Proof.
  assert ("FullProjectSource.txt" ∉ (subdirs scenario).*1) as N
    by (by apply (bool_decide_eq_false_1 _)).
  assert ((["src"], "main.swift", Text "A")
            ∈ selected mergecode.ALLOWED_EXTENSIONS mergecode.IGNORE_DIRS
                scenario) as H by (vm_compute; left).
  do 4 (split; [reflexivity |]). split; [exact N |]. split; [exact H |].
  exact (proj1 (proj2 (X11_written_files_are_listed scenario_root scenario
                         ["src"] "main.swift" (Text "A")
                         eq_refl eq_refl eq_refl eq_refl N H))).
Defined.

(** ** Reading the path back from a [FILE:] line *)

(** X12.  Below a normalised root, the path written for a file, split at
    the separator, is the names of the directories that lead to the file
    followed by the name of the file: it has no empty, [.] or [..]
    component. *)
Theorem X12_written_path_components :
  ∀ (rcomps ds : list string) (f : string),
    forallb valid_name rcomps = true →
    forallb valid_name (ds ++ [f]) = true →
    str.split
      (posixpath.relpath (abs_path rcomps)
         (posixpath.join (path_of (abs_path rcomps) ds) f)
         (abs_path rcomps)) "/"
    = ds ++ [f].
Proof.
  intros rcomps ds f Hr Hv.
  pose proof (emitted_path_relative rcomps ds f Hr Hv) as E.
  unfold emitted_path, relative in E. rewrite E.
  apply split_join; [by apply valid_names_nosep | by destruct ds].
Qed.

(** X12 at a file two directories down. *)
Lemma X12_written_path_components_witness :
  forallb valid_name scenario_root = true
  ∧ forallb valid_name (["a"; "b"] ++ ["c.swift"]) = true
  ∧ str.split
      (posixpath.relpath (abs_path scenario_root)
         (posixpath.join (path_of (abs_path scenario_root) ["a"; "b"])
            "c.swift")
         (abs_path scenario_root)) "/"
    = ["a"; "b"] ++ ["c.swift"].
Proof.
  split; [reflexivity |]. split; [reflexivity |].
  exact (X12_written_path_components scenario_root ["a"; "b"] "c.swift"
           eq_refl eq_refl).
Defined.

(** ** The runs on the stream that raises *)

(** X13.  In a working directory that a run goes through (below a
    normalised root, a well-formed tree whose names are valid UTF-8, no
    sub-directory of the name of the output file) neither script raises
    on the stream that raises: the run leaves the file system, the
    document and the printed lines that [merge_files] gives.  For
    [merge_code.py] it is enough that the output file opens and that
    the paths written are valid UTF-8, and no less will do. *)
Theorem X13_run_goes_through :
  (∀ (rcomps : list string) (t : tree),
     forallb valid_name rcomps = true → forallb utf8 rcomps = true →
     wf_tree t = true → utf8_tree t = true →
     "FullProjectSource.txt" ∉ (subdirs t).*1 →
     merge_code_raising.merge_files (abs_path rcomps) t
     = ((merge_code.merge_files (abs_path rcomps) t).1,
        returned (merge_code.merge_files (abs_path rcomps) t).2)
     ∧ mergecode_raising.merge_files (abs_path rcomps) t
       = ((mergecode.merge_files (abs_path rcomps) t).1,
          returned (mergecode.merge_files (abs_path rcomps) t).2))
  ∧ (∀ (root_dir : string) (t : tree),
       "FullProjectSource.txt" ∉ (subdirs t).*1 →
       Forall (λ item,
                 utf8 (emitted_path root_dir item.1.1 item.1.2) = true)
              (selected merge_code.ALLOWED_EXTENSIONS
                 merge_code.IGNORE_DIRS t) →
       merge_code_raising.merge_files root_dir t
       = ((merge_code.merge_files root_dir t).1,
          returned (merge_code.merge_files root_dir t).2))
  ∧ (∀ (root_dir : string) (t : tree),
       raised (merge_code_raising.merge_files root_dir t).2 = None ↔
       ("FullProjectSource.txt" ∉ (subdirs t).*1)
       ∧ Forall (λ item,
                   utf8 (emitted_path root_dir item.1.1 item.1.2) = true)
                (selected merge_code.ALLOWED_EXTENSIONS
                   merge_code.IGNORE_DIRS t)).
Proof.
  split_and!.
  - intros rcomps t Hr Hru Hwf Hu Hout. split.
    + apply merge_code_goes_through; [done |]. by apply selected_encodes.
    + by apply mergecode_goes_through.
  - apply merge_code_goes_through.
  - intros root_dir t. split.
    + intros H.
      destruct (decide ("FullProjectSource.txt" ∈ (subdirs t).*1))
        as [Hin|Hout].
      { unfold merge_code_raising.merge_files in H.
        by rewrite bool_decide_eq_true_2 in H by done. }
      split; [done |].
      destruct (decide
                  (Forall (λ item,
                             utf8 (emitted_path root_dir item.1.1 item.1.2)
                             = true)
                     (selected merge_code.ALLOWED_EXTENSIONS
                        merge_code.IGNORE_DIRS t))) as [F|F]; [done |].
      apply (first_failure
               (λ item, utf8 (emitted_path root_dir item.1.1 item.1.2)))
        in F as (before & item & rest & E & Hb & Hi).
      rewrite merge_code_raising_run in H by done. cbv zeta in H.
      rewrite E in H.
      rewrite each_selected_cut in H; [done | done | done | | done | done].
      apply (Forall_upto _ _ rest). rewrite <- E. apply selected_included.
    + intros [Hout F]. by rewrite merge_code_goes_through.
Qed.

(** X13 at the scenario. *)
Lemma X13_run_goes_through_witness :
  forallb valid_name scenario_root = true
  ∧ forallb utf8 scenario_root = true
  ∧ wf_tree scenario = true ∧ utf8_tree scenario = true
  ∧ ("FullProjectSource.txt" ∉ (subdirs scenario).*1)
  ∧ mergecode_raising.merge_files (abs_path scenario_root) scenario
    = ((mergecode.merge_files (abs_path scenario_root) scenario).1,
       returned (mergecode.merge_files (abs_path scenario_root) scenario).2).
Proof.
  assert ("FullProjectSource.txt" ∉ (subdirs scenario).*1) as N
    by (by apply (bool_decide_eq_false_1 _)).
  do 4 (split; [reflexivity |]). split; [exact N |].
  exact (proj2 (proj1 X13_run_goes_through scenario_root scenario
                  eq_refl eq_refl eq_refl eq_refl N)).
Defined.

(** X14.  A run of [merge_code.py] stops at the first selected file
    whose path is not valid UTF-8: the FILE line of that file raises
    [UnicodeEncodeError] outside the [try].  The output file is left
    with the blocks of the files before it and the first separator line
    of its own block; the diagnostics of the files before it have been
    printed, the success message has not.  With the Latin-1 name
    [caf\xe9.swift] before [main.swift], [main.swift] gets no block;
    [mergecode.py] stops in the structure pass, at the line of that
    file.  Where a sub-directory has the name of the output file,
    [open] raises and nothing is written. *)
Theorem X14_run_stops_at_bad_name :
  (∀ (root_dir : string) (t : tree)
     (before rest : list (list string * string * file))
     (item : list string * string * file),
     "FullProjectSource.txt" ∉ (subdirs t).*1 →
     selected merge_code.ALLOWED_EXTENSIONS merge_code.IGNORE_DIRS t
     = before ++ item :: rest →
     Forall (λ item,
               utf8 (emitted_path root_dir item.1.1 item.1.2) = true)
            before →
     utf8 (emitted_path root_dir item.1.1 item.1.2) = false →
     merge_code_raising.merge_files root_dir t
     = (close_w merge_code.OUTPUT_FILE
          (cut_short LF LF (emitted_path root_dir) before)
          (open_w merge_code.OUTPUT_FILE t),
        Run (World (cut_short LF LF (emitted_path root_dir) before)
               (before ≫= λ item,
                  diagnostic (emitted_path root_dir item.1.1 item.1.2)
                    item.2))
            (Some (UnicodeEncodeError
                     ("FILE: " +:+ emitted_path root_dir item.1.1 item.1.2
                      +:+ LF)))))
  ∧ merge_code_raising.merge_files "/home/u/proj" latin1_first
    = (Dir [] [(latin1_name, Text "x"); ("main.swift", Text "A");
               ("FullProjectSource.txt", Text (LF +:+ separator +:+ LF))],
       Run (World (LF +:+ separator +:+ LF) [])
           (Some (UnicodeEncodeError ("FILE: " +:+ latin1_name +:+ LF))))
  ∧ (mergecode_raising.merge_files "/home/u/proj" latin1_first).2
    = Run (World ("PROJECT STRUCTURE:" +:+ LF +:+ "==================" +:+ LF
                  +:+ "proj/" +:+ LF)
             ["Generating folder structure..."])
          (Some (UnicodeEncodeError ("    " +:+ latin1_name +:+ LF)))
  ∧ merge_code_raising.merge_files "/home/u/proj" output_is_directory
    = (output_is_directory,
       Run (World "" []) (Some (IsADirectoryError "FullProjectSource.txt")))
  ∧ mergecode_raising.merge_files "/home/u/proj" output_is_directory
    = (output_is_directory,
       Run (World "" []) (Some (IsADirectoryError "FullProjectSource.txt"))).
Proof.
  split_and!; [| by vm_compute ..].
  intros root_dir t before rest item Hout E Hb Hi.
  rewrite merge_code_raising_run by done. cbv zeta. rewrite E.
  rewrite each_selected_cut; [| done | done | | done | done].
  - cbn [made document stdout]. by rewrite str_app_nil_l.
  - apply (Forall_upto _ _ rest). rewrite <- E. apply selected_included.
Qed.

(** X14 at the working directory with the Latin-1 name first. *)
Lemma X14_run_stops_at_bad_name_witness :
  ("FullProjectSource.txt" ∉ (subdirs latin1_first).*1)
  ∧ selected merge_code.ALLOWED_EXTENSIONS merge_code.IGNORE_DIRS latin1_first
    = [] ++ ([], latin1_name, Text "x") :: [([], "main.swift", Text "A")]
  ∧ Forall (λ item : list string * string * file,
              utf8 (emitted_path "/home/u/proj" item.1.1 item.1.2) = true) []
  ∧ utf8 (emitted_path "/home/u/proj" [] latin1_name) = false
  ∧ raised (merge_code_raising.merge_files "/home/u/proj" latin1_first).2
    = Some (UnicodeEncodeError
              ("FILE: " +:+ emitted_path "/home/u/proj" [] latin1_name
               +:+ LF)).
Proof.
  assert ("FullProjectSource.txt" ∉ (subdirs latin1_first).*1) as N
    by (by apply (bool_decide_eq_false_1 _)).
  assert (selected merge_code.ALLOWED_EXTENSIONS merge_code.IGNORE_DIRS
            latin1_first
          = [] ++ ([], latin1_name, Text "x")
                  :: [([], "main.swift", Text "A")]) as E
    by (vm_compute; reflexivity).
  assert (Forall (λ item : list string * string * file,
                    utf8 (emitted_path "/home/u/proj" item.1.1 item.1.2)
                    = true) []) as F by constructor.
  split; [exact N |]. split; [exact E |]. split; [exact F |].
  split; [reflexivity |].
  rewrite (proj1 X14_run_stops_at_bad_name "/home/u/proj" latin1_first []
             [([], "main.swift", Text "A")] ([], latin1_name, Text "x")
             N E F eq_refl).
  reflexivity.
Defined.

(** X15.  Also on the stream that raises, what a run writes and prints,
    and whether and where it raises, depends on the visible part of the
    tree only. *)
Theorem X15_raising_run_visible_part :
  (∀ (root_dir : string) (t1 t2 : tree),
     visible merge_code.ALLOWED_EXTENSIONS merge_code.IGNORE_DIRS t1
     = visible merge_code.ALLOWED_EXTENSIONS merge_code.IGNORE_DIRS t2 →
     (merge_code_raising.merge_files root_dir t1).2
     = (merge_code_raising.merge_files root_dir t2).2)
  ∧ (∀ (root_dir : string) (t1 t2 : tree),
       visible mergecode.ALLOWED_EXTENSIONS mergecode.IGNORE_DIRS t1
       = visible mergecode.ALLOWED_EXTENSIONS mergecode.IGNORE_DIRS t2 →
       (mergecode_raising.merge_files root_dir t1).2
       = (mergecode_raising.merge_files root_dir t2).2).
Proof.
  split.
  - intros root_dir t1 t2 V.
    assert (merge_code.OUTPUT_FILE ∈ (subdirs t1).*1 ↔
            merge_code.OUTPUT_FILE ∈ (subdirs t2).*1) as D.
    { rewrite <- (output_dir_visible merge_code.ALLOWED_EXTENSIONS
                    merge_code.IGNORE_DIRS _ t1),
        <- (output_dir_visible merge_code.ALLOWED_EXTENSIONS
              merge_code.IGNORE_DIRS _ t2), V;
        [done | by apply (bool_decide_eq_false_1 _) ..]. }
    destruct (decide (merge_code.OUTPUT_FILE ∈ (subdirs t1).*1)) as [H1|H1].
    + unfold merge_code_raising.merge_files.
      by rewrite !bool_decide_eq_true_2 by tauto.
    + rewrite !merge_code_raising_run by tauto. cbv zeta. cbn [snd].
      by rewrite <- (selected_visible _ _ t1), V, selected_visible.
  - intros root_dir t1 t2 V.
    assert (mergecode.OUTPUT_FILE ∈ (subdirs t1).*1 ↔
            mergecode.OUTPUT_FILE ∈ (subdirs t2).*1) as D.
    { rewrite <- (output_dir_visible mergecode.ALLOWED_EXTENSIONS
                    mergecode.IGNORE_DIRS _ t1),
        <- (output_dir_visible mergecode.ALLOWED_EXTENSIONS
              mergecode.IGNORE_DIRS _ t2), V;
        [done | by apply (bool_decide_eq_false_1 _) ..]. }
    destruct (decide (mergecode.OUTPUT_FILE ∈ (subdirs t1).*1)) as [H1|H1].
    + unfold mergecode_raising.merge_files.
      by rewrite !bool_decide_eq_true_2 by tauto.
    + rewrite !mergecode_raising_run by tauto. cbv zeta. cbn [snd].
      rewrite <- (selected_visible _ _ t1),
        <- (write_tree_structure_raising_visible _ t1), V.
      by rewrite selected_visible, write_tree_structure_raising_visible.
Qed.

(** X15 at the scenario and at the tree with other excluded files. *)
Lemma X15_raising_run_visible_part_witness :
  visible merge_code.ALLOWED_EXTENSIONS merge_code.IGNORE_DIRS scenario
  = visible merge_code.ALLOWED_EXTENSIONS merge_code.IGNORE_DIRS
      scenario_changed
  ∧ (merge_code_raising.merge_files "/home/u/proj" scenario).2
    = (merge_code_raising.merge_files "/home/u/proj" scenario_changed).2.
Proof.
  assert (visible merge_code.ALLOWED_EXTENSIONS merge_code.IGNORE_DIRS
            scenario
          = visible merge_code.ALLOWED_EXTENSIONS merge_code.IGNORE_DIRS
              scenario_changed) as V by (vm_compute; reflexivity).
  split; [exact V |].
  exact (proj1 X15_raising_run_visible_part "/home/u/proj"
           scenario scenario_changed V).
Defined.

(** X16.  Also on the stream that raises, a second run over the tree
    that the first run left comes to the same: the same file system,
    document and printed lines, and the same exception if the first run
    raised one. *)
Theorem X16_raising_second_run :
  ∀ (root_dir : string) (t : tree),
    merge_code_raising.merge_files root_dir
      (merge_code_raising.merge_files root_dir t).1
    = merge_code_raising.merge_files root_dir t
    ∧ mergecode_raising.merge_files root_dir
        (mergecode_raising.merge_files root_dir t).1
      = mergecode_raising.merge_files root_dir t.
Proof.
  intros root_dir t. split.
  - destruct (decide (merge_code.OUTPUT_FILE ∈ (subdirs t).*1)) as [H|H].
    + unfold merge_code_raising.merge_files.
      rewrite (bool_decide_eq_true_2 _ H). cbn [fst].
      by rewrite (bool_decide_eq_true_2 _ H).
    + rewrite (merge_code_raising_run root_dir t) by done. cbv zeta.
      cbn [fst].
      rewrite merge_code_raising_run by (by destruct t).
      cbv zeta.
      rewrite selected_close_w, selected_open_w
        by apply merge_code_output_excluded.
      by rewrite reopen.
  - destruct (decide (mergecode.OUTPUT_FILE ∈ (subdirs t).*1)) as [H|H].
    + unfold mergecode_raising.merge_files.
      rewrite (bool_decide_eq_true_2 _ H). cbn [fst].
      by rewrite (bool_decide_eq_true_2 _ H).
    + rewrite (mergecode_raising_run root_dir t) by done. cbv zeta.
      cbn [fst].
      rewrite mergecode_raising_run by (by destruct t).
      cbv zeta.
      rewrite selected_close_w, selected_open_w
        by apply mergecode_output_excluded.
      rewrite <- (write_tree_structure_raising_visible _ (close_w _ _ _)).
      rewrite visible_close_w, visible_open_w
        by apply mergecode_output_excluded.
      rewrite write_tree_structure_raising_visible.
      by rewrite reopen.
Qed.
